(** * did_jwt: creation and verification of DID-bound JWTs

    A shallow embedding of [src/did_jwt/__init__.py] and the properties of
    its encode / sign / verify pipeline.

    Conventions of the embedding.
    - A Python [str] and a Python [bytes] object are both a [string] (a
      sequence of octets; text is held as its UTF-8 octets).
    - A Python object that comes out of [json.loads] is a [value]; a [dict]
      is a finite map from strings ([gmap string value]), so that two dicts
      are equal exactly when they bind the same keys to the same values.
      Floating point numbers are outside the model.
    - A Python exception is a constructor of [exn]; a computation that may
      raise returns a [result].
    - The calls to the signer, the resolver and the verifier are recorded in
      a trace of [event]s, so that "is called once" and "is never called"
      can be stated. *)

From Stdlib Require Import ZArith String Ascii List Lia.
From Stdlib Require Import DecimalString DecimalZ DecimalPos.
From stdpp Require Import base option gmap strings list fin_maps sorting.

Local Open Scope Z_scope.
Local Set Warnings "-register-all".

(** ** Python values *)

Inductive value : Type :=
| VNone
| VBool (b : bool)
| VInt (n : Z)
| VStr (s : string)
| VList (l : list value)
| VDict (d : gmap string value).

Abbreviation dict := (gmap string value).

(** ** Exceptions and results *)

Inductive exn : Type :=
| AssertionError (msg : option string)
| AttributeError
| TypeError
| IndexError
| ValueError
| RecursionError
| BinasciiError
| UnicodeDecodeError
| JSONDecodeError
| CapabilityError (what : string).

Inductive result (A : Type) : Type :=
| Ok (a : A)
| Raise (e : exn).
Arguments Ok {A} a.
Arguments Raise {A} e.

#[global] Instance result_ret : MRet result := λ A a, Ok a.
#[global] Instance result_bind : MBind result := λ A B k r,
  match r with
  | Ok a => k a
  | Raise e => Raise e
  end.

(** [assert cond, msg] *)
Definition py_assert (cond : bool) (msg : option string) : result unit :=
  if cond then Ok tt else Raise (AssertionError msg).

(** A library call that signals failure with one fixed exception. *)
Definition or_raise {A : Type} (e : exn) (o : option A) : result A :=
  match o with
  | Some a => Ok a
  | None => Raise e
  end.

(** ** The Python operations the module uses *)

Definition bool_to_Z (b : bool) : Z := if b then 1 else 0.

(** [x is None] *)
Definition is_none (v : value) : bool :=
  match v with
  | VNone => true
  | _ => false
  end.

(** Truth value of an object, as [if x:] and [assert x] test it. *)
Definition truthy (v : value) : bool :=
  match v with
  | VNone => false
  | VBool b => b
  | VInt n => negb (n =? 0)
  | VStr s => negb (bool_decide (s = EmptyString))
  | VList l => negb (bool_decide (length l = 0%nat))
  | VDict d => negb (bool_decide (size d = 0%nat))
  end.

(** [a == b]: [bool] is a subclass of [int], so [True == 1]; lists compare
    element by element, dicts key by key. *)
Fixpoint py_eq (a b : value) {struct a} : bool :=
  match a, b with
  | VNone, VNone => true
  | VBool x, VBool y => Bool.eqb x y
  | VBool x, VInt n => bool_to_Z x =? n
  | VInt n, VBool y => n =? bool_to_Z y
  | VInt n, VInt m => n =? m
  | VStr s, VStr t => bool_decide (s = t)
  | VList l, VList k =>
      (fix go (l k : list value) : bool :=
         match l, k with
         | [], [] => true
         | x :: l', y :: k' => py_eq x y && go l' k'
         | _, _ => false
         end) l k
  | VDict d, VDict e =>
      bool_decide (size d = size e) &&
      map_fold (λ k x acc,
                  acc && match e !! k with
                         | Some y => py_eq x y
                         | None => false
                         end) true d
  | _, _ => false
  end.

(** [x in xs] for a list [xs] *)
Definition py_in (x : value) (xs : list value) : bool :=
  existsb (λ y, py_eq x y) xs.

(** [d.get(k)] on a dict: a missing key gives [None]. *)
Definition dict_get (d : dict) (k : string) : value :=
  default VNone (d !! k).

(** [obj.get(k)] on any object: only a dict has the method. *)
Definition py_get (obj : value) (k : string) : result value :=
  match obj with
  | VDict d => Ok (dict_get d k)
  | _ => Raise AttributeError
  end.

(** [x > n] and [x <= n] for an integer [n]: defined on numbers only. *)
Definition py_gt (x : value) (n : Z) : result bool :=
  match x with
  | VInt i => Ok (n <? i)
  | VBool b => Ok (n <? bool_to_Z b)
  | _ => Raise TypeError
  end.

Definition py_le (x : value) (n : Z) : result bool :=
  match x with
  | VInt i => Ok (i <=? n)
  | VBool b => Ok (bool_to_Z b <=? n)
  | _ => Raise TypeError
  end.

(** [s.split(sep)] for a one-character separator: never the empty list. *)
Fixpoint str_split (sep : ascii) (s : string) : list string :=
  match s with
  | EmptyString => [EmptyString]
  | String c s' =>
      if Ascii.eqb c sep then EmptyString :: str_split sep s'
      else match str_split sep s' with
           | p :: ps => String c p :: ps
           | [] => [String c EmptyString]
           end
  end.

(** [s.replace(c, "")] for a one-character [c] *)
Fixpoint str_remove (c : ascii) (s : string) : string :=
  match s with
  | EmptyString => EmptyString
  | String a s' =>
      if Ascii.eqb a c then str_remove c s' else String a (str_remove c s')
  end.

(** [sep.join(parts)] *)
Fixpoint str_join (sep : string) (parts : list string) : string :=
  match parts with
  | [] => EmptyString
  | [p] => p
  | p :: ps => p +:+ sep +:+ str_join sep ps
  end.

(** [obj.split("#")[0]]: only a [str] has the method; the list that [split]
    returns is never empty. *)
Definition py_split_first (sep : ascii) (obj : value) : result value :=
  match obj with
  | VStr s =>
      match str_split sep s with
      | p :: _ => Ok (VStr p)
      | [] => Raise IndexError
      end
  | _ => Raise AttributeError
  end.

(** [xs[0]] on a list *)
Definition list_first (xs : list value) : result value :=
  match xs with
  | x :: _ => Ok x
  | [] => Raise IndexError
  end.

Definition dot : ascii := "."%char.
Definition hash : ascii := "#"%char.
Definition pad_char : ascii := "="%char.

(** ** The libraries the module imports

    [base64], [json], [bytes.decode] and the JSON canonicalizer are used
    through their interface. [urlsafe_b64encode] stands for
    [base64.urlsafe_b64encode(b).decode("utf-8")]: the encoder's output is
    ASCII, so that decoding step cannot fail. A decoder answers with its
    result or with the exception it raises, whichever that is
    ([binascii.Error], [UnicodeDecodeError], [json.JSONDecodeError],
    [ValueError], [RecursionError], ...): the module catches none. *)

Class Codec : Type := {
  canonicalize : value → string;
  urlsafe_b64encode : string → string;
  urlsafe_b64decode : string → result string;
  utf8_decode : string → result string;
  json_loads : string → result value;
}.

Fixpoint str_repeat (c : ascii) (n : nat) : string :=
  match n with
  | O => EmptyString
  | S n' => String c (str_repeat c n')
  end.

(** Modelled from the spec: [src.util.pad_base64] is not among the sources.
    Section 4.2 has the decoder re-pad its input to a multiple of 4 with
    pad length [(4 - len % 4) % 4]. *)
Definition pad_base64 (s : string) : string :=
  s +:+ str_repeat pad_char ((4 - String.length s mod 4) mod 4).

(** [c in s] for a character [c] *)
Fixpoint str_mem (c : ascii) (s : string) : bool :=
  match s with
  | EmptyString => false
  | String a s' => Ascii.eqb a c || str_mem c s'
  end.

(** What the round trip needs of the libraries: the transport encoding has
    no dot and is undone by the decoder after its padding was stripped and
    put back, and the values [carried] are those that [json.loads] reads
    back from their canonical text. Which values are carried depends on the
    interpreter: [json.loads] gives up on an integer of too many digits and
    on a nesting that is too deep. *)
Class CodecLaws (C : Codec) (carried : value → Prop) : Prop := {
  b64_alphabet : ∀ b, str_mem dot (urlsafe_b64encode b) = false;
  b64_roundtrip : ∀ b,
    urlsafe_b64decode (pad_base64 (str_remove pad_char (urlsafe_b64encode b)))
    = Ok b;
  json_roundtrip : ∀ v,
    carried v →
    ∃ text, utf8_decode (canonicalize v) = Ok text ∧ json_loads text = Ok v;
}.

(** ** Capabilities and their trace *)

(** Modelled from the spec: [src.ebsi_did_resolver.resolve] is not among the
    sources. Section 3 gives its answer the shape
    [{ didDocument: { verificationMethod: ordered list of entries } }]. *)
Record did_document : Type := {
  verificationMethod : list value;
}.

Record did_resolution_result : Type := {
  didDocument : did_document;
}.

Inductive event : Type :=
| EvSign (signing_input : string)
| EvResolve (did : value) (config : dict)
| EvVerify (data signature : string) (authenticator : value).

(** What the module reads from outside: the clock (whole seconds) and the
    two imported capabilities, [resolve] and [verify_ES256K]. *)
Record world : Type := {
  time_time : Z;
  resolve : value → dict → result did_resolution_result;
  verify_ES256K : string → string → value → result bool;
}.

(** [options] of [create_jwt] *)
Record options : Type := {
  issuer : value;
  signer : string → result string;
}.

(** A computation that calls capabilities: the calls made, in order, and
    the outcome. *)
Definition M (A : Type) : Type := (list event * result A)%type.

Definition trace {A : Type} (m : M A) : list event := fst m.
Definition outcome {A : Type} (m : M A) : result A := snd m.

#[global] Instance M_ret : MRet M := λ A a, ([], Ok a).
#[global] Instance M_bind : MBind M := λ A B k m,
  match m with
  | (t, Ok a) => let '(t', r) := k a in (t ++ t', r)
  | (t, Raise e) => (t, Raise e)
  end.

Definition lift {A : Type} (r : result A) : M A := ([], r).
Definition await {A : Type} (ev : event) (r : result A) : M A := ([ev], r).

(** ** The module *)

Record jws : Type := {
  jws_header : value;
  jws_payload : string;
  jws_signature : string;
  jws_data : string;
}.

Record jwt : Type := {
  jwt_header : value;
  jwt_payload : value;
  jwt_signature : string;
  jwt_data : string;
}.

(** [json.loads(base64.urlsafe_b64decode(pad_base64(seg)).decode("utf-8"))] *)
Definition loads_segment `{Codec} (seg : string) : result value :=
  raw ← urlsafe_b64decode (pad_base64 seg);
  text ← utf8_decode raw;
  json_loads text.

Definition decode_jws `{Codec} (token : string) : result jws :=
  let parts := str_split dot token in
  _ ← py_assert (bool_decide (length parts = 3%nat)) None;
  match parts with
  | [p0; p1; p2] =>
      header ← loads_segment p0;
      Ok {| jws_header := header;
            jws_payload := p1;
            jws_signature := p2;
            jws_data := p0 +:+ "." +:+ p1 |}
  | _ => Raise (AssertionError None)
  end.

Definition decode_jwt `{Codec} (token : string) : result jwt :=
  j ← decode_jws token;
  payload ← loads_segment (jws_payload j);
  Ok {| jwt_header := jws_header j;
        jwt_payload := payload;
        jwt_signature := jws_signature j;
        jwt_data := jws_data j |}.

Definition create_jws `{Codec}
    (payload : value) (signer : string → result string) (header : value)
  : M string :=
  let encoded_payload :=
    str_remove pad_char (urlsafe_b64encode (canonicalize payload)) in
  let encoded_header :=
    str_remove pad_char (urlsafe_b64encode (canonicalize header)) in
  let signing_input := str_join "." [encoded_header; encoded_payload] in
  signature ← await (EvSign signing_input) (signer signing_input);
  let signature := str_remove pad_char signature in
  mret (str_join "." [signing_input; signature]).

Definition EXPIRATION_TIME : Z := 300.

(** [{**base, **over}]: the entries of [over] win. *)
Definition dict_overlay (base over : dict) : dict := over ∪ base.

Definition create_jwt `{Codec}
    (w : world) (payload : dict) (opts : options) (header : value)
  : M string :=
  let iat := time_time w in
  let timestamps : dict :=
    <["exp" := VInt (iat + EXPIRATION_TIME)]> (<["iat" := VInt iat]> ∅) in
  let full_payload :=
    <["iss" := issuer opts]> (dict_overlay timestamps payload) in
  create_jws (VDict full_payload) (signer opts) header.

(** [full_payload] of [create_jwt] *)
Definition full_payload (iat : Z) (payload : dict) (iss : value) : dict :=
  <["iss" := iss]>
    (dict_overlay (<["exp" := VInt (iat + EXPIRATION_TIME)]>
                     (<["iat" := VInt iat]> ∅)) payload).

Definition SELF_ISSUED : string := "https://self-issued.me/v2".

(** Lines 102-119 of [verify_jwt]: the DID whose document is resolved. *)
Definition subject_did (header payload : value) : result value :=
  iss ← py_get payload "iss";
  _ ← py_assert (negb (is_none iss)) (Some "Missing issuer");
  if py_eq iss (VStr SELF_ISSUED) then
    sub ← py_get payload "sub";
    _ ← py_assert (negb (is_none sub)) (Some "Missing subject");
    sub_jwk ← py_get payload "sub_jwk";
    if is_none sub_jwk then Ok sub
    else (kid ← py_get header "kid"; py_split_first hash kid)
  else Ok iss.

(** Lines 132-157 of [verify_jwt]: the checks on [exp], [iat] and [aud]. *)
Definition validate_claims (now : Z) (payload : value) (config : dict)
  : result unit :=
  let skew_time := 300 in
  let now_skewed := now + skew_time in
  exp ← py_get payload "exp";
  _ ← py_assert (negb (is_none exp)) (Some "Missing expiration time");
  iat ← py_get payload "iat";
  _ ← py_assert (negb (is_none iat)) (Some "Missing issue time");
  future ← py_gt iat now_skewed;
  _ ← py_assert (Bool.eqb future false) (Some "Issue time is in the future");
  expired ← py_le exp (now - skew_time);
  _ ← py_assert (Bool.eqb expired false) (Some "Expired JWT");
  let audience := dict_get config "audience" in
  aud ← py_get payload "aud";
  if truthy aud then
    if truthy audience then
      match audience with
      | VList members =>
          py_assert (py_in aud members) (Some "Invalid audience")
      | _ =>
          py_assert (py_eq aud audience) (Some "Invalid audience")
      end
    else Ok tt
  else Ok tt.

Definition verified : Type :=
  (value * did_resolution_result * value * value * string)%type.

Definition verify_jwt `{Codec} (w : world) (token : string) (config : dict)
  : M verified :=
  decoded_jwt ← lift (decode_jwt token);
  let payload := jwt_payload decoded_jwt in
  let header := jwt_header decoded_jwt in
  let signature := jwt_signature decoded_jwt in
  let data := jwt_data decoded_jwt in
  did ← lift (subject_did header payload);
  did_resolution_result ← await (EvResolve did config) (resolve w did config);
  authenticator ←
    lift (list_first (verificationMethod (didDocument did_resolution_result)));
  verify ← await (EvVerify data signature authenticator)
                 (verify_ES256K w data signature authenticator);
  _ ← lift (py_assert verify (Some "Signature verification failed"));
  let now := time_time w in
  _ ← lift (validate_claims now payload config);
  mret (payload, did_resolution_result, did, authenticator, token).

(** ** The rejection taxonomy of the specification *)

Inductive rejection : Type :=
| FormatError
| MissingClaim
| NoVerificationMethod
| SignatureInvalid
| TemporalError
| AudienceMismatch.

(** How the module signals each rejection. The module has no exception
    classes of its own: a rejection is an assertion that fails, told apart
    by its message, or the exception of the library call that found the
    input malformed. An exception outside this table ([AttributeError],
    [TypeError]) is a crash, not a rejection; an exception of a capability
    passes through as it is. *)
Definition rejection_of (e : exn) : option rejection :=
  match e with
  | AssertionError None => Some FormatError
  | BinasciiError | UnicodeDecodeError | JSONDecodeError | ValueError =>
      Some FormatError
  | IndexError => Some NoVerificationMethod
  | AssertionError (Some msg) =>
      if bool_decide (msg = "Missing issuer") then Some MissingClaim
      else if bool_decide (msg = "Missing subject") then Some MissingClaim
      else if bool_decide (msg = "Missing expiration time") then Some MissingClaim
      else if bool_decide (msg = "Missing issue time") then Some MissingClaim
      else if bool_decide (msg = "Signature verification failed") then Some SignatureInvalid
      else if bool_decide (msg = "Issue time is in the future") then Some TemporalError
      else if bool_decide (msg = "Expired JWT") then Some TemporalError
      else if bool_decide (msg = "Invalid audience") then Some AudienceMismatch
      else None
  | AttributeError | TypeError | RecursionError | CapabilityError _ => None
  end.

Definition rejected_with {A : Type} (r : result A) (why : rejection) : Prop :=
  ∃ e, r = Raise e ∧ rejection_of e = Some why.

(** The substring of [s] before the first [c] (all of [s] when [c] does not
    occur), in the words of the specification. *)
Fixpoint before_first (c : ascii) (s : string) : string :=
  match s with
  | EmptyString => EmptyString
  | String a s' => if Ascii.eqb a c then EmptyString else String a (before_first c s')
  end.

(** The reserved keys of a payload (section 3). *)
Definition reserved_keys : list string :=
  ["iat"; "exp"; "iss"; "sub"; "sub_jwk"; "aud"]%string.

(** In the words of the specification: the call returns, no exception
    escapes it. *)
Definition no_exception_escapes {A : Type} (r : result A) : Prop :=
  ∃ a, r = Ok a.

(** The three ways in which a segment is bad (section 4.5, step 1): the
    transport decoding, the text decoding or the JSON parsing of the segment
    raises [e]. *)
Definition segment_raises `{Codec} (seg : string) (e : exn) : Prop :=
  urlsafe_b64decode (pad_base64 seg) = Raise e
  ∨ (∃ raw, urlsafe_b64decode (pad_base64 seg) = Ok raw
            ∧ utf8_decode raw = Raise e)
  ∨ (∃ raw text, urlsafe_b64decode (pad_base64 seg) = Ok raw
                 ∧ utf8_decode raw = Ok text ∧ json_loads text = Raise e).

Definition bad_segment `{Codec} (seg : string) : Prop :=
  ∃ e, segment_raises seg e.

Definition malformed `{Codec} (token : string) : Prop :=
  length (str_split dot token) ≠ 3%nat
  ∨ ∃ p0 p1 p2, str_split dot token = [p0; p1; p2]
                ∧ (bad_segment p0 ∨ bad_segment p1).

(** Once the DID is determined, the rest of the run. *)
Definition verify_from_did `{Codec} (w : world) (token : string) (config : dict)
    (d : jwt) (did : value) : M verified :=
  r ← await (EvResolve did config) (resolve w did config);
  authenticator ← lift (list_first (verificationMethod (didDocument r)));
  verify ← await (EvVerify (jwt_data d) (jwt_signature d) authenticator)
                 (verify_ES256K w (jwt_data d) (jwt_signature d) authenticator);
  _ ← lift (py_assert verify (Some "Signature verification failed"));
  _ ← lift (validate_claims (time_time w) (jwt_payload d) config);
  mret (jwt_payload d, r, did, authenticator, token).

(** The run reaches the claim checks: the token parses, its DID resolves to
    a document with a first verification method, and the verifier accepts
    the signature with it. *)
Definition reaches_claims `{Codec} (w : world) (token : string) (config : dict)
    (d : jwt) (did : value) (r : did_resolution_result) (a : value) : Prop :=
  decode_jwt token = Ok d
  ∧ subject_did (jwt_header d) (jwt_payload d) = Ok did
  ∧ resolve w did config = Ok r
  ∧ list_first (verificationMethod (didDocument r)) = Ok a
  ∧ verify_ES256K w (jwt_data d) (jwt_signature d) a = Ok true.

(** ** The libraries

    Base64url after RFC 4648 and JSON after RFC 8259 (integers only, no
    floats), with the canonical printer of section 4.1 and the limits of
    the interpreter. With them the module runs on concrete tokens, and they
    keep the contract [CodecLaws] for the values within the limits. *)

Module Base64.

(** A base64 digit: six bits, most significant first. *)
Inductive sextet : Type :=
| Sextet (b5 b4 b3 b2 b1 b0 : bool).

Definition sextet_to_nat (x : sextet) : nat :=
  let 'Sextet b5 b4 b3 b2 b1 b0 := x in
  let bit (b : bool) (w : nat) : nat := if b then w else 0%nat in
  (bit b5 32 + bit b4 16 + bit b3 8 + bit b2 4 + bit b1 2 + bit b0 1)%nat.

Definition alphabet : string :=
  "ABCDEFGHIJKLMNOPQRSTUVWXYZabcdefghijklmnopqrstuvwxyz0123456789-_".

Definition digit_char (x : sextet) : ascii :=
  match String.get (sextet_to_nat x) alphabet with
  | Some c => c
  | None => "A"%char
  end.

Definition all_sextets : list sextet :=
  b5 ← [false; true]; b4 ← [false; true]; b3 ← [false; true];
  b2 ← [false; true]; b1 ← [false; true]; b0 ← [false; true];
  [Sextet b5 b4 b3 b2 b1 b0].

Definition char_digit (c : ascii) : option sextet :=
  find (λ x, Ascii.eqb (digit_char x) c) all_sextets.

(** Three octets are four digits. *)
Definition encode3 (a b c : ascii) : string :=
  let 'Ascii a0 a1 a2 a3 a4 a5 a6 a7 := a in
  let 'Ascii b0 b1 b2 b3 b4 b5 b6 b7 := b in
  let 'Ascii c0 c1 c2 c3 c4 c5 c6 c7 := c in
  String (digit_char (Sextet a7 a6 a5 a4 a3 a2))
 (String (digit_char (Sextet a1 a0 b7 b6 b5 b4))
 (String (digit_char (Sextet b3 b2 b1 b0 c7 c6))
 (String (digit_char (Sextet c5 c4 c3 c2 c1 c0)) ""))).

Definition encode2 (a b : ascii) : string :=
  let 'Ascii a0 a1 a2 a3 a4 a5 a6 a7 := a in
  let 'Ascii b0 b1 b2 b3 b4 b5 b6 b7 := b in
  String (digit_char (Sextet a7 a6 a5 a4 a3 a2))
 (String (digit_char (Sextet a1 a0 b7 b6 b5 b4))
 (String (digit_char (Sextet b3 b2 b1 b0 false false))
 (String pad_char ""))).

Definition encode1 (a : ascii) : string :=
  let 'Ascii a0 a1 a2 a3 a4 a5 a6 a7 := a in
  String (digit_char (Sextet a7 a6 a5 a4 a3 a2))
 (String (digit_char (Sextet a1 a0 false false false false))
 (String pad_char (String pad_char ""))).

Fixpoint encode (bs : string) : string :=
  match bs with
  | "" => ""
  | String a "" => encode1 a
  | String a (String b "") => encode2 a b
  | String a (String b (String c rest)) => encode3 a b c +:+ encode rest
  end.

Definition decode3 (x0 x1 x2 x3 : sextet) : string :=
  let 'Sextet a7 a6 a5 a4 a3 a2 := x0 in
  let 'Sextet a1 a0 b7 b6 b5 b4 := x1 in
  let 'Sextet b3 b2 b1 b0 c7 c6 := x2 in
  let 'Sextet c5 c4 c3 c2 c1 c0 := x3 in
  String (Ascii a0 a1 a2 a3 a4 a5 a6 a7)
 (String (Ascii b0 b1 b2 b3 b4 b5 b6 b7)
 (String (Ascii c0 c1 c2 c3 c4 c5 c6 c7) "")).

Definition decode2 (x0 x1 x2 : sextet) : string :=
  let 'Sextet a7 a6 a5 a4 a3 a2 := x0 in
  let 'Sextet a1 a0 b7 b6 b5 b4 := x1 in
  let 'Sextet b3 b2 b1 b0 _ _ := x2 in
  String (Ascii a0 a1 a2 a3 a4 a5 a6 a7)
 (String (Ascii b0 b1 b2 b3 b4 b5 b6 b7) "").

Definition decode1 (x0 x1 : sextet) : string :=
  let 'Sextet a7 a6 a5 a4 a3 a2 := x0 in
  let 'Sextet a1 a0 _ _ _ _ := x1 in
  String (Ascii a0 a1 a2 a3 a4 a5 a6 a7) "".

(** The last group of four characters, where padding may stand. *)
Definition decode_last (c0 c1 c2 c3 : ascii) : option string :=
  x0 ← char_digit c0;
  x1 ← char_digit c1;
  if Ascii.eqb c2 pad_char then
    if Ascii.eqb c3 pad_char then Some (decode1 x0 x1) else None
  else
    x2 ← char_digit c2;
    if Ascii.eqb c3 pad_char then Some (decode2 x0 x1 x2)
    else x3 ← char_digit c3; Some (decode3 x0 x1 x2 x3).

(** Strict decoding of padded input: groups of four characters. *)
Fixpoint decode (s : string) : option string :=
  match s with
  | "" => Some ""
  | String c0 (String c1 (String c2 (String c3 rest))) =>
      match rest with
      | "" => decode_last c0 c1 c2 c3
      | _ =>
          x0 ← char_digit c0;
          x1 ← char_digit c1;
          x2 ← char_digit c2;
          x3 ← char_digit c3;
          tail ← decode rest;
          Some (decode3 x0 x1 x2 x3 +:+ tail)
      end
  | _ => None
  end.

End Base64.

Module Json.

(** The syntax tree of a JSON text: an object is the sequence of its
    members, in the order of the text. *)
Inductive tree : Type :=
| TNull
| TBool (b : bool)
| TNum (n : Z)
| TStr (s : string)
| TArr (items : list tree)
| TObj (members : list (string * tree)).

Definition quote : ascii := ascii_of_nat 34.
Definition backslash : ascii := ascii_of_nat 92.

Definition hex_char (n : N) : ascii :=
  match String.get (N.to_nat n) "0123456789abcdef" with
  | Some c => c
  | None => "0"%char
  end.

Definition in_range (lo hi c : ascii) : bool :=
  (N_of_ascii lo <=? N_of_ascii c)%N && (N_of_ascii c <=? N_of_ascii hi)%N.

Definition hex_value (c : ascii) : option N :=
  if in_range "0" "9" c then Some (N_of_ascii c - 48)%N
  else if in_range "a" "f" c then Some (N_of_ascii c - 87)%N
  else if in_range "A" "F" c then Some (N_of_ascii c - 55)%N
  else None.

(** *** Printing, each printer prepending to the text that follows *)

Definition escape_char_to (c : ascii) (k : string) : string :=
  if Ascii.eqb c quote then String backslash (String quote k)
  else if Ascii.eqb c backslash then String backslash (String backslash k)
  else if Ascii.eqb c "008" then String backslash (String "b" k)
  else if Ascii.eqb c "009" then String backslash (String "t" k)
  else if Ascii.eqb c "010" then String backslash (String "n" k)
  else if Ascii.eqb c "012" then String backslash (String "f" k)
  else if Ascii.eqb c "013" then String backslash (String "r" k)
  else if (N_of_ascii c <? 32)%N then
    String backslash (String "u" (String "0" (String "0"
      (String (hex_char (N_of_ascii c / 16))
        (String (hex_char (N_of_ascii c mod 16)) k)))))
  else String c k.

Fixpoint escape_to (s : string) (k : string) : string :=
  match s with
  | "" => k
  | String c s' => escape_char_to c (escape_to s' k)
  end.

Definition print_string_to (s : string) (k : string) : string :=
  String quote (escape_to s (String quote k)).

Definition print_int (n : Z) : string := NilZero.string_of_int (Z.to_int n).

(** The items of a sequence, with a comma between two of them. *)
Definition sep_by {A : Type} (pr : A → string → string)
  : list A → string → string :=
  fix go (l : list A) (k : string) : string :=
    match l with
    | [] => k
    | [x] => pr x k
    | x :: l' => pr x (String "," (go l' k))
    end.

Fixpoint print_to (t : tree) (k : string) : string :=
  match t with
  | TNull => "null" +:+ k
  | TBool true => "true" +:+ k
  | TBool false => "false" +:+ k
  | TNum n => print_int n +:+ k
  | TStr s => print_string_to s k
  | TArr items => String "[" (sep_by print_to items (String "]" k))
  | TObj members =>
      String "{"
        (sep_by (λ m k, print_string_to m.1 (String ":" (print_to m.2 k)))
                members (String "}" k))
  end.

Definition print (t : tree) : string := print_to t "".

(** *** Parsing *)

Definition is_ws (c : ascii) : bool :=
  Ascii.eqb c " " || Ascii.eqb c "009" || Ascii.eqb c "010" || Ascii.eqb c "013".

Fixpoint skip_ws (s : string) : string :=
  match s with
  | "" => ""
  | String c s' => if is_ws c then skip_ws s' else s
  end.

(** A code point below U+10000 as UTF-8 octets. *)
Definition utf8_encode (cp : N) : string :=
  if (cp <? 128)%N then String (ascii_of_N cp) ""
  else if (cp <? 2048)%N then
    String (ascii_of_N (192 + cp / 64))
      (String (ascii_of_N (128 + cp mod 64)) "")
  else
    String (ascii_of_N (224 + cp / 4096))
      (String (ascii_of_N (128 + (cp / 64) mod 64))
        (String (ascii_of_N (128 + cp mod 64)) "")).

Definition hex4 (h1 h2 h3 h4 : ascii) : option N :=
  a ← hex_value h1; b ← hex_value h2; c ← hex_value h3; d ← hex_value h4;
  Some (((a * 16 + b) * 16 + c) * 16 + d)%N.

Definition unescape (e : ascii) : option ascii :=
  if Ascii.eqb e quote then Some quote
  else if Ascii.eqb e backslash then Some backslash
  else if Ascii.eqb e "/" then Some "/"%char
  else if Ascii.eqb e "b" then Some "008"%char
  else if Ascii.eqb e "t" then Some "009"%char
  else if Ascii.eqb e "n" then Some "010"%char
  else if Ascii.eqb e "f" then Some "012"%char
  else if Ascii.eqb e "r" then Some "013"%char
  else None.

(** The characters of a string, after its opening quote, up to and
    including its closing quote. *)
Fixpoint parse_chars (s : string) : option (string * string) :=
  match s with
  | "" => None
  | String c s' =>
      if Ascii.eqb c quote then Some ("", s')
      else if Ascii.eqb c backslash then
        match s' with
        | "" => None
        | String e s'' =>
            if Ascii.eqb e "u" then
              match s'' with
              | String h1 (String h2 (String h3 (String h4 r))) =>
                  cp ← hex4 h1 h2 h3 h4;
                  '(str, rest) ← parse_chars r;
                  Some (utf8_encode cp +:+ str, rest)
              | _ => None
              end
            else
              c' ← unescape e;
              '(str, rest) ← parse_chars s'';
              Some (String c' str, rest)
        end
      else if (N_of_ascii c <? 32)%N then None
      else
        '(str, rest) ← parse_chars s';
        Some (String c str, rest)
  end.

Definition is_digit (c : ascii) : bool := in_range "0" "9" c.

Fixpoint span_digits (s : string) : string * string :=
  match s with
  | "" => ("", "")
  | String c s' =>
      if is_digit c then
        let '(ds, rest) := span_digits s' in (String c ds, rest)
      else ("", s)
  end.

(** An integer literal. A fraction or an exponent makes the number a float,
    which is outside the model. *)
Definition parse_number (s : string) : option (Z * string) :=
  let '(sign, body) :=
    match s with
    | String c s' => if Ascii.eqb c "-" then ("-", s') else ("", s)
    | "" => ("", "")
    end in
  let '(ds, rest) := span_digits body in
  let token := sign +:+ ds in
  i ← NilZero.int_of_string token;
  let n := Z.of_int i in
  if bool_decide (print_int n = token) || bool_decide (token = "-0") then
    match rest with
    | String c _ =>
        if Ascii.eqb c "." || Ascii.eqb c "e" || Ascii.eqb c "E" then None
        else Some (n, rest)
    | "" => Some (n, rest)
    end
  else None.

Fixpoint strip_prefix (p s : string) : option string :=
  match p, s with
  | "", _ => Some s
  | String a p', String b s' => if Ascii.eqb a b then strip_prefix p' s' else None
  | _, "" => None
  end.

Fixpoint parse_value (fuel : nat) (s : string) : option (tree * string) :=
  match fuel with
  | O => None
  | S fuel' =>
      match skip_ws s with
      | "" => None
      | String c rest =>
          if Ascii.eqb c "{" then
            match skip_ws rest with
            | String "}" r => Some (TObj [], r)
            | _ => '(ms, r) ← parse_members fuel' rest; Some (TObj ms, r)
            end
          else if Ascii.eqb c "[" then
            match skip_ws rest with
            | String "]" r => Some (TArr [], r)
            | _ => '(l, r) ← parse_items fuel' rest; Some (TArr l, r)
            end
          else if Ascii.eqb c quote then
            '(str, r) ← parse_chars rest; Some (TStr str, r)
          else if Ascii.eqb c "n" then
            r ← strip_prefix "ull" rest; Some (TNull, r)
          else if Ascii.eqb c "t" then
            r ← strip_prefix "rue" rest; Some (TBool true, r)
          else if Ascii.eqb c "f" then
            r ← strip_prefix "alse" rest; Some (TBool false, r)
          else
            '(n, r) ← parse_number (String c rest); Some (TNum n, r)
      end
  end
with parse_items (fuel : nat) (s : string) : option (list tree * string) :=
  match fuel with
  | O => None
  | S fuel' =>
      '(x, r) ← parse_value fuel' s;
      match skip_ws r with
      | String "," r' => '(l, r'') ← parse_items fuel' r'; Some (x :: l, r'')
      | String "]" r' => Some ([x], r')
      | _ => None
      end
  end
with parse_members (fuel : nat) (s : string)
  : option (list (string * tree) * string) :=
  match fuel with
  | O => None
  | S fuel' =>
      match skip_ws s with
      | String c r0 =>
          if Ascii.eqb c quote then
            '(key, r1) ← parse_chars r0;
            match skip_ws r1 with
            | String ":" r2 =>
                '(x, r3) ← parse_value fuel' r2;
                match skip_ws r3 with
                | String "," r4 =>
                    '(ms, r5) ← parse_members fuel' r4;
                    Some ((key, x) :: ms, r5)
                | String "}" r4 => Some ([(key, x)], r4)
                | _ => None
                end
            | _ => None
            end
          else None
      | "" => None
      end
  end.

(** A whole text: one value, then nothing but white space. *)
Definition parse (s : string) : option tree :=
  '(t, rest) ← parse_value (S (String.length s)) s;
  match skip_ws rest with
  | "" => Some t
  | _ => None
  end.

(** *** Fuel that suffices to parse a tree back *)

Definition list_fuel {A : Type} (f : A → nat) : list A → nat :=
  fix go (l : list A) : nat :=
    match l with
    | [] => 0%nat
    | x :: l' => S (Nat.max (f x) (go l'))
    end.

Fixpoint tfuel (t : tree) : nat :=
  match t with
  | TArr items => S (list_fuel tfuel items)
  | TObj members => S (list_fuel (λ m, tfuel m.2) members)
  | _ => 1%nat
  end.

(** The text after a value: the end, or one of [,], []] and [}]. *)
Definition delimited (k : string) : bool :=
  match k with
  | "" => true
  | String c _ => Ascii.eqb c "," || Ascii.eqb c "]" || Ascii.eqb c "}"
  end.

Fixpoint all_digits (s : string) : bool :=
  match s with
  | "" => true
  | String c s' => is_digit c && all_digits s'
  end.

(** The first character of a printed value. *)
Definition starter (c : ascii) : bool :=
  is_digit c || Ascii.eqb c "-" || Ascii.eqb c quote || Ascii.eqb c "["
  || Ascii.eqb c "{" || Ascii.eqb c "n" || Ascii.eqb c "t" || Ascii.eqb c "f".

(** *** What the interpreter limits *)

(** The number of digits of an integer literal. *)
Definition num_digits (n : Z) : nat := String.length (print_int (Z.abs n)).

Definition list_max {A : Type} (f : A → nat) : list A → nat :=
  fix go (l : list A) : nat :=
    match l with
    | [] => 0%nat
    | x :: l' => Nat.max (f x) (go l')
    end.

Definition list_all {A : Type} (f : A → bool) : list A → bool :=
  fix go (l : list A) : bool :=
    match l with
    | [] => true
    | x :: l' => f x && go l'
    end.

(** How deep arrays and objects are nested in a text. *)
Fixpoint depth (t : tree) : nat :=
  match t with
  | TArr items => S (list_max depth items)
  | TObj members => S (list_max (λ m, depth m.2) members)
  | _ => 0%nat
  end.

(** No integer of the text has more than [max] digits. *)
Fixpoint digits_within (max : nat) (t : tree) : bool :=
  match t with
  | TNum n => (num_digits n <=? max)%nat
  | TArr items => list_all (digits_within max) items
  | TObj members => list_all (λ m, digits_within max m.2) members
  | _ => true
  end.

End Json.

(** *** Python values as JSON texts *)

Definition member_le (a b : string * Json.tree) : Prop := String.le a.1 b.1.

#[global] Instance member_le_dec : RelDecision member_le :=
  λ a b, decide (String.le a.1 b.1).

(** The tree of a value: the members of an object sorted by key. *)
Fixpoint to_tree (v : value) : Json.tree :=
  match v with
  | VNone => Json.TNull
  | VBool b => Json.TBool b
  | VInt n => Json.TNum n
  | VStr s => Json.TStr s
  | VList l => Json.TArr (to_tree <$> l)
  | VDict d =>
      Json.TObj
        (merge_sort member_le
           (map_fold (λ key x acc, (key, to_tree x) :: acc) [] d))
  end.

(** The value of a tree: of two members with one key, the later one stays. *)
Fixpoint of_tree (t : Json.tree) : value :=
  match t with
  | Json.TNull => VNone
  | Json.TBool b => VBool b
  | Json.TNum n => VInt n
  | Json.TStr s => VStr s
  | Json.TArr items => VList (of_tree <$> items)
  | Json.TObj members =>
      VDict (list_to_map (reverse ((λ m, (m.1, of_tree m.2)) <$> members)))
  end.

(** The limits that [json.loads] runs into: the longest integer literal that
    [int] converts ([sys.get_int_max_str_digits()]) and the deepest nesting
    that the scanner follows before it raises [RecursionError], which
    depends on the interpreter and on the stack at the call. *)
Record interpreter : Type := {
  int_max_str_digits : nat;
  recursion_limit : nat;
}.

(** The defaults of CPython: 4300 digits, a recursion limit of 1000. *)
Definition cpython : interpreter := {|
  int_max_str_digits := 4300;
  recursion_limit := 1000;
|}.

(** [json.loads] on a text without floats. The text is parsed first and the
    limits are looked at afterwards; the scanner of Python meets them while
    it parses, so on a text that is both ill-formed and beyond a limit the
    exception may be another one. *)
Definition loads (py : interpreter) (text : string) : result value :=
  match Json.parse text with
  | None => Raise JSONDecodeError
  | Some t =>
      if (recursion_limit py <? Json.depth t)%nat then Raise RecursionError
      else if Json.digits_within (int_max_str_digits py) t then Ok (of_tree t)
      else Raise ValueError
  end.

(** Modelled from the spec: [util.json_canonicalize.Canonicalize.canonicalize]
    is not among the sources. Section 4.1 has it sort the keys of an object
    by code point, recurse into objects and arrays, escape strings by the
    JSON rules, write numbers, booleans and null canonically and leave out
    white space. *)
Definition canonical_text (v : value) : string := Json.print (to_tree v).

(** The libraries on an interpreter [py]: the canonicalizer of section 4.1,
    base64url of RFC 4648 ([Base64.decode] refuses what is not the encoding
    of some octets; the decoder of Python lets more pass), text held as its
    UTF-8 octets, and [json.loads]. *)
Definition python_codec (py : interpreter) : Codec := {|
  canonicalize := canonical_text;
  urlsafe_b64encode := Base64.encode;
  urlsafe_b64decode s := or_raise BinasciiError (Base64.decode s);
  utf8_decode text := Ok text;
  json_loads := loads py;
|}.

Definition reference_codec : Codec := python_codec cpython.

(** The values that [json.loads] on [py] reads back from their canonical
    text: no integer has too many digits and the nesting is not too deep. *)
Definition within_limits (py : interpreter) (v : value) : bool :=
  (Json.depth (to_tree v) <=? recursion_limit py)%nat
  && Json.digits_within (int_max_str_digits py) (to_tree v).

(** The size of a value, for induction through lists and dicts. *)
Fixpoint vsize (v : value) : nat :=
  match v with
  | VList l => S (foldr (λ x acc, vsize x + acc)%nat 0%nat l)
  | VDict d => S (map_fold (λ _ x acc, vsize x + acc)%nat 0%nat d)
  | _ => 1%nat
  end.

(** * Properties *)

(** ** Strings *)

Lemma str_split_nonempty sep s : str_split sep s ≠ [].
Proof. destruct s as [|c s]; simpl; [done|]. by repeat case_match. Qed.

Lemma str_split_no_sep sep s :
  str_mem sep s = false → str_split sep s = [s].
Proof.
  induction s as [|c s IH]; simpl; [done|].
  intros [Hc Hs]%orb_false_elim. by rewrite Hc, IH.
Qed.

Lemma str_app_nil_l (s : string) : "" +:+ s = s.
Proof. reflexivity. Qed.

Lemma str_app_cons (c : ascii) (a b : string) :
  String c a +:+ b = String c (a +:+ b).
Proof. reflexivity. Qed.

Lemma str_app_nil_r (s : string) : s +:+ "" = s.
Proof. induction s as [|c s IH]; [done|]. by rewrite str_app_cons, IH. Qed.

Lemma str_app_assoc (a b c : string) : (a +:+ b) +:+ c = a +:+ (b +:+ c).
Proof.
  induction a as [|x a IH]; [done|]. by rewrite !str_app_cons, IH.
Qed.

Lemma str_split_app sep a b :
  str_mem sep a = false →
  str_split sep (a +:+ String sep b) = a :: str_split sep b.
Proof.
  induction a as [|c a IH]; simpl.
  - intros _. by rewrite Ascii.eqb_refl.
  - intros [Hc Hs]%orb_false_elim. rewrite ?str_app_cons. simpl.
    by rewrite Hc, IH.
Qed.

Lemma str_split_head sep s :
  head (str_split sep s) = Some (before_first sep s).
Proof.
  induction s as [|c s IH]; simpl; [done|].
  destruct (Ascii.eqb c sep); [done|].
  destruct (str_split sep s) as [|p ps]; simpl in *; congruence.
Qed.

Lemma str_mem_remove c d s :
  str_mem c s = false → str_mem c (str_remove d s) = false.
Proof.
  induction s as [|a s IH]; simpl; [done|].
  intros [Ha Hs]%orb_false_elim.
  destruct (Ascii.eqb a d); simpl; [auto|]. by rewrite Ha, IH.
Qed.

(** A compact token of three dot-free segments splits into them. *)
Lemma str_split_three a b c :
  str_mem dot a = false → str_mem dot b = false → str_mem dot c = false →
  str_split dot (a +:+ "." +:+ b +:+ "." +:+ c) = [a; b; c].
Proof.
  intros Ha Hb Hc. rewrite !str_app_cons, !str_app_nil_l.
  rewrite (str_split_app dot a), (str_split_app dot b) by done.
  by rewrite str_split_no_sep.
Qed.

(** The number of occurrences of a character. *)
Fixpoint str_count (c : ascii) (s : string) : nat :=
  match s with
  | EmptyString => 0%nat
  | String a s' => ((if Ascii.eqb a c then 1 else 0) + str_count c s')%nat
  end.

Lemma str_split_length (c : ascii) (s : string) :
  length (str_split c s) = S (str_count c s).
Proof.
  induction s as [|a s IH]; simpl; [done|].
  destruct (Ascii.eqb a c); simpl; [by rewrite IH|].
  destruct (str_split c s); simpl in *; lia.
Qed.

Lemma str_count_app (c : ascii) (a b : string) :
  str_count c (a +:+ b) = (str_count c a + str_count c b)%nat.
Proof.
  induction a as [|x a IH]; [done|]. rewrite str_app_cons. simpl.
  rewrite IH. lia.
Qed.

Lemma str_count_mem (c : ascii) (s : string) :
  str_mem c s = true → (1 ≤ str_count c s)%nat.
Proof.
  induction s as [|a s IH]; simpl; [done|].
  destruct (Ascii.eqb a c); simpl; [lia|auto].
Qed.

Lemma str_mem_app (c : ascii) (a b : string) :
  str_mem c (a +:+ b) = str_mem c a || str_mem c b.
Proof.
  induction a as [|x a IH]; [done|]. rewrite str_app_cons. simpl.
  by rewrite IH, orb_assoc.
Qed.

Lemma str_mem_remove_same (c : ascii) (s : string) :
  str_mem c (str_remove c s) = false.
Proof.
  induction s as [|a s IH]; simpl; [done|].
  destruct (Ascii.eqb a c) eqn:Ha; simpl; [done|]. by rewrite Ha.
Qed.

Lemma str_mem_remove_other (c d : ascii) (s : string) :
  Ascii.eqb c d = false → str_mem c (str_remove d s) = str_mem c s.
Proof.
  intros Hcd. induction s as [|a s IH]; simpl; [done|].
  destruct (Ascii.eqb a d) eqn:Ha; simpl; [|by rewrite IH].
  apply Ascii.eqb_eq in Ha as ->.
  rewrite Ascii.eqb_sym, Hcd. by rewrite IH.
Qed.

Lemma str_split_parts (c : ascii) (s : string) :
  Forall (λ p, str_mem c p = false) (str_split c s).
Proof.
  induction s as [|a s IH]; simpl; [by repeat constructor|].
  destruct (Ascii.eqb a c) eqn:Ha; [by constructor|].
  destruct (str_split c s) as [|p ps].
  - repeat constructor. simpl. by rewrite Ha.
  - apply Forall_cons in IH as [Hp Hps]. constructor; [|done].
    simpl. by rewrite Ha.
Qed.

(** Joining what [split] returns gives the string back. *)
Lemma str_join_split (c : ascii) (s : string) :
  str_join (String c "") (str_split c s) = s.
Proof.
  induction s as [|a s IH]; [done|]. simpl str_split.
  destruct (Ascii.eqb a c) eqn:Ha.
  - apply Ascii.eqb_eq in Ha as ->.
    pose proof (str_split_nonempty c s) as Hne.
    destruct (str_split c s) as [|p ps]; [done|].
    change (str_join (String c "") ("" :: p :: ps))
      with ("" +:+ String c "" +:+ str_join (String c "") (p :: ps)).
    by rewrite IH.
  - pose proof (str_split_nonempty c s) as Hne.
    destruct (str_split c s) as [|p [|q ps]]; [done| |].
    + simpl in *. by rewrite IH.
    + change (str_join (String c "") (String a p :: q :: ps))
        with (String a p +:+ String c "" +:+ str_join (String c "") (q :: ps)).
      change (str_join (String c "") (p :: q :: ps))
        with (p +:+ String c "" +:+ str_join (String c "") (q :: ps)) in IH.
      by rewrite str_app_cons, IH.
Qed.

Lemma str_count_zero (c : ascii) (s : string) :
  str_count c s = 0%nat → str_mem c s = false.
Proof.
  induction s as [|a s IH]; simpl; [done|].
  destruct (Ascii.eqb a c); simpl; [done|auto].
Qed.

(** A string of three parts with two dots in all splits into its parts. *)
Lemma str_split_two_dots (a b c : string) :
  length (str_split dot (a +:+ "." +:+ b +:+ "." +:+ c)) = 3%nat →
  str_split dot (a +:+ "." +:+ b +:+ "." +:+ c) = [a; b; c].
Proof.
  rewrite str_split_length, !str_count_app.
  change (str_count dot ".") with 1%nat. intros Hcount.
  apply str_split_three; apply str_count_zero; lia.
Qed.

(** ** The trace monad *)

Lemma bind_lift_ok {A B : Type} (a : A) (k : A → M B) :
  (lift (Ok a) ≫= k) = k a.
Proof. unfold lift, mbind, M_bind. by destruct (k a). Qed.

Lemma bind_lift_raise {A B : Type} (e : exn) (k : A → M B) :
  (lift (Raise e) ≫= k) = ([], Raise e).
Proof. reflexivity. Qed.

Lemma bind_await_ok {A B : Type} (ev : event) (a : A) (k : A → M B) :
  (await ev (Ok a) ≫= k) = (ev :: trace (k a), outcome (k a)).
Proof. unfold await, mbind, M_bind. by destruct (k a). Qed.

Lemma bind_await_raise {A B : Type} (ev : event) (e : exn) (k : A → M B) :
  (await ev (Raise e) ≫= k) = ([ev], Raise e).
Proof. reflexivity. Qed.

Ltac run_step :=
  rewrite ?bind_lift_ok, ?bind_lift_raise, ?bind_await_ok, ?bind_await_raise.

(** ** Parsing *)

Section Pipeline.
Context {C : Codec}.

(** A segment fails to load exactly with what its failing decoder raises. *)
Lemma loads_segment_raises seg e :
  loads_segment seg = Raise e ↔ segment_raises seg e.
Proof.
  unfold loads_segment, segment_raises.
  destruct (urlsafe_b64decode (pad_base64 seg)) as [raw|e0]; simpl.
  2: { split; [intros [= ->]; by left|].
       intros [H|[(raw & H & _)|(raw & text & H & _)]]; congruence. }
  destruct (utf8_decode raw) as [text|e1] eqn:Hu; simpl.
  2: { split; [intros [= ->]; right; left; eauto|].
       intros [H|[(raw' & [= <-] & H)|(raw' & text & [= <-] & H & _)]];
         congruence. }
  split.
  - intros H. right; right. eauto.
  - intros [H|[(raw' & [= <-] & H)|(raw' & text' & [= <-] & H & H')]];
      congruence.
Qed.

Lemma loads_segment_bad seg :
  bad_segment seg → ∃ e, loads_segment seg = Raise e.
Proof. intros [e He]. exists e. by apply loads_segment_raises. Qed.

Lemma loads_segment_good seg v :
  loads_segment seg = Ok v → ¬ bad_segment seg.
Proof. intros Hok [e He%loads_segment_raises]. congruence. Qed.

(** A token that parses has three segments; the signature is the third as
    received and the signed data is the first two as received. *)
Lemma decode_jwt_segments token d :
  decode_jwt token = Ok d →
  ∃ p0 p1 p2,
    str_split dot token = [p0; p1; p2]
    ∧ loads_segment p0 = Ok (jwt_header d)
    ∧ loads_segment p1 = Ok (jwt_payload d)
    ∧ jwt_signature d = p2
    ∧ jwt_data d = p0 +:+ "." +:+ p1.
Proof.
  unfold decode_jwt, decode_jws.
  destruct (str_split dot token) as [|p0 [|p1 [|p2 [|p3 ps]]]]; try done.
  simpl. destruct (loads_segment p0) as [h|e] eqn:Hh; [|done]. simpl.
  destruct (loads_segment p1) as [p|e] eqn:Hp; [|done]. simpl.
  intros [= <-]. by exists p0, p1, p2.
Qed.

Lemma decode_jwt_of_segments token p0 p1 p2 h p :
  str_split dot token = [p0; p1; p2] →
  loads_segment p0 = Ok h → loads_segment p1 = Ok p →
  decode_jwt token =
    Ok {| jwt_header := h; jwt_payload := p; jwt_signature := p2;
          jwt_data := p0 +:+ "." +:+ p1 |}.
Proof.
  intros Hs Hh Hp. unfold decode_jwt, decode_jws. rewrite Hs. simpl.
  rewrite Hh. simpl. by rewrite Hp.
Qed.


(** A malformed token does not parse: with other than three segments the
    bare assertion of [decode_jws] fails; with three, the exception is the
    one raised on the header segment or, the header being good, on the
    payload segment. *)
Lemma decode_jwt_malformed token :
  malformed token →
  ∃ e, decode_jwt token = Raise e
       ∧ (length (str_split dot token) ≠ 3%nat → e = AssertionError None)
       ∧ (∀ p0 p1 p2, str_split dot token = [p0; p1; p2] →
            segment_raises p0 e ∨ (¬ bad_segment p0 ∧ segment_raises p1 e)).
Proof.
  unfold decode_jwt, decode_jws.
  intros [Hlen|(p0 & p1 & p2 & Hs & Hbad)].
  - exists (AssertionError None). split_and!; [|done|].
    + unfold py_assert. by rewrite bool_decide_false.
    + intros p0 p1 p2 Hs. by rewrite Hs in Hlen.
  - rewrite Hs. simpl.
    destruct (loads_segment p0) as [h|e] eqn:Hh; simpl.
    + destruct Hbad as [Hbad|Hbad]; [by apply loads_segment_good in Hh|].
      destruct (loads_segment_bad _ Hbad) as (e & He).
      exists e. rewrite He. split_and!; [done|done|].
      intros ??? [= <- <- <-]. right. split.
      * by eapply loads_segment_good.
      * by apply loads_segment_raises.
    + exists e. split_and!; [done|done|].
      intros ??? [= <- <- <-]. left. by apply loads_segment_raises.
Qed.

(** Conversely, a token that does not parse is malformed in one of the
    three ways. *)
Lemma decode_jwt_raise token e :
  decode_jwt token = Raise e → malformed token.
Proof.
  unfold decode_jwt, decode_jws, malformed.
  destruct (str_split dot token) as [|p0 [|p1 [|p2 [|p3 ps]]]] eqn:Hs;
    simpl; try (intros _; left; done).
  intros H. right. exists p0, p1, p2. split; [done|].
  assert (∀ seg e', loads_segment seg = Raise e' → bad_segment seg) as Hbad.
  { intros seg e' He. exists e'. by apply loads_segment_raises. }
  destruct (loads_segment p0) as [h|e0] eqn:Hh; [|left; eauto].
  simpl in H. destruct (loads_segment p1) as [p|e1] eqn:Hp; [done|right; eauto].
Qed.

(** ** Verification, stage by stage *)

Lemma verify_jwt_decode_raise w token config e :
  decode_jwt token = Raise e → verify_jwt w token config = ([], Raise e).
Proof. intros H. unfold verify_jwt. by rewrite H. Qed.

Lemma verify_jwt_subject_raise w token config d e :
  decode_jwt token = Ok d →
  subject_did (jwt_header d) (jwt_payload d) = Raise e →
  verify_jwt w token config = ([], Raise e).
Proof.
  intros Hd H. unfold verify_jwt. rewrite Hd. run_step. rewrite H. by run_step.
Qed.

Lemma verify_jwt_from_did w token config d did :
  decode_jwt token = Ok d →
  subject_did (jwt_header d) (jwt_payload d) = Ok did →
  verify_jwt w token config = verify_from_did w token config d did.
Proof.
  intros Hd H. unfold verify_jwt, verify_from_did. rewrite Hd. run_step.
  rewrite H. by run_step.
Qed.

Lemma verify_from_did_run w token config d did :
  verify_from_did w token config d did =
    match resolve w did config with
    | Raise e => ([EvResolve did config], Raise e)
    | Ok r =>
        match list_first (verificationMethod (didDocument r)) with
        | Raise e => ([EvResolve did config], Raise e)
        | Ok a =>
            ([EvResolve did config;
              EvVerify (jwt_data d) (jwt_signature d) a],
             ok ← verify_ES256K w (jwt_data d) (jwt_signature d) a;
             _ ← py_assert ok (Some "Signature verification failed");
             _ ← validate_claims (time_time w) (jwt_payload d) config;
             Ok (jwt_payload d, r, did, a, token))
        end
    end.
Proof.
  unfold verify_from_did.
  destruct (resolve w did config) as [r|e]; run_step; [|done].
  destruct (list_first (verificationMethod (didDocument r))) as [a|e];
    run_step; [|done].
  destruct (verify_ES256K w (jwt_data d) (jwt_signature d) a) as [[]|e];
    run_step; unfold py_assert; run_step; [|done..].
  by destruct (validate_claims (time_time w) (jwt_payload d) config).
Qed.

Lemma verify_jwt_claims w token config d did r a :
  reaches_claims w token config d did r a →
  verify_jwt w token config =
    ([EvResolve did config; EvVerify (jwt_data d) (jwt_signature d) a],
     _ ← validate_claims (time_time w) (jwt_payload d) config;
     Ok (jwt_payload d, r, did, a, token)).
Proof.
  intros (Hd & Hs & Hr & Ha & Hv).
  rewrite (verify_jwt_from_did _ _ _ _ _ Hd Hs), verify_from_did_run.
  by rewrite Hr, Ha, Hv.
Qed.

End Pipeline.

(** ** The reference base64url codec *)

Module Base64Facts.
Import Base64.

Arguments char_digit : simpl never.
Arguments digit_char : simpl never.

Lemma char_digit_char x : char_digit (digit_char x) = Some x.
Proof. by destruct x as [[] [] [] [] [] []]. Qed.

Lemma digit_char_not_pad x : Ascii.eqb (digit_char x) pad_char = false.
Proof. by destruct x as [[] [] [] [] [] []]. Qed.

Lemma digit_char_not_dot x : Ascii.eqb (digit_char x) dot = false.
Proof. by destruct x as [[] [] [] [] [] []]. Qed.

Lemma string_ind3 (P : string → Prop) :
  P "" → (∀ a, P (String a "")) → (∀ a b, P (String a (String b ""))) →
  (∀ a b c s, P s → P (String a (String b (String c s)))) →
  ∀ s, P s.
Proof.
  intros H0 H1 H2 H3.
  assert (∀ s, P s ∧ (∀ a, P (String a s)) ∧ (∀ a b, P (String a (String b s))))
    as H; [|intros s; apply H].
  induction s as [|c s (IH0 & IH1 & IH2)]; [by auto|].
  split_and!; auto.
Qed.

Lemma encode_cons3 a b c s :
  encode (String a (String b (String c s))) = encode3 a b c +:+ encode s.
Proof. reflexivity. Qed.

Ltac digits :=
  unfold decode_last;
  repeat (rewrite ?char_digit_char, ?digit_char_not_pad; simpl).

Lemma encode3_digits a b c t :
  ∃ x0 x1 x2 x3,
    encode3 a b c +:+ t =
      String (digit_char x0) (String (digit_char x1)
        (String (digit_char x2) (String (digit_char x3) t)))
    ∧ decode3 x0 x1 x2 x3 = String a (String b (String c "")).
Proof.
  destruct a as [a0 a1 a2 a3 a4 a5 a6 a7], b as [b0 b1 b2 b3 b4 b5 b6 b7],
    c as [c0 c1 c2 c3 c4 c5 c6 c7].
  by eexists _, _, _, _.
Qed.

Lemma decode_group c0 c1 c2 c3 e es :
  decode (String c0 (String c1 (String c2 (String c3 (String e es))))) =
    x0 ← char_digit c0; x1 ← char_digit c1;
    x2 ← char_digit c2; x3 ← char_digit c3;
    tail ← decode (String e es);
    Some (decode3 x0 x1 x2 x3 +:+ tail).
Proof. reflexivity. Qed.

Lemma encode_empty bs : encode bs = "" → bs = "".
Proof.
  destruct bs as [|x [|y [|z s']]]; [done|..]; intros H; exfalso.
  - by destruct x.
  - by destruct x, y.
  - by destruct x, y, z.
Qed.

Lemma decode_encode bs : decode (encode bs) = Some bs.
Proof.
  induction bs as [|a|a b|a b c s IH] using string_ind3.
  - done.
  - destruct a as [a0 a1 a2 a3 a4 a5 a6 a7]. simpl. by digits.
  - destruct a as [a0 a1 a2 a3 a4 a5 a6 a7], b as [b0 b1 b2 b3 b4 b5 b6 b7].
    simpl. by digits.
  - rewrite encode_cons3.
    destruct (encode3_digits a b c (encode s)) as (x0 & x1 & x2 & x3 & -> & Hd).
    destruct (encode s) as [|e es] eqn:He.
    + apply encode_empty in He as ->. simpl. digits. by rewrite Hd.
    + rewrite decode_group, !char_digit_char, IH. simpl. by rewrite Hd.
Qed.

Lemma str_remove_keep c a s :
  Ascii.eqb a c = false → str_remove c (String a s) = String a (str_remove c s).
Proof. intros H. simpl. by rewrite H. Qed.

Lemma str_length_cons a s : String.length (String a s) = S (String.length s).
Proof. reflexivity. Qed.

Lemma encode_shape bs :
  ∃ k, (k < 3)%nat
       ∧ str_remove pad_char (encode bs) +:+ str_repeat pad_char k = encode bs
       ∧ ((String.length (str_remove pad_char (encode bs)) + k) mod 4 = 0)%nat
       ∧ str_mem dot (encode bs) = false.
Proof.
  induction bs as [|a|a b|a b c s IH] using string_ind3.
  - exists 0%nat. split_and!; [lia|done..].
  - exists 2%nat. destruct a as [a0 a1 a2 a3 a4 a5 a6 a7]. simpl.
    rewrite !digit_char_not_pad, !digit_char_not_dot. split_and!; [lia|done..].
  - exists 1%nat.
    destruct a as [a0 a1 a2 a3 a4 a5 a6 a7], b as [b0 b1 b2 b3 b4 b5 b6 b7].
    simpl. rewrite !digit_char_not_pad, !digit_char_not_dot.
    split_and!; [lia|done..].
  - destruct IH as (k & Hk & Happ & Hlen & Hdot). exists k.
    rewrite encode_cons3.
    destruct (encode3_digits a b c (encode s)) as (x0 & x1 & x2 & x3 & -> & _).
    rewrite !str_remove_keep by apply digit_char_not_pad.
    rewrite !str_app_cons, Happ, !str_length_cons.
    split_and!; [done..| |].
    + replace (S (S (S (S (String.length (str_remove pad_char (encode s)))))) + k)%nat
        with (String.length (str_remove pad_char (encode s)) + k + 1 * 4)%nat by lia.
      by rewrite Nat.Div0.mod_add.
    + simpl. by rewrite !digit_char_not_dot, Hdot.
Qed.

Lemma pad_amount n k :
  (k < 3)%nat → ((n + k) mod 4 = 0)%nat → ((4 - n mod 4) mod 4 = k)%nat.
Proof.
  intros Hk Hn.
  pose proof (Nat.div_mod_eq n 4) as Hdiv.
  pose proof (Nat.mod_upper_bound n 4 ltac:(lia)) as Hub.
  pose proof (Nat.div_mod_eq (n + k) 4) as Hdiv'.
  rewrite Hn in Hdiv'.
  destruct (n mod 4)%nat as [|[|[|[|r]]]] eqn:Hr; try lia; simpl.
  all: destruct k as [|[|[|k]]]; try lia; done.
Qed.

Lemma encode_strip_pad bs :
  pad_base64 (str_remove pad_char (encode bs)) = encode bs.
Proof.
  destruct (encode_shape bs) as (k & Hk & Happ & Hlen & _).
  unfold pad_base64. by rewrite (pad_amount _ k).
Qed.

Lemma encode_no_dot bs : str_mem dot (encode bs) = false.
Proof. by destruct (encode_shape bs) as (k & _ & _ & _ & ?). Qed.

Lemma roundtrip bs :
  decode (pad_base64 (str_remove pad_char (encode bs))) = Some bs.
Proof. by rewrite encode_strip_pad, decode_encode. Qed.

End Base64Facts.

(** ** The reference JSON codec *)

Module JsonFacts.
Import Json.

Arguments is_digit : simpl never.
Arguments is_ws : simpl never.

Lemma tree_ind' (P : tree → Prop) :
  P TNull → (∀ b, P (TBool b)) → (∀ n, P (TNum n)) → (∀ s, P (TStr s)) →
  (∀ items, Forall P items → P (TArr items)) →
  (∀ members, Forall (λ m, P m.2) members → P (TObj members)) →
  ∀ t, P t.
Proof.
  intros Hnull Hbool Hnum Hstr Harr Hobj.
  fix IH 1. intros [|b|n|s|items|members].
  - exact Hnull.
  - apply Hbool.
  - apply Hnum.
  - apply Hstr.
  - apply Harr. induction items as [|x l IHl]; constructor;
      [apply IH|exact IHl].
  - apply Hobj. induction members as [|[key x] l IHl]; constructor;
      [apply IH|exact IHl].
Qed.

Lemma parse_chars_escape_char c k :
  parse_chars (escape_char_to c k) =
    '(str, rest) ← parse_chars k; Some (String c str, rest).
Proof.
  destruct c as [[] [] [] [] [] [] [] []]; reflexivity.
Qed.

Lemma parse_chars_quote k : parse_chars (String quote k) = Some ("", k).
Proof. reflexivity. Qed.

Lemma parse_chars_escape s k :
  parse_chars (escape_to s (String quote k)) = Some (s, k).
Proof.
  induction s as [|c s IH]; [done|].
  simpl. by rewrite parse_chars_escape_char, IH.
Qed.

Lemma is_digit_not_minus c : is_digit c = true → Ascii.eqb c "-" = false.
Proof. by destruct c as [[] [] [] [] [] [] [] []]. Qed.

Lemma delimited_not_digit c k :
  delimited (String c k) = true →
  is_digit c = false
  ∧ (Ascii.eqb c "." || Ascii.eqb c "e" || Ascii.eqb c "E") = false
  ∧ is_ws c = false.
Proof. by destruct c as [[] [] [] [] [] [] [] []]. Qed.

Lemma span_digits_app ds k :
  all_digits ds = true → delimited k = true →
  span_digits (ds +:+ k) = (ds, k).
Proof.
  intros Hds Hk. induction ds as [|c ds IH]; simpl in *.
  - destruct k as [|c k]; [done|].
    apply delimited_not_digit in Hk as (Hc & _). simpl. by rewrite Hc.
  - apply andb_prop in Hds as [Hc Hds]. by rewrite Hc, IH.
Qed.

Lemma all_digits_uint d : all_digits (NilEmpty.string_of_uint d) = true.
Proof. induction d; simpl; auto. Qed.

Lemma print_int_shape n :
  (∃ c ds, print_int n = String c ds ∧ is_digit c = true
           ∧ all_digits ds = true)
  ∨ (∃ ds, print_int n = String "-" ds ∧ all_digits ds = true).
Proof.
  unfold print_int.
  assert (∀ p, ∃ c ds, NilZero.string_of_uint (Pos.to_uint p) = String c ds
                       ∧ is_digit c = true ∧ all_digits ds = true) as Hpos.
  { intros p. pose proof (Unsigned.to_uint_nonnil p) as Hnil.
    pose proof (all_digits_uint (Pos.to_uint p)) as Hall.
    destruct (Pos.to_uint p) eqn:Hu; [done|..]; simpl in *; eauto. }
  destruct n as [|p|p]; simpl.
  - left. by exists "0"%char, "".
  - left. apply Hpos.
  - right. destruct (Hpos p) as (c & ds & -> & Hc & Hds).
    exists (String c ds). simpl. by rewrite Hc, Hds.
Qed.

Lemma int_of_print_int n :
  NilZero.int_of_string (print_int n) = Some (Z.to_int n).
Proof.
  unfold print_int. apply NilZero.isi.
  - destruct n; simpl; try done. intros [= H].
    by apply Unsigned.to_uint_nonnil in H.
  - destruct n; simpl; try done. intros [= H].
    by apply Unsigned.to_uint_nonnil in H.
Qed.

Lemma parse_number_tail n token k :
  delimited k = true →
  NilZero.int_of_string token = Some (Z.to_int n) →
  print_int n = token →
  (i ← NilZero.int_of_string token;
   let m := Z.of_int i in
   if bool_decide (print_int m = token) || bool_decide (token = "-0") then
     match k with
     | String c _ =>
         if Ascii.eqb c "." || Ascii.eqb c "e" || Ascii.eqb c "E" then None
         else Some (m, k)
     | "" => Some (m, k)
     end
   else None) = Some (n, k).
Proof.
  intros Hk -> Htok. simpl. rewrite DecimalZ.of_to.
  rewrite (bool_decide_true _ Htok). simpl.
  destruct k as [|c k]; [done|].
  by apply delimited_not_digit in Hk as (_ & -> & _).
Qed.

Lemma parse_number_print n k :
  delimited k = true → parse_number (print_int n +:+ k) = Some (n, k).
Proof.
  intros Hk. pose proof (int_of_print_int n) as Hint.
  destruct (print_int_shape n) as [(c & ds & Hp & Hc & Hds)|(ds & Hp & Hds)].
  - unfold parse_number. rewrite Hp. rewrite str_app_cons.
    rewrite (is_digit_not_minus c Hc).
    change (String c (ds +:+ k)) with (String c ds +:+ k).
    rewrite span_digits_app by (simpl; by rewrite ?Hc, ?Hds).
    rewrite str_app_nil_l. rewrite <- Hp.
    by apply parse_number_tail.
  - unfold parse_number. rewrite Hp. rewrite str_app_cons.
    rewrite Ascii.eqb_refl.
    rewrite span_digits_app by done.
    change ("-" +:+ ds) with (String "-" ds). rewrite <- Hp.
    by apply parse_number_tail.
Qed.

Lemma print_to_starter t k :
  ∃ c r, print_to t k = String c r ∧ starter c = true.
Proof.
  destruct t as [|[]|n|s|items|members]; simpl; try by eexists _, _.
  destruct (print_int_shape n) as [(c & ds & -> & Hc & _)|(ds & -> & _)].
  - exists c, (ds +:+ k). split; [done|]. unfold starter. by rewrite Hc.
  - by eexists _, _.
Qed.

Lemma skip_ws_starter c r :
  starter c = true → skip_ws (String c r) = String c r.
Proof. by destruct c as [[] [] [] [] [] [] [] []]. Qed.

Lemma skip_ws_print t k : skip_ws (print_to t k) = print_to t k.
Proof.
  destruct (print_to_starter t k) as (c & r & -> & Hc).
  by apply skip_ws_starter.
Qed.

Lemma parse_value_number fuel c r :
  (is_digit c || Ascii.eqb c "-") = true →
  parse_value (S fuel) (String c r) =
    '(n, r') ← parse_number (String c r); Some (TNum n, r').
Proof.
  destruct c as [[] [] [] [] [] [] [] []]; intros H; try done.
Qed.

Lemma parse_value_string fuel r :
  parse_value (S fuel) (String quote r) =
    '(str, r') ← parse_chars r; Some (TStr str, r').
Proof. reflexivity. Qed.

Lemma parse_value_array fuel c r :
  starter c = true →
  parse_value (S fuel) (String "[" (String c r)) =
    '(l, r') ← parse_items fuel (String c r); Some (TArr l, r').
Proof.
  destruct c as [[] [] [] [] [] [] [] []]; intros H; try done.
Qed.

Lemma parse_value_object fuel r :
  parse_value (S fuel) (String "{" (String quote r)) =
    '(ms, r') ← parse_members fuel (String quote r); Some (TObj ms, r').
Proof. reflexivity. Qed.

Lemma parse_items_step fuel s :
  parse_items (S fuel) s =
    '(x, r) ← parse_value fuel s;
    match skip_ws r with
    | String "," r' => '(l, r'') ← parse_items fuel r'; Some (x :: l, r'')
    | String "]" r' => Some ([x], r')
    | _ => None
    end.
Proof. reflexivity. Qed.

Lemma parse_members_step fuel key k :
  parse_members (S fuel) (print_string_to key (String ":" k)) =
    '(x, r3) ← parse_value fuel k;
    match skip_ws r3 with
    | String "," r4 =>
        '(ms, r5) ← parse_members fuel r4; Some ((key, x) :: ms, r5)
    | String "}" r4 => Some ([(key, x)], r4)
    | _ => None
    end.
Proof.
  unfold print_string_to.
  change (parse_members (S fuel) (String quote ?r)) with
    ('(key, r1) ← parse_chars r;
     match skip_ws r1 with
     | String ":" r2 =>
         '(x, r3) ← parse_value fuel r2;
         match skip_ws r3 with
         | String "," r4 =>
             '(ms, r5) ← parse_members fuel r4; Some ((key, x) :: ms, r5)
         | String "}" r4 => Some ([(key, x)], r4)
         | _ => None
         end
     | _ => None
     end).
  by rewrite parse_chars_escape.
Qed.

Lemma parse_items_print items k :
  Forall (λ t, ∀ fuel k, (tfuel t ≤ fuel)%nat → delimited k = true →
               parse_value fuel (print_to t k) = Some (t, k)) items →
  items ≠ [] →
  ∀ fuel, (list_fuel tfuel items ≤ fuel)%nat →
  parse_items fuel (sep_by print_to items (String "]" k)) = Some (items, k).
Proof.
  induction 1 as [|x l Hx Hl IH]; [done|]. intros _ fuel Hfuel.
  destruct fuel as [|fuel]; [simpl in Hfuel; lia|].
  simpl in Hfuel. rewrite parse_items_step.
  destruct l as [|y l'].
  - change (sep_by print_to [x] (String "]" k)) with
      (print_to x (String "]" k)).
    rewrite Hx by (done || lia). done.
  - change (sep_by print_to (x :: y :: l') (String "]" k)) with
      (print_to x (String "," (sep_by print_to (y :: l') (String "]" k)))).
    rewrite Hx by (done || lia). simpl.
    rewrite IH by (done || simpl in *; lia). done.
Qed.

Lemma parse_members_print members k :
  Forall (λ m, ∀ fuel k, (tfuel m.2 ≤ fuel)%nat → delimited k = true →
               parse_value fuel (print_to m.2 k) = Some (m.2, k)) members →
  members ≠ [] →
  ∀ fuel, (list_fuel (λ m, tfuel m.2) members ≤ fuel)%nat →
  parse_members fuel
    (sep_by (λ m k, print_string_to m.1 (String ":" (print_to m.2 k)))
            members (String "}" k)) = Some (members, k).
Proof.
  induction 1 as [|[key x] l Hx Hl IH]; [done|]. intros _ fuel Hfuel.
  destruct fuel as [|fuel]; [simpl in Hfuel; lia|].
  simpl in Hfuel, Hx.
  destruct l as [|y l'].
  - change (sep_by ?pr [(key, x)] (String "}" k)) with
      (print_string_to key (String ":" (print_to x (String "}" k)))).
    rewrite parse_members_step. rewrite Hx by (done || lia). done.
  - change (sep_by ?pr ((key, x) :: y :: l') (String "}" k)) with
      (print_string_to key (String ":"
         (print_to x (String "," (sep_by pr (y :: l') (String "}" k)))))).
    rewrite parse_members_step. rewrite Hx by (done || lia). simpl.
    rewrite IH by (done || simpl in *; lia). done.
Qed.

Lemma sep_by_print_starter x l k :
  ∃ c r, sep_by print_to (x :: l) k = String c r ∧ starter c = true.
Proof.
  destruct l as [|y l]; [apply print_to_starter|].
  change (sep_by print_to (x :: y :: l) k) with
    (print_to x (String "," (sep_by print_to (y :: l) k))).
  apply print_to_starter.
Qed.

Theorem parse_print t :
  ∀ fuel k, (tfuel t ≤ fuel)%nat → delimited k = true →
            parse_value fuel (print_to t k) = Some (t, k).
Proof.
  induction t as [|b|n|s|items IH|members IH] using tree_ind';
    intros fuel k Hfuel Hk; (destruct fuel as [|fuel]; [simpl in Hfuel; lia|]).
  - reflexivity.
  - by destruct b.
  - change (print_to (TNum n) k) with (print_int n +:+ k).
    destruct (print_int_shape n) as [(c & ds & Hp & Hc & _)|(ds & Hp & _)].
    + pose proof (parse_number_print n k Hk) as Hn. rewrite Hp in *.
      rewrite str_app_cons in *.
      rewrite parse_value_number by (by rewrite Hc). by rewrite Hn.
    + pose proof (parse_number_print n k Hk) as Hn. rewrite Hp in *.
      rewrite str_app_cons in *.
      rewrite parse_value_number by done. by rewrite Hn.
  - change (print_to (TStr s) k) with (print_string_to s k).
    unfold print_string_to. rewrite parse_value_string.
    by rewrite parse_chars_escape.
  - simpl in Hfuel. destruct items as [|x l]; [reflexivity|].
    pose proof (parse_items_print (x :: l) k IH ltac:(done) fuel ltac:(lia)) as Hi.
    change (print_to (TArr (x :: l)) k) with
      (String "[" (sep_by print_to (x :: l) (String "]" k))).
    destruct (sep_by_print_starter x l (String "]" k)) as (c & r & Hs & Hc).
    rewrite Hs in *.
    rewrite parse_value_array by done. by rewrite Hi.
  - simpl in Hfuel. destruct members as [|[key x] l]; [reflexivity|].
    pose proof (parse_members_print ((key, x) :: l) k IH ltac:(done) fuel ltac:(lia)) as Hi.
    change (print_to (TObj ((key, x) :: l)) k) with
      (String "{" (sep_by (λ m k, print_string_to m.1 (String ":" (print_to m.2 k)))
                          ((key, x) :: l) (String "}" k))).
    assert (∃ r, sep_by (λ m k, print_string_to m.1 (String ":" (print_to m.2 k)))
                        ((key, x) :: l) (String "}" k) = String quote r) as [r Hr].
    { destruct l; simpl; unfold print_string_to; eauto. }
    rewrite Hr in *. rewrite parse_value_object. by rewrite Hi.
Qed.

(** The fuel a text gives is enough for the tree it was printed from. *)
Lemma str_length_app a b :
  String.length (a +:+ b) = (String.length a + String.length b)%nat.
Proof.
  induction a as [|c a IH]; [done|]. rewrite str_app_cons. simpl. by rewrite IH.
Qed.

Lemma escape_char_to_length c k :
  (S (String.length k) ≤ String.length (escape_char_to c k))%nat.
Proof.
  unfold escape_char_to. repeat case_match; simpl; lia.
Qed.

Lemma escape_to_length s k :
  (String.length k ≤ String.length (escape_to s k))%nat.
Proof.
  induction s as [|c s IH]; simpl; [lia|].
  pose proof (escape_char_to_length c (escape_to s k)). lia.
Qed.

Lemma print_string_to_length s k :
  (2 + String.length k ≤ String.length (print_string_to s k))%nat.
Proof.
  unfold print_string_to. simpl.
  pose proof (escape_to_length s (String quote k)). simpl in *. lia.
Qed.

Lemma print_to_length t :
  ∀ k, (tfuel t + String.length k ≤ String.length (print_to t k))%nat.
Proof.
  induction t as [|b|n|s|items IH|members IH] using tree_ind'; intros k.
  - change (print_to TNull k) with ("null" +:+ k).
    rewrite str_length_app. simpl. lia.
  - destruct b; [change (print_to (TBool true) k) with ("true" +:+ k)
                |change (print_to (TBool false) k) with ("false" +:+ k)];
      rewrite str_length_app; simpl; lia.
  - change (print_to (TNum n) k) with (print_int n +:+ k).
    rewrite str_length_app.
    destruct (print_int_shape n) as [(c & ds & -> & _)|(ds & -> & _)];
      simpl; lia.
  - change (print_to (TStr s) k) with (print_string_to s k).
    pose proof (print_string_to_length s k).
    change (tfuel (TStr s)) with 1%nat. lia.
  - change (print_to (TArr items) k) with
      (String "[" (sep_by print_to items (String "]" k))).
    assert (∀ c, (list_fuel tfuel items + String.length k
                  ≤ String.length (sep_by print_to items (String c k)))%nat) as H.
    { intros c. induction IH as [|x l Hx Hl IHl]; [simpl; lia|].
      destruct l as [|y l'].
      - specialize (Hx (String c k)). simpl in *. lia.
      - change (sep_by print_to (x :: y :: l') (String c k)) with
          (print_to x (String "," (sep_by print_to (y :: l') (String c k)))).
        change (list_fuel tfuel (x :: y :: l')) with
          (S (Nat.max (tfuel x) (list_fuel tfuel (y :: l')))).
        set (r := sep_by print_to (y :: l') (String c k)) in *.
        specialize (Hx (String "," r)). simpl String.length in Hx. lia. }
    specialize (H "]"%char). simpl. lia.
  - change (print_to (TObj members) k) with
      (String "{" (sep_by (λ m k, print_string_to m.1 (String ":" (print_to m.2 k)))
                          members (String "}" k))).
    assert (∀ c, (list_fuel (λ m, tfuel m.2) members + String.length k
                  ≤ String.length
                      (sep_by (λ m k, print_string_to m.1 (String ":" (print_to m.2 k)))
                              members (String c k)))%nat) as H.
    { intros c. induction IH as [|[key x] l Hx Hl IHl]; [simpl; lia|].
      simpl in Hx.
      destruct l as [|y l'].
      - specialize (Hx (String c k)).
        change (sep_by ?pr [(key, x)] (String c k)) with
          (print_string_to key (String ":" (print_to x (String c k)))).
        pose proof (print_string_to_length key (String ":" (print_to x (String c k)))).
        simpl in *. lia.
      - change (sep_by ?pr ((key, x) :: y :: l') (String c k)) with
          (print_string_to key (String ":"
             (print_to x (String "," (sep_by pr (y :: l') (String c k)))))).
        change (list_fuel ?f ((key, x) :: y :: l')) with
          (S (Nat.max (tfuel x) (list_fuel f (y :: l')))).
        match goal with
        | |- context [print_to x (String "," ?r0)] => set (r := r0) in *
        end.
        specialize (Hx (String "," r)).
        pose proof (print_string_to_length key (String ":" (print_to x (String "," r)))).
        simpl String.length in *. lia. }
    specialize (H "}"%char). simpl. lia.
Qed.

Theorem parse_print_text t : parse (print t) = Some t.
Proof.
  unfold parse, print.
  pose proof (print_to_length t "") as Hlen. simpl in Hlen.
  rewrite parse_print by (done || lia). done.
Qed.

End JsonFacts.

(** ** Values and trees *)

Lemma vsize_list_elem (x : value) (l : list value) :
  x ∈ l → (vsize x < vsize (VList l))%nat.
Proof.
  simpl. induction 1 as [x l|x y l _ IH]; simpl; lia.
Qed.

Lemma vsize_dict_elem (key : string) (x : value) (d : gmap string value) :
  d !! key = Some x → (vsize x < vsize (VDict d))%nat.
Proof.
  intros Hx%elem_of_map_to_list. simpl. rewrite map_fold_foldr.
  induction (map_to_list d) as [|[k y] l IH]; [by apply elem_of_nil in Hx|].
  apply elem_of_cons in Hx as [Heq|Hx].
  - injection Heq as <- <-. simpl. lia.
  - specialize (IH Hx). simpl. lia.
Qed.

(** Induction on a value, with the hypothesis for every element of a list
    and every entry of a dict. *)
Lemma value_ind' (P : value → Prop) :
  P VNone → (∀ b, P (VBool b)) → (∀ n, P (VInt n)) → (∀ s, P (VStr s)) →
  (∀ l, Forall P l → P (VList l)) →
  (∀ d, map_Forall (λ _, P) d → P (VDict d)) →
  ∀ v, P v.
Proof.
  intros Hnone Hbool Hint Hstr Hlist Hdict v.
  remember (vsize v) as n eqn:Hn. revert v Hn.
  induction (lt_wf n) as [n _ IH]. intros v ->.
  destruct v as [|b|m|s|l|d]; auto.
  - apply Hlist, Forall_forall. intros x Hx.
    apply (IH (vsize x)); [by apply vsize_list_elem|done].
  - apply Hdict. intros key x Hx.
    apply (IH (vsize x)); [by eapply vsize_dict_elem|done].
Qed.

Lemma map_fold_members {A : Type} (f : value → A) (d : gmap string value) :
  map_fold (λ key x acc, (key, f x) :: acc) [] d
  = (λ m, (m.1, f m.2)) <$> map_to_list d.
Proof.
  rewrite map_fold_foldr.
  induction (map_to_list d) as [|[k x] l IH]; simpl; [done|]. by rewrite IH.
Qed.

Theorem of_to_tree v : of_tree (to_tree v) = v.
Proof.
  induction v as [|b|n|s|l IH|d IH] using value_ind'; simpl; try done.
  - f_equal. induction IH as [|x l Hx _ IHl]; csimpl; [done|].
    by rewrite Hx, IHl.
  - f_equal. rewrite map_fold_members.
    assert ((λ m : string * Json.tree, (m.1, of_tree m.2)) <$>
              ((λ m : string * value, (m.1, to_tree m.2)) <$> map_to_list d)
            = map_to_list d) as Hid.
    { apply map_Forall_to_list in IH.
      induction IH as [|[k x] l Hx _ IHl]; csimpl; [done|].
      simpl in Hx. by rewrite Hx, IHl. }
    assert (reverse ((λ m : string * Json.tree, (m.1, of_tree m.2)) <$>
                       merge_sort member_le
                         ((λ m : string * value, (m.1, to_tree m.2)) <$> map_to_list d))
            ≡ₚ map_to_list d) as Hperm.
    { rewrite reverse_Permutation, merge_sort_Permutation. by rewrite Hid. }
    rewrite <- (list_to_map_to_list d) at 2.
    apply list_to_map_proper; [|done].
    rewrite Hperm. apply NoDup_fst_map_to_list.
Qed.

(** ** The libraries keep the contract *)

(** What [json.loads] makes of a canonical text. *)
Lemma loads_canonical_text (py : interpreter) (v : value) :
  loads py (canonical_text v)
  = if (recursion_limit py <? Json.depth (to_tree v))%nat then
      Raise RecursionError
    else if Json.digits_within (int_max_str_digits py) (to_tree v) then Ok v
    else Raise ValueError.
Proof.
  unfold loads, canonical_text. rewrite JsonFacts.parse_print_text.
  by rewrite of_to_tree.
Qed.

Lemma python_codec_laws (py : interpreter) :
  CodecLaws (python_codec py) (λ v, within_limits py v = true).
Proof.
  split.
  - intros b. apply Base64Facts.encode_no_dot.
  - intros b. simpl. by rewrite Base64Facts.roundtrip.
  - intros v [Hdepth Hdigits]%andb_true_iff.
    exists (canonical_text v). split; [done|].
    simpl. rewrite loads_canonical_text.
    apply Nat.leb_le in Hdepth.
    by rewrite (proj2 (Nat.ltb_ge _ _) Hdepth), Hdigits.
Qed.




(** ** Creation *)

Section Creation.
Context {C : Codec}.

Lemma create_jws_run payload sign header :
  let signing_input :=
    str_remove pad_char (urlsafe_b64encode (canonicalize header))
    +:+ "." +:+ str_remove pad_char (urlsafe_b64encode (canonicalize payload)) in
  create_jws payload sign header =
    ([EvSign signing_input],
     signature ← sign signing_input;
     Ok (signing_input +:+ "." +:+ str_remove pad_char signature)).
Proof.
  intros signing_input. unfold create_jws.
  change (str_join "." [?a; ?b]) with (a +:+ "." +:+ b).
  fold signing_input. by destruct (sign signing_input).
Qed.

Lemma full_payload_lookup (now : Z) (payload : dict) (iss : value) (k : string) :
  (<["iss" := iss]>
     (dict_overlay (<["exp" := VInt (now + EXPIRATION_TIME)]>
                      (<["iat" := VInt now]> ∅)) payload) : dict) !! k
  = if decide (k = "iss") then Some iss
    else match payload !! k with
         | Some v => Some v
         | None => if decide (k = "iat") then Some (VInt now)
                   else if decide (k = "exp") then Some (VInt (now + 300))
                   else None
         end.
Proof.
  unfold dict_overlay, EXPIRATION_TIME.
  destruct (decide (k = "iss")) as [->|Hiss]; [by rewrite lookup_insert_eq|].
  rewrite lookup_insert_ne by done. rewrite lookup_union.
  destruct (payload !! k) as [v|] eqn:Hk.
  - by destruct (<["exp":=VInt (now + 300)]> (<["iat":=VInt now]> ∅) !! k).
  - rewrite (left_id_L None _).
    destruct (decide (k = "iat")) as [->|Hiat]; [done|].
    destruct (decide (k = "exp")) as [->|Hexp].
    + by rewrite lookup_insert_eq.
    + by rewrite !lookup_insert_ne, lookup_empty.
Qed.

Lemma create_jwt_full_payload (w : world) (payload : dict) (opts : options)
    (header : value) :
  create_jwt w payload opts header
  = create_jws (VDict (full_payload (time_time w) payload (issuer opts)))
               (signer opts) header.
Proof. reflexivity. Qed.

(** A token that [create_jws] returned and that parses, parses to the
    signing input and to the signature as the signer gave it, without its
    padding. *)
Lemma create_jws_decoded (payload header : value)
    (sign : string → result string) (token : string) (d : jwt) :
  let signing_input :=
    str_remove pad_char (urlsafe_b64encode (canonicalize header))
    +:+ "." +:+ str_remove pad_char (urlsafe_b64encode (canonicalize payload)) in
  outcome (create_jws payload sign header) = Ok token →
  decode_jwt token = Ok d →
  ∃ signature,
    sign signing_input = Ok signature
    ∧ token = signing_input +:+ "." +:+ str_remove pad_char signature
    ∧ jwt_data d = signing_input
    ∧ jwt_signature d = str_remove pad_char signature.
Proof.
  intros signing_input. rewrite (create_jws_run payload sign header).
  fold signing_input. simpl.
  destruct (sign signing_input) as [signature|e]; simpl; [|done].
  intros [= <-] Hd. exists signature. split; [done|]. split; [done|].
  destruct (decode_jwt_segments _ _ Hd)
    as (p0 & p1 & p2 & Hs & _ & _ & Hsig & Hdata).
  unfold signing_input in Hs. rewrite !str_app_assoc in Hs.
  change ("." +:+ ?x +:+ "." +:+ ?y) with ("." +:+ (x +:+ "." +:+ y)) in Hs.
  rewrite str_split_two_dots in Hs by (by rewrite Hs).
  injection Hs as <- <- <-. by rewrite Hsig, Hdata.
Qed.

(** C3: [create_jwt] starts from [{iat = now, exp = now + 300}], lays the
    caller's payload over it (a caller's [iat] or [exp] replaces the
    injected one), then sets [iss] to the issuer of the options whatever
    the caller supplied, and hands the merged payload to [create_jws] with
    the signer of the options and the given header. *)
Theorem create_jwt_merge (w : world) (payload : dict) (opts : options)
    (header : value) :
  ∃ full : dict,
    create_jwt w payload opts header
    = create_jws (VDict full) (signer opts) header
    ∧ full !! "iss" = Some (issuer opts)
    ∧ (∀ k v, k ≠ "iss" → payload !! k = Some v → full !! k = Some v)
    ∧ (payload !! "iat" = None → full !! "iat" = Some (VInt (time_time w)))
    ∧ (payload !! "exp" = None →
       full !! "exp" = Some (VInt (time_time w + 300)))
    ∧ (∀ k, k ≠ "iss" → k ≠ "iat" → k ≠ "exp" →
            payload !! k = None → full !! k = None).
Proof.
  eexists. split; [reflexivity|].
  split_and!.
  - rewrite full_payload_lookup. by case_decide.
  - intros k v Hk Hv. rewrite full_payload_lookup, Hv. by case_decide.
  - intros Hk. rewrite full_payload_lookup, Hk. by repeat case_decide.
  - intros Hk. rewrite full_payload_lookup, Hk. by repeat case_decide.
  - intros k ??? Hk. rewrite full_payload_lookup, Hk. by repeat case_decide.
Qed.

End Creation.

(** ** Verification *)

Lemma py_eq_str (v : value) (s : string) :
  py_eq v (VStr s) = true ↔ v = VStr s.
Proof.
  destruct v as [|b|n|t|l|d]; simpl; try (split; [done|congruence]).
  rewrite bool_decide_eq_true. split; congruence.
Qed.

Lemma is_none_false (v : value) : is_none v = false ↔ v ≠ VNone.
Proof. by destruct v. Qed.

(** The DID that the run hands to the resolver, if it gets that far. *)
Definition resolved_did {A : Type} (m : M A) : option value :=
  match trace m with
  | EvResolve did _ :: _ => Some did
  | _ => None
  end.

(** The audience test of section 4.5, step 6: membership when the
    configured audience is a collection, equality otherwise. *)
Definition audience_accepts (audience aud : value) : bool :=
  match audience with
  | VList members => py_in aud members
  | _ => py_eq aud audience
  end.

(** [iat] and [exp] are integers inside the window of 300 seconds. *)
Definition in_time (now : Z) (p : dict) : Prop :=
  ∃ iat exp, p !! "iat" = Some (VInt iat) ∧ p !! "exp" = Some (VInt exp)
             ∧ iat ≤ now + 300 ∧ now - 300 < exp.

Lemma dict_get_Some (p : dict) (k : string) (v : value) :
  p !! k = Some v → dict_get p k = v.
Proof. unfold dict_get. by intros ->. Qed.

Lemma subject_did_dict (header : value) (p : dict) :
  subject_did header (VDict p) =
    if is_none (dict_get p "iss") then
      Raise (AssertionError (Some "Missing issuer"))
    else if py_eq (dict_get p "iss") (VStr SELF_ISSUED) then
      if is_none (dict_get p "sub") then
        Raise (AssertionError (Some "Missing subject"))
      else if is_none (dict_get p "sub_jwk") then Ok (dict_get p "sub")
      else (kid ← py_get header "kid"; py_split_first hash kid)
    else Ok (dict_get p "iss").
Proof.
  unfold subject_did. simpl.
  destruct (is_none (dict_get p "iss")); simpl; [done|].
  destruct (py_eq _ _); [|done].
  destruct (is_none (dict_get p "sub")); simpl; [done|].
  by destruct (is_none (dict_get p "sub_jwk")).
Qed.

Lemma py_split_first_str (sep : ascii) (s : string) :
  py_split_first sep (VStr s) = Ok (VStr (before_first sep s)).
Proof.
  unfold py_split_first. pose proof (str_split_head sep s) as H.
  destruct (str_split sep s); simpl in H; [done|congruence].
Qed.

Lemma validate_claims_in_time (now : Z) (p : dict) (config : dict) :
  in_time now p →
  validate_claims now (VDict p) config =
    if truthy (dict_get p "aud") && truthy (dict_get config "audience") then
      py_assert (audience_accepts (dict_get config "audience") (dict_get p "aud"))
                (Some "Invalid audience")
    else Ok tt.
Proof.
  intros (iat & exp & Hiat & Hexp & Hi & He).
  apply dict_get_Some in Hiat, Hexp.
  unfold validate_claims. simpl. rewrite Hiat, Hexp. simpl.
  rewrite (proj2 (Z.ltb_ge _ _)) by lia. simpl.
  rewrite (proj2 (Z.leb_gt _ _)) by lia. simpl.
  destruct (truthy (dict_get p "aud")); simpl; [|done].
  destruct (truthy (dict_get config "audience")) eqn:Ha; simpl; [|done].
  unfold audience_accepts. by destruct (dict_get config "audience").
Qed.

Lemma validate_claims_times (now : Z) (p : dict) (config : dict) (iat exp : Z) :
  p !! "iat" = Some (VInt iat) → p !! "exp" = Some (VInt exp) →
  validate_claims now (VDict p) config =
    if now + 300 <? iat then
      Raise (AssertionError (Some "Issue time is in the future"))
    else if exp <=? now - 300 then Raise (AssertionError (Some "Expired JWT"))
    else if truthy (dict_get p "aud") && truthy (dict_get config "audience") then
      py_assert (audience_accepts (dict_get config "audience") (dict_get p "aud"))
                (Some "Invalid audience")
    else Ok tt.
Proof.
  intros Hiat Hexp.
  pose proof (dict_get_Some _ _ _ Hiat) as Hiat'.
  pose proof (dict_get_Some _ _ _ Hexp) as Hexp'.
  destruct (now + 300 <? iat) eqn:Hi.
  { unfold validate_claims. simpl. rewrite Hiat', Hexp'. simpl. by rewrite Hi. }
  destruct (exp <=? now - 300) eqn:He.
  { unfold validate_claims. simpl. rewrite Hiat', Hexp'. simpl.
    rewrite Hi. simpl. by rewrite He. }
  apply validate_claims_in_time. exists iat, exp. split_and!; [done..|lia|lia].
Qed.

Lemma py_gt_raise (x : value) (n : Z) (e : exn) :
  py_gt x n = Raise e → e = TypeError.
Proof. destruct x; simpl; congruence. Qed.

Lemma py_le_raise (x : value) (n : Z) (e : exn) :
  py_le x n = Raise e → e = TypeError.
Proof. destruct x; simpl; congruence. Qed.

(** The audience assertion fails only for a truthy [aud], a truthy
    configured audience and a mismatch between them. *)
Lemma validate_claims_audience (now : Z) (p : dict) (config : dict) e :
  validate_claims now (VDict p) config = Raise e →
  rejection_of e = Some AudienceMismatch →
  truthy (dict_get p "aud") = true
  ∧ truthy (dict_get config "audience") = true
  ∧ audience_accepts (dict_get config "audience") (dict_get p "aud") = false.
Proof.
  unfold validate_claims. simpl.
  destruct (is_none (dict_get p "exp")); simpl; [by intros [= <-]|].
  destruct (is_none (dict_get p "iat")); simpl; [by intros [= <-]|].
  destruct (py_gt (dict_get p "iat") (now + 300)) as [[]|e1] eqn:Hgt; simpl;
    [by intros [= <-]| |intros [= <-]; by apply py_gt_raise in Hgt as ->].
  destruct (py_le (dict_get p "exp") (now - 300)) as [[]|e2] eqn:Hle; simpl;
    [by intros [= <-]| |intros [= <-]; by apply py_le_raise in Hle as ->].
  destruct (truthy (dict_get p "aud")); [|done].
  destruct (truthy (dict_get config "audience")) eqn:Ha; [|done].
  unfold audience_accepts.
  destruct (dict_get config "audience"); simpl;
    match goal with
    | |- py_assert ?b _ = _ → _ => destruct b; [done|by intros [= <-]]
    end.
Qed.

Section Verification.
Context {C : Codec}.

(** C5, as the code has it: a malformed token (a number of dot-separated
    segments other than three, or a header or payload segment on which the
    transport decoding, the text decoding or the JSON parsing raises) ends
    [verify_jwt] before any capability is called, and an exception escapes
    the call: the bare [AssertionError] of [decode_jws] when the segments
    are not three, and otherwise the exception that the failing decoder
    raised, on the header segment or, the header being good, on the payload
    segment. Nothing is caught and no rejection is returned. *)
Theorem malformed_token_raises (w : world) (token : string) (config : dict) :
  malformed token →
  ∃ e, verify_jwt w token config = ([], Raise e)
       ∧ ¬ no_exception_escapes (outcome (verify_jwt w token config))
       ∧ (length (str_split dot token) ≠ 3%nat → e = AssertionError None)
       ∧ (∀ p0 p1 p2, str_split dot token = [p0; p1; p2] →
            segment_raises p0 e ∨ (¬ bad_segment p0 ∧ segment_raises p1 e)).
Proof.
  intros (e & He & Hlen & Hseg)%decode_jwt_malformed. exists e.
  rewrite (verify_jwt_decode_raise _ _ _ _ He).
  split_and!; [done| |done..]. by intros [v Hv].
Qed.

(** C7. Building: [create_jws] calls the signer once, on
    [encoded_header + "." + encoded_payload], and returns that same string
    joined with the signature stripped of its padding. Verifying: a run
    that gets as far as the verifier (the token parses, its DID resolves to
    a document with a first method) calls it once, on the first two
    segments of the token as received, joined by a dot, and on the third
    segment as the signature; for a token that [create_jws] built these are
    the string the signer signed and the signature it gave. No run calls
    the verifier on anything else. *)
Theorem signing_input_as_transmitted (w : world) (token : string)
    (config : dict) (d : jwt) (did : value) (r : did_resolution_result)
    (a : value) :
  decode_jwt token = Ok d →
  subject_did (jwt_header d) (jwt_payload d) = Ok did →
  resolve w did config = Ok r →
  list_first (verificationMethod (didDocument r)) = Ok a →
  (∀ (payload header : value) (sign : string → result string),
     let signing_input :=
       str_remove pad_char (urlsafe_b64encode (canonicalize header))
       +:+ "." +:+ str_remove pad_char (urlsafe_b64encode (canonicalize payload)) in
     trace (create_jws payload sign header) = [EvSign signing_input]
     ∧ outcome (create_jws payload sign header)
       = (signature ← sign signing_input;
          Ok (signing_input +:+ "." +:+ str_remove pad_char signature)))
  ∧ (∃ p0 p1 p2,
       str_split dot token = [p0; p1; p2]
       ∧ token = p0 +:+ "." +:+ p1 +:+ "." +:+ p2
       ∧ trace (verify_jwt w token config)
         = [EvResolve did config; EvVerify (p0 +:+ "." +:+ p1) p2 a])
  ∧ (∀ (payload header : value) (sign : string → result string),
       outcome (create_jws payload sign header) = Ok token →
       ∃ signing_input signature,
         trace (create_jws payload sign header) = [EvSign signing_input]
         ∧ sign signing_input = Ok signature
         ∧ trace (verify_jwt w token config)
           = [EvResolve did config;
              EvVerify signing_input (str_remove pad_char signature) a])
  ∧ (∀ (w' : world) (token' : string) (config' : dict),
       Forall (λ ev,
                 match ev with
                 | EvVerify data signature _ =>
                     ∃ p0 p1, str_split dot token' = [p0; p1; signature]
                              ∧ data = p0 +:+ "." +:+ p1
                 | _ => True
                 end)
              (trace (verify_jwt w' token' config'))).
Proof.
  intros Hd Hs Hr Ha.
  assert (trace (verify_jwt w token config)
          = [EvResolve did config;
             EvVerify (jwt_data d) (jwt_signature d) a]) as Htrace.
  { rewrite (verify_jwt_from_did _ _ _ _ _ Hd Hs), verify_from_did_run.
    by rewrite Hr, Ha. }
  split_and!.
  - intros payload header sign signing_input.
    by rewrite (create_jws_run payload sign header).
  - destruct (decode_jwt_segments _ _ Hd)
      as (p0 & p1 & p2 & Hsplit & _ & _ & Hsig & Hdata).
    exists p0, p1, p2. split_and!; [done| |by rewrite Htrace, Hsig, Hdata].
    rewrite <- (str_join_split dot token) at 1. by rewrite Hsplit.
  - intros payload header sign Htoken.
    destruct (create_jws_decoded _ _ _ _ _ Htoken Hd)
      as (signature & Hsign & _ & Hdata & Hsig).
    eexists _, signature. split_and!; [|exact Hsign|].
    + by rewrite (create_jws_run payload sign header).
    + by rewrite Htrace, Hdata, Hsig.
  - intros w' token' config'.
    destruct (decode_jwt token') as [d'|e] eqn:Hd';
      [|by rewrite (verify_jwt_decode_raise _ _ _ _ Hd')].
    destruct (subject_did (jwt_header d') (jwt_payload d')) as [did'|e] eqn:Hs';
      [|by rewrite (verify_jwt_subject_raise _ _ _ _ _ Hd' Hs')].
    rewrite (verify_jwt_from_did _ _ _ _ _ Hd' Hs'), verify_from_did_run.
    destruct (decode_jwt_segments _ _ Hd')
      as (p0 & p1 & p2 & Hsplit & _ & _ & Hsig & Hdata).
    destruct (resolve w' did' config') as [r'|e]; [|by repeat constructor].
    destruct (list_first (verificationMethod (didDocument r'))) as [a'|e];
      [|by repeat constructor].
    constructor; [done|]. constructor; [|done].
    exists p0, p1. by rewrite Hsig, Hdata.
Qed.

(** C6, as the code has it: when the resolver answers with an empty
    [verificationMethod] list, [verify_jwt] ends with the [IndexError] of
    the subscript [[0]], which escapes the call, after the call to the
    resolver and without a call to the verifier. When the list is not empty
    the verifier is called once, with its first element, and the rest of
    the run depends on the list through that element only. *)
Theorem first_verification_method (w : world) (token : string) (config : dict)
    (d : jwt) (did : value) (r : did_resolution_result) :
  decode_jwt token = Ok d →
  subject_did (jwt_header d) (jwt_payload d) = Ok did →
  resolve w did config = Ok r →
  (verificationMethod (didDocument r) = [] →
     verify_jwt w token config = ([EvResolve did config], Raise IndexError)
     ∧ ¬ no_exception_escapes (outcome (verify_jwt w token config))
     ∧ Forall (λ ev, match ev with EvVerify _ _ _ => False | _ => True end)
              (trace (verify_jwt w token config)))
  ∧ (∀ a rest, verificationMethod (didDocument r) = a :: rest →
       trace (verify_jwt w token config)
       = [EvResolve did config; EvVerify (jwt_data d) (jwt_signature d) a]
       ∧ outcome (verify_jwt w token config)
         = (ok ← verify_ES256K w (jwt_data d) (jwt_signature d) a;
            _ ← py_assert ok (Some "Signature verification failed");
            _ ← validate_claims (time_time w) (jwt_payload d) config;
            Ok (jwt_payload d, r, did, a, token))).
Proof.
  intros Hd Hs Hr.
  rewrite (verify_jwt_from_did _ _ _ _ _ Hd Hs), verify_from_did_run, Hr.
  split.
  - intros ->. simpl. split_and!; [done| |by repeat constructor].
    by intros [v Hv].
  - by intros a rest ->.
Qed.

(** C4: how [verify_jwt] finds the DID it resolves, for a payload that is
    a mapping. A key is missing (absent) when [get] answers [None], which
    is also the case for a key bound to [null]. A missing [iss] is the
    rejection "Missing issuer"; for the self-issued [iss] a missing [sub]
    is the rejection "Missing subject", a missing [sub_jwk] makes the DID
    [sub], and otherwise the DID is the part of the header's [kid] (a
    string) before the first [#]; for any other issuer the DID is [iss]. *)
Theorem subject_did_determination (w : world) (token : string) (config : dict)
    (d : jwt) (p : dict) :
  decode_jwt token = Ok d →
  jwt_payload d = VDict p →
  let iss := dict_get p "iss" in
  let sub := dict_get p "sub" in
  let sub_jwk := dict_get p "sub_jwk" in
  let run := verify_jwt w token config in
  (iss = VNone →
     run = ([], Raise (AssertionError (Some "Missing issuer")))
     ∧ rejected_with (outcome run) MissingClaim)
  ∧ (iss = VStr SELF_ISSUED →
       (sub = VNone →
          run = ([], Raise (AssertionError (Some "Missing subject")))
          ∧ rejected_with (outcome run) MissingClaim)
       ∧ (sub ≠ VNone → sub_jwk = VNone → resolved_did run = Some sub)
       ∧ (sub ≠ VNone → sub_jwk ≠ VNone →
          ∀ kid, py_get (jwt_header d) "kid" = Ok (VStr kid) →
                 resolved_did run = Some (VStr (before_first hash kid))))
  ∧ (iss ≠ VNone → iss ≠ VStr SELF_ISSUED → resolved_did run = Some iss).
Proof.
  intros Hd Hp iss sub sub_jwk run.
  pose proof (subject_did_dict (jwt_header d) p) as Hs. rewrite <- Hp in Hs.
  fold iss sub sub_jwk in Hs.
  assert (∀ did, subject_did (jwt_header d) (jwt_payload d) = Ok did →
                 resolved_did run = Some did) as Hres.
  { intros did Hdid. unfold run, resolved_did.
    rewrite (verify_jwt_from_did _ _ _ _ _ Hd Hdid), verify_from_did_run.
    destruct (resolve w did config) as [r'|e]; [|done].
    by destruct (list_first (verificationMethod (didDocument r'))). }
  assert (∀ msg, subject_did (jwt_header d) (jwt_payload d)
                 = Raise (AssertionError (Some msg)) →
                 run = ([], Raise (AssertionError (Some msg)))) as Hrej.
  { intros msg Hmsg. by apply (verify_jwt_subject_raise _ _ _ _ _ Hd Hmsg). }
  split_and!.
  - intros Hiss. rewrite Hiss in Hs. simpl in Hs.
    rewrite (Hrej _ Hs). split; [done|]. by eexists.
  - intros Hiss. rewrite Hiss in Hs.
    rewrite (proj2 (py_eq_str _ _) eq_refl) in Hs. simpl in Hs. split_and!.
    + intros Hsub. rewrite Hsub in Hs. simpl in Hs.
      rewrite (Hrej _ Hs). split; [done|]. by eexists.
    + intros Hsub%is_none_false Hjwk. rewrite Hsub, Hjwk in Hs. by apply Hres.
    + intros Hsub%is_none_false Hjwk%is_none_false kid Hkid.
      rewrite Hsub, Hjwk, Hkid in Hs.
      change (kid ← Ok (VStr kid); py_split_first hash kid)
        with (py_split_first hash (VStr kid)) in Hs.
      rewrite py_split_first_str in Hs. by apply Hres.
  - intros Hiss%is_none_false Hself. rewrite Hiss in Hs.
    destruct (py_eq iss (VStr SELF_ISSUED)) eqn:Heq;
      [by apply py_eq_str in Heq|]. by apply Hres.
Qed.

(** C10: a self-issued token whose payload has [sub] and [sub_jwk] (both
    bound to something other than [null]) and whose header has no [kid]
    makes [verify_jwt] end with the [AttributeError] of [None.split]
    before the resolver is called; the taxonomy has no rejection for
    it. *)
Theorem self_issued_without_kid (w : world) (token : string) (config : dict)
    (d : jwt) (p h : dict) (sub sub_jwk : value) :
  decode_jwt token = Ok d →
  jwt_payload d = VDict p →
  jwt_header d = VDict h →
  p !! "iss" = Some (VStr SELF_ISSUED) →
  p !! "sub" = Some sub → sub ≠ VNone →
  p !! "sub_jwk" = Some sub_jwk → sub_jwk ≠ VNone →
  h !! "kid" = None →
  verify_jwt w token config = ([], Raise AttributeError)
  ∧ rejection_of AttributeError = None.
Proof.
  intros Hd Hp Hh Hiss Hsub Hsub' Hjwk Hjwk' Hkid. split; [|done].
  apply (verify_jwt_subject_raise _ _ _ _ _ Hd).
  rewrite Hp, Hh, subject_did_dict.
  rewrite (dict_get_Some _ _ _ Hiss), (dict_get_Some _ _ _ Hsub),
    (dict_get_Some _ _ _ Hjwk). simpl.
  rewrite (proj2 (is_none_false sub) Hsub'), (proj2 (is_none_false sub_jwk) Hjwk').
  unfold dict_get. by rewrite Hkid.
Qed.

(** C2: with a skew of 300 seconds and integer [iat] and [exp], a run that
    reaches the claim checks is rejected as issued in the future exactly
    when [iat > now + 300] and, failing that, as expired exactly when
    [exp <= now - 300]; so [exp = now - 300] is expired, [exp = now - 299]
    is not, [iat = now + 301] is in the future and [iat = now + 300] is
    not. *)
Theorem temporal_validation (w : world) (token : string) (config : dict)
    (d : jwt) (did : value) (r : did_resolution_result) (a : value)
    (p : dict) (iat exp : Z) :
  reaches_claims w token config d did r a →
  jwt_payload d = VDict p →
  p !! "iat" = Some (VInt iat) →
  p !! "exp" = Some (VInt exp) →
  let now := time_time w in
  let res := outcome (verify_jwt w token config) in
  (now + 300 < iat →
     res = Raise (AssertionError (Some "Issue time is in the future")))
  ∧ (iat ≤ now + 300 → exp ≤ now - 300 →
     res = Raise (AssertionError (Some "Expired JWT")))
  ∧ (rejected_with res TemporalError ↔ now + 300 < iat ∨ exp ≤ now - 300)
  ∧ (iat = now + 301 → rejected_with res TemporalError)
  ∧ (iat = now + 300 → now - 300 < exp → ¬ rejected_with res TemporalError)
  ∧ (exp = now - 300 → rejected_with res TemporalError)
  ∧ (exp = now - 299 → iat ≤ now + 300 → ¬ rejected_with res TemporalError).
Proof.
  intros Hreach Hp Hiat Hexp now res.
  assert (res = (_ ← validate_claims now (VDict p) config;
                 Ok (VDict p, r, did, a, token))) as Hres.
  { unfold res. rewrite (verify_jwt_claims _ _ _ _ _ _ _ Hreach). by rewrite Hp. }
  rewrite (validate_claims_times _ _ _ _ _ Hiat Hexp) in Hres.
  assert (rejected_with res TemporalError ↔ now + 300 < iat ∨ exp ≤ now - 300)
    as Hiff.
  { rewrite Hres. destruct (now + 300 <? iat) eqn:Hi.
    { apply Z.ltb_lt in Hi. split; [auto|]. intros _. by eexists. }
    apply Z.ltb_ge in Hi. destruct (exp <=? now - 300) eqn:He.
    { apply Z.leb_le in He. split; [auto|]. intros _. by eexists. }
    apply Z.leb_gt in He. split; [|lia]. intros (e & Hraise & Hrej). exfalso.
    destruct (truthy _ && truthy _); [|done].
    destruct (audience_accepts _ _); simpl in Hraise; [done|].
    by injection Hraise as <-. }
  split_and!.
  - intros Hi. rewrite Hres. by rewrite (proj2 (Z.ltb_lt _ _) Hi).
  - intros Hi He. rewrite Hres.
    by rewrite (proj2 (Z.ltb_ge _ _) Hi), (proj2 (Z.leb_le _ _) He).
  - done.
  - intros ->. apply Hiff. lia.
  - intros -> He. rewrite Hiff. lia.
  - intros ->. apply Hiff. lia.
  - intros -> Hi. rewrite Hiff. lia.
Qed.

(** C8, as the code has it: the audience is checked when [payload.aud] is
    truthy and [config.audience] is truthy. Then [aud] must be a member of
    the configured audience when that is a list and equal to it otherwise,
    and a mismatch is the rejection "Invalid audience". When
    [config.audience] is unset (or otherwise falsy), and when [aud] is
    missing or falsy, the check is skipped. *)
Theorem audience_validation (w : world) (token : string) (config : dict)
    (d : jwt) (did : value) (r : did_resolution_result) (a : value) (p : dict) :
  reaches_claims w token config d did r a →
  jwt_payload d = VDict p →
  in_time (time_time w) p →
  let aud := dict_get p "aud" in
  let audience := dict_get config "audience" in
  let res := outcome (verify_jwt w token config) in
  let accepted := Ok (VDict p, r, did, a, token) in
  (truthy aud = true → truthy audience = true →
     (audience_accepts audience aud = true → res = accepted)
     ∧ (audience_accepts audience aud = false →
        res = Raise (AssertionError (Some "Invalid audience"))
        ∧ rejected_with res AudienceMismatch))
  ∧ (truthy audience = false → res = accepted)
  ∧ (config !! "audience" = None → res = accepted)
  ∧ (truthy aud = false → res = accepted).
Proof.
  intros Hreach Hp Htime aud audience res accepted.
  assert (res = (_ ← validate_claims (time_time w) (VDict p) config; accepted))
    as Hres.
  { unfold res. rewrite (verify_jwt_claims _ _ _ _ _ _ _ Hreach). by rewrite Hp. }
  rewrite (validate_claims_in_time _ _ _ Htime) in Hres.
  fold aud audience in Hres. split_and!.
  - intros Haud Haudience. rewrite Haud, Haudience in Hres. simpl in Hres.
    split.
    + intros Hacc. by rewrite Hacc in Hres.
    + intros Hacc. rewrite Hacc in Hres. simpl in Hres. split; [done|].
      rewrite Hres. by eexists.
  - intros Haudience. by rewrite Haudience, andb_false_r in Hres.
  - intros Hunset. unfold audience, dict_get in Hres. rewrite Hunset in Hres.
    simpl in Hres. by rewrite andb_false_r in Hres.
  - intros Haud. by rewrite Haud in Hres.
Qed.

(** C9: when the payload binds [aud] to a falsy value (the empty string,
    0, [null], ...), the audience comparison is skipped whatever
    [config.audience] is: the run is never rejected for its audience, and
    it is accepted when [iat] and [exp] are in time. *)
Theorem falsy_aud_skips_audience_check (w : world) (token : string)
    (config : dict) (d : jwt) (did : value) (r : did_resolution_result)
    (a : value) (p : dict) (aud : value) :
  reaches_claims w token config d did r a →
  jwt_payload d = VDict p →
  p !! "aud" = Some aud →
  truthy aud = false →
  let res := outcome (verify_jwt w token config) in
  ¬ rejected_with res AudienceMismatch
  ∧ (in_time (time_time w) p → res = Ok (VDict p, r, did, a, token)).
Proof.
  intros Hreach Hp Haud Hfalsy res.
  assert (res = (_ ← validate_claims (time_time w) (VDict p) config;
                 Ok (VDict p, r, did, a, token))) as Hres.
  { unfold res. rewrite (verify_jwt_claims _ _ _ _ _ _ _ Hreach). by rewrite Hp. }
  apply dict_get_Some in Haud. split.
  - intros (e & Hraise & Hrej). rewrite Hres in Hraise.
    destruct (validate_claims (time_time w) (VDict p) config) as [[]|e'] eqn:Hv;
      [done|]. simpl in Hraise. injection Hraise as ->.
    destruct (validate_claims_audience _ _ _ _ Hv Hrej) as (Ht & _).
    congruence.
  - intros Htime. rewrite (validate_claims_in_time _ _ _ Htime) in Hres.
    by rewrite Haud, Hfalsy in Hres.
Qed.

End Verification.

(** ** Round trip *)

Section RoundTrip.
Context {C : Codec} {carried : value → Prop} {L : CodecLaws C carried}.

(** A segment that [create_jws] writes is read back as the value it was
    written from, when the libraries carry that value. *)
Lemma loads_segment_encoded (v : value) :
  carried v →
  loads_segment (str_remove pad_char (urlsafe_b64encode (canonicalize v)))
  = Ok v.
Proof.
  intros Hv. unfold loads_segment. rewrite b64_roundtrip. simpl.
  destruct (json_roundtrip v Hv) as (text & Hu & Hj).
  rewrite Hu. simpl. by rewrite Hj.
Qed.

Lemma encoded_segment_no_dot (v : value) :
  str_mem dot (str_remove pad_char (urlsafe_b64encode (canonicalize v)))
  = false.
Proof. apply str_mem_remove, b64_alphabet. Qed.

(** What [create_jws] builds, [decode_jwt] takes apart, as long as the
    signature has no dot in it. *)
Lemma decode_create_jws (payload header : value)
    (sign : string → result string) :
  carried payload → carried header →
  (∀ input, ∃ sig, sign input = Ok sig ∧ str_mem dot sig = false) →
  ∃ input sig,
    sign input = Ok sig
    ∧ create_jws payload sign header
      = ([EvSign input], Ok (input +:+ "." +:+ str_remove pad_char sig))
    ∧ decode_jwt (input +:+ "." +:+ str_remove pad_char sig)
      = Ok {| jwt_header := header;
              jwt_payload := payload;
              jwt_signature := str_remove pad_char sig;
              jwt_data := input |}.
Proof.
  intros Hpayload Hheader Hsign. rewrite (create_jws_run payload sign header).
  set (eh := str_remove pad_char (urlsafe_b64encode (canonicalize header))).
  set (ep := str_remove pad_char (urlsafe_b64encode (canonicalize payload))).
  destruct (Hsign (eh +:+ "." +:+ ep)) as (sig & Hsig & Hdot).
  exists (eh +:+ "." +:+ ep), sig. rewrite Hsig. simpl.
  split_and!; [done..|].
  rewrite str_app_assoc. rewrite (str_app_assoc "." ep).
  apply decode_jwt_of_segments.
  - apply str_split_three; [apply encoded_segment_no_dot..|].
    by apply str_mem_remove.
  - by apply loads_segment_encoded.
  - by apply loads_segment_encoded.
Qed.



End RoundTrip.


(** * The module at work

    The reference codec, a resolver that answers with a fixed list of
    verification methods, a verifier that answers with a fixed verdict, a
    signer that answers with a fixed signature, and tokens made by
    [create_jwt] at time 1700000000. *)

Section Examples.
#[local] Existing Instance reference_codec.

Definition example_world (now : Z) (methods : list value) (verdict : bool)
  : world := {|
  time_time := now;
  resolve _ _ := Ok {| didDocument := {| verificationMethod := methods |} |};
  verify_ES256K _ _ _ := Ok verdict;
|}.

Definition example_options (iss : string) : options := {|
  issuer := VStr iss;
  signer _ := Ok "c2lnbmF0dXJl";
|}.

Definition header_with_kid : dict :=
  {[ "alg" := VStr "ES256K"; "typ" := VStr "JWT";
     "kid" := VStr "did:x:2#key-1" ]}.

Definition header_without_kid : dict :=
  {[ "alg" := VStr "ES256K"; "typ" := VStr "JWT" ]}.

Definition encoded_header_with_kid : string :=
  "eyJhbGciOiJFUzI1NksiLCJraWQiOiJkaWQ6eDoyI2tleS0xIiwidHlwIjoiSldUIn0".

(** [{"aud":"","exp":1700000300,"iat":1700000000,"iss":"did:ebsi:abc","name":"alice"}] *)
Definition payload_empty_aud : dict :=
  {[ "aud" := VStr ""; "exp" := VInt 1700000300; "iat" := VInt 1700000000;
     "iss" := VStr "did:ebsi:abc"; "name" := VStr "alice" ]}.

Definition encoded_payload_empty_aud : string :=
  "eyJhdWQiOiIiLCJleHAiOjE3MDAwMDAzMDAsImlhdCI6MTcwMDAwMDAwMCwiaXNzIjoiZGlkOmVic2k6YWJjIiwibmFtZSI6ImFsaWNlIn0".

Definition token_empty_aud : string :=
  encoded_header_with_kid +:+ "." +:+ encoded_payload_empty_aud
  +:+ "." +:+ "c2lnbmF0dXJl".

Definition jwt_empty_aud : jwt := {|
  jwt_header := VDict header_with_kid;
  jwt_payload := VDict payload_empty_aud;
  jwt_signature := "c2lnbmF0dXJl";
  jwt_data := encoded_header_with_kid +:+ "." +:+ encoded_payload_empty_aud;
|}.

(** [{"aud":"c","exp":1700000300,"iat":1700000000,"iss":"did:ebsi:abc","name":"alice"}] *)
Definition payload_aud_c : dict :=
  {[ "aud" := VStr "c"; "exp" := VInt 1700000300; "iat" := VInt 1700000000;
     "iss" := VStr "did:ebsi:abc"; "name" := VStr "alice" ]}.

Definition token_aud_c : string :=
  encoded_header_with_kid +:+ "."
  +:+ "eyJhdWQiOiJjIiwiZXhwIjoxNzAwMDAwMzAwLCJpYXQiOjE3MDAwMDAwMDAsImlzcyI6ImRpZDplYnNpOmFiYyIsIm5hbWUiOiJhbGljZSJ9"
  +:+ "." +:+ "c2lnbmF0dXJl".

(** [{"exp":1700000300,"iat":1700000000,"iss":"https://self-issued.me/v2",
      "sub":"did:x:1","sub_jwk":{"kty":"EC"}}] *)
Definition payload_self_issued : dict :=
  {[ "exp" := VInt 1700000300; "iat" := VInt 1700000000;
     "iss" := VStr SELF_ISSUED; "sub" := VStr "did:x:1";
     "sub_jwk" := VDict {[ "kty" := VStr "EC" ]} ]}.

Definition encoded_payload_self_issued : string :=
  "eyJleHAiOjE3MDAwMDAzMDAsImlhdCI6MTcwMDAwMDAwMCwiaXNzIjoiaHR0cHM6Ly9zZWxmLWlzc3VlZC5tZS92MiIsInN1YiI6ImRpZDp4OjEiLCJzdWJfandrIjp7Imt0eSI6IkVDIn19".

Definition token_self_issued_without_kid : string :=
  "eyJhbGciOiJFUzI1NksiLCJ0eXAiOiJKV1QifQ" +:+ "."
  +:+ encoded_payload_self_issued +:+ "." +:+ "c2lnbmF0dXJl".

Definition jwt_self_issued_without_kid : jwt := {|
  jwt_header := VDict header_without_kid;
  jwt_payload := VDict payload_self_issued;
  jwt_signature := "c2lnbmF0dXJl";
  jwt_data := "eyJhbGciOiJFUzI1NksiLCJ0eXAiOiJKV1QifQ" +:+ "."
              +:+ encoded_payload_self_issued;
|}.

Definition token_self_issued_with_kid : string :=
  encoded_header_with_kid +:+ "." +:+ encoded_payload_self_issued
  +:+ "." +:+ "c2lnbmF0dXJl".

Definition two_methods : list value := [VStr "key-1"; VStr "key-2"].

Definition resolution (methods : list value) : did_resolution_result :=
  {| didDocument := {| verificationMethod := methods |} |}.

(** The tokens are the ones [create_jwt] makes. *)
Example create_token_empty_aud :
  create_jwt (example_world 1700000000 two_methods true)
             {[ "name" := VStr "alice"; "aud" := VStr "" ]}
             (example_options "did:ebsi:abc") (VDict header_with_kid)
  = ([EvSign (encoded_header_with_kid +:+ "." +:+ encoded_payload_empty_aud)],
     Ok token_empty_aud).
Proof. vm_compute. reflexivity. Qed.

Example decode_token_empty_aud :
  decode_jwt token_empty_aud = Ok jwt_empty_aud.
Proof. vm_compute. reflexivity. Qed.

Example decode_token_self_issued_without_kid :
  decode_jwt token_self_issued_without_kid = Ok jwt_self_issued_without_kid.
Proof. vm_compute. reflexivity. Qed.

(** The self-issued flows of section 8. *)
Example self_issued_sub :
  subject_did (VDict header_with_kid)
    (VDict {[ "iss" := VStr SELF_ISSUED; "sub" := VStr "did:x:1" ]})
  = Ok (VStr "did:x:1").
Proof. vm_compute. reflexivity. Qed.

Example self_issued_kid :
  resolved_did (verify_jwt (example_world 1700000000 two_methods true)
                           token_self_issued_with_kid ∅)
  = Some (VStr "did:x:2").
Proof. vm_compute. reflexivity. Qed.

(** The boundaries of section 8, on the token whose [iat] is 1700000000
    and whose [exp] is 1700000300. *)
Example expired_at_the_boundary :
  outcome (verify_jwt (example_world 1700000600 two_methods true)
                      token_empty_aud ∅)
  = Raise (AssertionError (Some "Expired JWT")).
Proof. vm_compute. reflexivity. Qed.

Example not_expired_one_second_earlier :
  outcome (verify_jwt (example_world 1700000599 two_methods true)
                      token_empty_aud ∅)
  = Ok (VDict payload_empty_aud, resolution two_methods, VStr "did:ebsi:abc",
        VStr "key-1", token_empty_aud).
Proof. vm_compute. reflexivity. Qed.

Example issued_in_the_future :
  outcome (verify_jwt (example_world 1699999699 two_methods true)
                      token_empty_aud ∅)
  = Raise (AssertionError (Some "Issue time is in the future")).
Proof. vm_compute. reflexivity. Qed.

Example issued_at_the_boundary :
  outcome (verify_jwt (example_world 1699999700 two_methods true)
                      token_empty_aud ∅)
  = Ok (VDict payload_empty_aud, resolution two_methods, VStr "did:ebsi:abc",
        VStr "key-1", token_empty_aud).
Proof. vm_compute. reflexivity. Qed.

(** The audiences of section 8. *)
Example audience_member_accepted :
  validate_claims 1700000000
    (VDict {[ "aud" := VStr "a"; "exp" := VInt 1700000300;
              "iat" := VInt 1700000000 ]})
    {[ "audience" := VList [VStr "a"; VStr "b"] ]}
  = Ok tt.
Proof. vm_compute. reflexivity. Qed.

Example audience_stranger_rejected :
  outcome (verify_jwt (example_world 1700000000 two_methods true) token_aud_c
                      {[ "audience" := VList [VStr "a"; VStr "b"] ]})
  = Raise (AssertionError (Some "Invalid audience")).
Proof. vm_compute. reflexivity. Qed.

Example two_segments_rejected (w : world) (config : dict) :
  verify_jwt w "a.b" config = ([], Raise (AssertionError None)).
Proof. reflexivity. Qed.

End Examples.

(** * The theorems at concrete inputs *)

Section Witnesses.
#[local] Existing Instance reference_codec.

Definition world_ok : world := example_world 1700000000 two_methods true.

Lemma reaches_claims_empty_aud (config : dict) :
  reaches_claims world_ok token_empty_aud config jwt_empty_aud
    (VStr "did:ebsi:abc") (resolution two_methods) (VStr "key-1").
Proof. unfold reaches_claims. split_and!; vm_compute; reflexivity. Defined.

Lemma in_time_empty_aud : in_time 1700000000 payload_empty_aud.
Proof.
  exists 1700000000, 1700000300.
  split_and!; [vm_compute; reflexivity..|lia|lia].
Defined.



(** A signer whose signature has a dot in it. *)
Definition dotted_signer (_ : string) : result string := Ok "c2ln.bmF0dXJl".






Lemma temporal_validation_witness :
  reaches_claims world_ok token_empty_aud ∅ jwt_empty_aud
    (VStr "did:ebsi:abc") (resolution two_methods) (VStr "key-1")
  ∧ jwt_payload jwt_empty_aud = VDict payload_empty_aud
  ∧ payload_empty_aud !! "iat" = Some (VInt 1700000000)
  ∧ payload_empty_aud !! "exp" = Some (VInt 1700000300)
  ∧ let now := time_time world_ok in
    let res := outcome (verify_jwt world_ok token_empty_aud ∅) in
    (now + 300 < 1700000000 →
       res = Raise (AssertionError (Some "Issue time is in the future")))
    ∧ (1700000000 ≤ now + 300 → 1700000300 ≤ now - 300 →
       res = Raise (AssertionError (Some "Expired JWT")))
    ∧ (rejected_with res TemporalError
       ↔ now + 300 < 1700000000 ∨ 1700000300 ≤ now - 300)
    ∧ (1700000000 = now + 301 → rejected_with res TemporalError)
    ∧ (1700000000 = now + 300 → now - 300 < 1700000300 →
       ¬ rejected_with res TemporalError)
    ∧ (1700000300 = now - 300 → rejected_with res TemporalError)
    ∧ (1700000300 = now - 299 → 1700000000 ≤ now + 300 →
       ¬ rejected_with res TemporalError).
Proof.
  assert (payload_empty_aud !! "iat" = Some (VInt 1700000000)) as Hiat
    by (vm_compute; reflexivity).
  assert (payload_empty_aud !! "exp" = Some (VInt 1700000300)) as Hexp
    by (vm_compute; reflexivity).
  split_and!; [apply reaches_claims_empty_aud|reflexivity|exact Hiat|exact Hexp|].
  exact (temporal_validation world_ok token_empty_aud ∅ jwt_empty_aud
           (VStr "did:ebsi:abc") (resolution two_methods) (VStr "key-1")
           payload_empty_aud 1700000000 1700000300
           (reaches_claims_empty_aud ∅) eq_refl Hiat Hexp).
Defined.

Lemma subject_did_determination_witness :
  decode_jwt token_empty_aud = Ok jwt_empty_aud
  ∧ jwt_payload jwt_empty_aud = VDict payload_empty_aud
  ∧ dict_get payload_empty_aud "iss" ≠ VNone
  ∧ dict_get payload_empty_aud "iss" ≠ VStr SELF_ISSUED
  ∧ resolved_did (verify_jwt world_ok token_empty_aud ∅)
    = Some (VStr "did:ebsi:abc").
Proof.
  assert (decode_jwt token_empty_aud = Ok jwt_empty_aud) as Hd
    by (vm_compute; reflexivity).
  assert (dict_get payload_empty_aud "iss" ≠ VNone) as Hiss
    by (vm_compute; discriminate).
  assert (dict_get payload_empty_aud "iss" ≠ VStr SELF_ISSUED) as Hself
    by (vm_compute; discriminate).
  split_and!; [exact Hd|reflexivity|exact Hiss|exact Hself|].
  exact (proj2 (proj2 (subject_did_determination world_ok token_empty_aud ∅
                         jwt_empty_aud payload_empty_aud Hd eq_refl))
           Hiss Hself).
Defined.

(** The payload segment [ew] is the text of an opening brace. *)
Definition token_bad_json : string :=
  encoded_header_with_kid +:+ "." +:+ "ew" +:+ "." +:+ "c2lnbmF0dXJl".

Lemma malformed_bad_json : malformed token_bad_json.
Proof.
  right. exists encoded_header_with_kid, "ew", "c2lnbmF0dXJl".
  split; [vm_compute; reflexivity|]. right. exists JSONDecodeError.
  right; right. exists "{", "{". split_and!; vm_compute; reflexivity.
Defined.

Lemma malformed_token_raises_witness :
  malformed token_bad_json
  ∧ ∃ e, verify_jwt world_ok token_bad_json ∅ = ([], Raise e)
         ∧ ¬ no_exception_escapes (outcome (verify_jwt world_ok token_bad_json ∅))
         ∧ (length (str_split dot token_bad_json) ≠ 3%nat →
            e = AssertionError None)
         ∧ (∀ p0 p1 p2, str_split dot token_bad_json = [p0; p1; p2] →
              segment_raises p0 e ∨ (¬ bad_segment p0 ∧ segment_raises p1 e)).
Proof.
  split; [exact malformed_bad_json|].
  exact (malformed_token_raises world_ok token_bad_json ∅ malformed_bad_json).
Defined.

(** C5 as it is written fails on the code: the token ["a.b"] has two
    segments, and the call does not end with a rejection that it returns:
    the bare [AssertionError] of [decode_jws] escapes it. *)
Lemma malformed_token_exception_escapes :
  malformed "a.b"
  ∧ verify_jwt world_ok "a.b" ∅ = ([], Raise (AssertionError None))
  ∧ ¬ no_exception_escapes (outcome (verify_jwt world_ok "a.b" ∅)).
Proof.
  split_and!; [left; vm_compute; discriminate|reflexivity|].
  intros [v Hv]. discriminate Hv.
Qed.

Lemma first_verification_method_witness :
  let w := example_world 1700000000 [] true in
  decode_jwt token_empty_aud = Ok jwt_empty_aud
  ∧ subject_did (jwt_header jwt_empty_aud) (jwt_payload jwt_empty_aud)
    = Ok (VStr "did:ebsi:abc")
  ∧ resolve w (VStr "did:ebsi:abc") ∅ = Ok (resolution [])
  ∧ verificationMethod (didDocument (resolution [])) = []
  ∧ verify_jwt w token_empty_aud ∅
    = ([EvResolve (VStr "did:ebsi:abc") ∅], Raise IndexError)
  ∧ ¬ no_exception_escapes (outcome (verify_jwt w token_empty_aud ∅))
  ∧ Forall (λ ev, match ev with EvVerify _ _ _ => False | _ => True end)
           (trace (verify_jwt w token_empty_aud ∅)).
Proof.
  intros w.
  assert (decode_jwt token_empty_aud = Ok jwt_empty_aud) as Hd
    by (vm_compute; reflexivity).
  assert (subject_did (jwt_header jwt_empty_aud) (jwt_payload jwt_empty_aud)
          = Ok (VStr "did:ebsi:abc")) as Hs by (vm_compute; reflexivity).
  split_and!; [exact Hd|exact Hs|reflexivity|reflexivity|..];
    apply (proj1 (first_verification_method w token_empty_aud ∅ jwt_empty_aud
                    (VStr "did:ebsi:abc") (resolution []) Hd Hs eq_refl)
             eq_refl).
Defined.

(** A resolver that fails with an [IndexError] of its own. *)
Definition world_index_error : world := {|
  time_time := 1700000000;
  resolve _ _ := Raise IndexError;
  verify_ES256K _ _ _ := Ok true;
|}.

(** C6 as it is written fails on the code: with an empty list the call does
    not end with a rejection that it returns; the [IndexError] of the
    subscript escapes it, and the run is the very run of a resolver that
    fails with an [IndexError] itself, so that no condition of its own
    tells the empty list. *)
Lemma empty_method_list_exception_escapes :
  let w := example_world 1700000000 [] true in
  resolve w (VStr "did:ebsi:abc") ∅ = Ok (resolution [])
  ∧ verificationMethod (didDocument (resolution [])) = []
  ∧ verify_jwt w token_empty_aud ∅
    = ([EvResolve (VStr "did:ebsi:abc") ∅], Raise IndexError)
  ∧ ¬ no_exception_escapes (outcome (verify_jwt w token_empty_aud ∅))
  ∧ verify_jwt world_index_error token_empty_aud ∅
    = verify_jwt w token_empty_aud ∅.
Proof.
  intros w.
  assert (verify_jwt w token_empty_aud ∅
          = ([EvResolve (VStr "did:ebsi:abc") ∅], Raise IndexError)) as Hrun
    by (vm_compute; reflexivity).
  split_and!; [reflexivity|reflexivity|exact Hrun| |vm_compute; reflexivity].
  rewrite Hrun. intros [v Hv]. discriminate Hv.
Qed.

Lemma signing_input_as_transmitted_witness :
  let sign := signer (example_options "did:ebsi:abc") in
  decode_jwt token_empty_aud = Ok jwt_empty_aud
  ∧ subject_did (jwt_header jwt_empty_aud) (jwt_payload jwt_empty_aud)
    = Ok (VStr "did:ebsi:abc")
  ∧ resolve world_ok (VStr "did:ebsi:abc") ∅ = Ok (resolution two_methods)
  ∧ list_first (verificationMethod (didDocument (resolution two_methods)))
    = Ok (VStr "key-1")
  ∧ outcome (create_jws (VDict payload_empty_aud) sign (VDict header_with_kid))
    = Ok token_empty_aud
  ∧ (∃ p0 p1 p2,
       str_split dot token_empty_aud = [p0; p1; p2]
       ∧ token_empty_aud = p0 +:+ "." +:+ p1 +:+ "." +:+ p2
       ∧ trace (verify_jwt world_ok token_empty_aud ∅)
         = [EvResolve (VStr "did:ebsi:abc") ∅;
            EvVerify (p0 +:+ "." +:+ p1) p2 (VStr "key-1")])
  ∧ (∃ signing_input signature,
       trace (create_jws (VDict payload_empty_aud) sign (VDict header_with_kid))
       = [EvSign signing_input]
       ∧ sign signing_input = Ok signature
       ∧ trace (verify_jwt world_ok token_empty_aud ∅)
         = [EvResolve (VStr "did:ebsi:abc") ∅;
            EvVerify signing_input (str_remove pad_char signature)
                     (VStr "key-1")]).
Proof.
  intros sign.
  assert (decode_jwt token_empty_aud = Ok jwt_empty_aud) as Hd
    by (vm_compute; reflexivity).
  assert (subject_did (jwt_header jwt_empty_aud) (jwt_payload jwt_empty_aud)
          = Ok (VStr "did:ebsi:abc")) as Hs by (vm_compute; reflexivity).
  assert (outcome (create_jws (VDict payload_empty_aud) sign
                              (VDict header_with_kid))
          = Ok token_empty_aud) as Hcreate by (vm_compute; reflexivity).
  destruct (signing_input_as_transmitted world_ok token_empty_aud ∅
              jwt_empty_aud (VStr "did:ebsi:abc") (resolution two_methods)
              (VStr "key-1") Hd Hs eq_refl eq_refl)
    as (_ & Hreceived & Hbuilt & _).
  split_and!; [exact Hd|exact Hs|reflexivity|reflexivity|exact Hcreate
              |exact Hreceived|exact (Hbuilt _ _ _ Hcreate)].
Defined.

Lemma self_issued_without_kid_witness :
  decode_jwt token_self_issued_without_kid = Ok jwt_self_issued_without_kid
  ∧ payload_self_issued !! "iss" = Some (VStr SELF_ISSUED)
  ∧ payload_self_issued !! "sub" = Some (VStr "did:x:1")
  ∧ payload_self_issued !! "sub_jwk" = Some (VDict {[ "kty" := VStr "EC" ]})
  ∧ header_without_kid !! "kid" = None
  ∧ verify_jwt world_ok token_self_issued_without_kid ∅
    = ([], Raise AttributeError)
  ∧ rejection_of AttributeError = None.
Proof.
  assert (decode_jwt token_self_issued_without_kid
          = Ok jwt_self_issued_without_kid) as Hd by (vm_compute; reflexivity).
  assert (payload_self_issued !! "iss" = Some (VStr SELF_ISSUED)) as Hiss
    by (vm_compute; reflexivity).
  assert (payload_self_issued !! "sub" = Some (VStr "did:x:1")) as Hsub
    by (vm_compute; reflexivity).
  assert (payload_self_issued !! "sub_jwk"
          = Some (VDict {[ "kty" := VStr "EC" ]})) as Hjwk
    by (vm_compute; reflexivity).
  assert (header_without_kid !! "kid" = None) as Hkid
    by (vm_compute; reflexivity).
  split_and!; [exact Hd|exact Hiss|exact Hsub|exact Hjwk|exact Hkid|..];
    apply (self_issued_without_kid world_ok token_self_issued_without_kid ∅
             jwt_self_issued_without_kid payload_self_issued
             header_without_kid (VStr "did:x:1")
             (VDict {[ "kty" := VStr "EC" ]})
             Hd eq_refl eq_refl Hiss Hsub ltac:(discriminate)
             Hjwk ltac:(discriminate) Hkid).
Defined.

(** C8 as it is written fails on the code: the payload binds [aud] to the
    empty string, [config.audience] is ["a"], the two differ, and the token
    is accepted. *)
Lemma audience_present_not_checked :
  let config : dict := {[ "audience" := VStr "a" ]} in
  decode_jwt token_empty_aud = Ok jwt_empty_aud
  ∧ jwt_payload jwt_empty_aud = VDict payload_empty_aud
  ∧ payload_empty_aud !! "aud" = Some (VStr "")
  ∧ config !! "audience" = Some (VStr "a")
  ∧ py_eq (VStr "") (VStr "a") = false
  ∧ verify_jwt world_ok token_empty_aud config
    = ([EvResolve (VStr "did:ebsi:abc") config;
        EvVerify (encoded_header_with_kid +:+ "." +:+ encoded_payload_empty_aud)
                 "c2lnbmF0dXJl" (VStr "key-1")],
       Ok (VDict payload_empty_aud, resolution two_methods,
           VStr "did:ebsi:abc", VStr "key-1", token_empty_aud)).
Proof. split_and!; vm_compute; reflexivity. Qed.

Lemma audience_validation_witness :
  let config : dict := {[ "audience" := VList [VStr "a"; VStr "b"] ]} in
  reaches_claims world_ok token_empty_aud config jwt_empty_aud
    (VStr "did:ebsi:abc") (resolution two_methods) (VStr "key-1")
  ∧ jwt_payload jwt_empty_aud = VDict payload_empty_aud
  ∧ in_time (time_time world_ok) payload_empty_aud
  ∧ let aud := dict_get payload_empty_aud "aud" in
    let audience := dict_get config "audience" in
    let res := outcome (verify_jwt world_ok token_empty_aud config) in
    let accepted :=
      Ok (VDict payload_empty_aud, resolution two_methods,
          VStr "did:ebsi:abc", VStr "key-1", token_empty_aud) in
    (truthy aud = true → truthy audience = true →
       (audience_accepts audience aud = true → res = accepted)
       ∧ (audience_accepts audience aud = false →
          res = Raise (AssertionError (Some "Invalid audience"))
          ∧ rejected_with res AudienceMismatch))
    ∧ (truthy audience = false → res = accepted)
    ∧ (config !! "audience" = None → res = accepted)
    ∧ (truthy aud = false → res = accepted).
Proof.
  intros config.
  split_and!; [apply reaches_claims_empty_aud|reflexivity
              |apply in_time_empty_aud|].
  exact (audience_validation world_ok token_empty_aud config jwt_empty_aud
           (VStr "did:ebsi:abc") (resolution two_methods) (VStr "key-1")
           payload_empty_aud (reaches_claims_empty_aud config) eq_refl
           in_time_empty_aud).
Defined.

Lemma falsy_aud_skips_audience_check_witness :
  let config : dict := {[ "audience" := VStr "a" ]} in
  reaches_claims world_ok token_empty_aud config jwt_empty_aud
    (VStr "did:ebsi:abc") (resolution two_methods) (VStr "key-1")
  ∧ jwt_payload jwt_empty_aud = VDict payload_empty_aud
  ∧ payload_empty_aud !! "aud" = Some (VStr "")
  ∧ truthy (VStr "") = false
  ∧ let res := outcome (verify_jwt world_ok token_empty_aud config) in
    ¬ rejected_with res AudienceMismatch
    ∧ (in_time (time_time world_ok) payload_empty_aud →
       res = Ok (VDict payload_empty_aud, resolution two_methods,
                 VStr "did:ebsi:abc", VStr "key-1", token_empty_aud)).
Proof.
  intros config.
  assert (payload_empty_aud !! "aud" = Some (VStr "")) as Haud
    by (vm_compute; reflexivity).
  split_and!; [apply reaches_claims_empty_aud|reflexivity|exact Haud
              |reflexivity|].
  exact (falsy_aud_skips_audience_check world_ok token_empty_aud config
           jwt_empty_aud (VStr "did:ebsi:abc") (resolution two_methods)
           (VStr "key-1") payload_empty_aud (VStr "")
           (reaches_claims_empty_aud config) eq_refl Haud eq_refl).
Defined.

End Witnesses.

(** * More of the module *)

(** The number that a comparison with an integer reads in a value: an
    [int], or a [bool] as 0 or 1. *)
Definition as_number (v : value) : option Z :=
  match v with
  | VInt n => Some n
  | VBool b => Some (bool_to_Z b)
  | _ => None
  end.

Lemma py_gt_as_number (v : value) (n : Z) :
  py_gt v n = match as_number v with
              | Some i => Ok (n <? i)
              | None => Raise TypeError
              end.
Proof. by destruct v. Qed.

Lemma py_le_as_number (v : value) (n : Z) :
  py_le v n = match as_number v with
              | Some i => Ok (i <=? n)
              | None => Raise TypeError
              end.
Proof. by destruct v. Qed.

(** ** Parsing *)

Section Parsing.
Context {C : Codec}.

(** X1: [decode_jwt] fails in exactly two ways: on a token that has not
    three segments, with the bare assertion error of [decode_jws]; on a
    token of three segments, with the exception that a decoder raises on
    the header segment or, the header segment being loaded, on the payload
    segment. *)
Theorem decode_jwt_errors (token : string) (e : exn) :
  decode_jwt token = Raise e ↔
  (length (str_split dot token) ≠ 3%nat ∧ e = AssertionError None)
  ∨ (∃ p0 p1 p2,
       str_split dot token = [p0; p1; p2]
       ∧ (segment_raises p0 e
          ∨ (∃ h, loads_segment p0 = Ok h ∧ segment_raises p1 e))).
Proof.
  unfold decode_jwt, decode_jws.
  destruct (str_split dot token) as [|p0 [|p1 [|p2 [|p3 ps]]]] eqn:Hs;
    simpl;
    try (split;
         [intros [= <-]; by left
         |intros [[_ ->]|(? & ? & ? & [=] & _)]; done]).
  destruct (loads_segment p0) as [h|e0] eqn:Hh; simpl.
  - destruct (loads_segment p1) as [p|e1] eqn:Hp; simpl.
    + split; [done|]. intros [[Hlen _]|(? & ? & ? & [= <- <- <-] & Hbad)];
        [done|].
      destruct Hbad as [Hbad%loads_segment_raises
                       |(h' & _ & Hbad%loads_segment_raises)]; congruence.
    + split.
      * intros [= <-]. right. exists p0, p1, p2. split; [done|]. right.
        exists h. split; [done|]. by apply loads_segment_raises.
      * intros [[Hlen _]|(? & ? & ? & [= <- <- <-] & Hbad)]; [done|].
        destruct Hbad as [Hbad%loads_segment_raises
                         |(h' & _ & Hbad%loads_segment_raises)]; congruence.
  - split.
    + intros [= <-]. right. exists p0, p1, p2. split; [done|]. left.
      by apply loads_segment_raises.
    + intros [[Hlen _]|(? & ? & ? & [= <- <- <-] & Hbad)]; [done|].
      destruct Hbad as [Hbad%loads_segment_raises|(h' & Hok & _)]; congruence.
Qed.

(** X2: when the header segment does not load, the error of [decode_jwt]
    is the header's, whatever the payload segment and the signature segment
    are: the payload segment is not looked at before the header is read. *)
Theorem decode_jwt_header_first (token p0 p1 p2 : string) (e : exn) :
  str_split dot token = [p0; p1; p2] →
  loads_segment p0 = Raise e →
  decode_jwt token = Raise e
  ∧ ∀ p1' p2', str_mem dot p1' = false → str_mem dot p2' = false →
               decode_jwt (p0 +:+ "." +:+ p1' +:+ "." +:+ p2') = Raise e.
Proof.
  intros Hs Hh. split.
  - unfold decode_jwt, decode_jws. rewrite Hs. simpl. by rewrite Hh.
  - intros p1' p2' H1 H2. unfold decode_jwt, decode_jws.
    pose proof (str_split_parts dot token) as Hparts. rewrite Hs in Hparts.
    apply Forall_cons in Hparts as [H0 _].
    rewrite (str_split_three p0 p1' p2') by done. simpl. by rewrite Hh.
Qed.

(** X3: the parser does not look into the signature segment: a token that
    parses still parses, to the same header, payload and signed data, with
    any other third segment that has no dot, the empty one included. *)
Theorem decode_jwt_signature_raw (token : string) (d : jwt) (sig : string) :
  decode_jwt token = Ok d →
  str_mem dot sig = false →
  decode_jwt (jwt_data d +:+ "." +:+ sig)
  = Ok {| jwt_header := jwt_header d; jwt_payload := jwt_payload d;
          jwt_signature := sig; jwt_data := jwt_data d |}.
Proof.
  intros Hd Hsig.
  destruct (decode_jwt_segments _ _ Hd)
    as (p0 & p1 & p2 & Hs & Hh & Hp & _ & Hdata).
  pose proof (str_split_parts dot token) as Hparts. rewrite Hs in Hparts.
  rewrite !Forall_cons in Hparts. destruct Hparts as (H0 & H1 & _).
  rewrite Hdata, !str_app_assoc.
  apply decode_jwt_of_segments; [|done..].
  change ("." +:+ p1 +:+ "." +:+ sig) with ("." +:+ (p1 +:+ "." +:+ sig)).
  by apply str_split_three.
Qed.

(** X4: parsing loses nothing of the token: the signed data followed by a
    dot and the signature segment is the token as it was received.
    [decode_jws] parses the same token to the same header, signature and
    data, and keeps as its payload the raw second segment, the one that
    [decode_jwt] loads. *)
Theorem decode_jwt_reassembles (token : string) (d : jwt) :
  decode_jwt token = Ok d →
  jwt_data d +:+ "." +:+ jwt_signature d = token
  ∧ ∃ j p0, decode_jws token = Ok j
            ∧ jws_header j = jwt_header d
            ∧ jws_signature j = jwt_signature d
            ∧ jws_data j = jwt_data d
            ∧ jws_data j = p0 +:+ "." +:+ jws_payload j
            ∧ loads_segment p0 = Ok (jws_header j)
            ∧ loads_segment (jws_payload j) = Ok (jwt_payload d).
Proof.
  intros Hd.
  destruct (decode_jwt_segments _ _ Hd)
    as (p0 & p1 & p2 & Hs & Hh & Hp & Hsig & Hdata).
  split.
  - rewrite Hdata, Hsig, <- (str_join_split dot token) at 1.
    rewrite Hs, !str_app_assoc. reflexivity.
  - revert Hd. unfold decode_jwt, decode_jws. rewrite Hs. simpl.
    rewrite Hh. simpl. rewrite Hp. simpl. intros [= <-].
    eexists _, p0. by split_and!.
Qed.

End Parsing.

(** ** Building *)

Section Building.
Context {C : Codec}.

(** X5: a token that [create_jws] returns has no padding character in it,
    whatever the encoder and the signer put into their answers. *)
Theorem create_jws_unpadded (payload header : value)
    (sign : string → result string) (token : string) :
  outcome (create_jws payload sign header) = Ok token →
  str_mem pad_char token = false.
Proof.
  rewrite create_jws_run. simpl.
  destruct (sign _) as [sig|e]; simpl; [|done]. intros [= <-].
  by rewrite !str_mem_app, !str_mem_remove_same.
Qed.

(** X6: [create_jws] does not check what the signer answers: with a
    signature that has a dot in it, the token it returns has more than
    three segments and [decode_jwt] refuses it with the bare assertion
    error. *)
Theorem dotted_signature_unparseable (payload header : value)
    (sign : string → result string) :
  (∀ input, ∃ sig, sign input = Ok sig ∧ str_mem dot sig = true) →
  ∃ token, outcome (create_jws payload sign header) = Ok token
           ∧ decode_jwt token = Raise (AssertionError None).
Proof.
  intros Hsign. rewrite create_jws_run. simpl.
  set (eh := str_remove pad_char (urlsafe_b64encode (canonicalize header))).
  set (ep := str_remove pad_char (urlsafe_b64encode (canonicalize payload))).
  destruct (Hsign (eh +:+ "." +:+ ep)) as (sig & -> & Hsig). simpl.
  eexists. split; [done|].
  unfold decode_jwt, decode_jws, py_assert.
  rewrite bool_decide_false; [done|].
  rewrite str_split_length, !str_count_app.
  assert (1 ≤ str_count dot (str_remove pad_char sig))%nat as Hcount.
  { apply str_count_mem. by rewrite str_mem_remove_other. }
  change (str_count dot ".") with 1%nat. lia.
Qed.

(** X7: when the signer fails, [create_jwt] returns no token: it ends with
    the signer's own exception, after the one call to the signer. *)
Theorem signer_failure_propagates (w : world) (payload : dict)
    (opts : options) (header : value) (e : exn) :
  (∀ input, signer opts input = Raise e) →
  ∃ input, create_jwt w payload opts header = ([EvSign input], Raise e).
Proof.
  intros Hsign. unfold create_jwt. rewrite create_jws_run. simpl.
  eexists. by rewrite Hsign.
Qed.

End Building.

(** ** Checking *)

Lemma validate_claims_ok (now : Z) (payload : value) (config : dict) :
  validate_claims now payload config = Ok tt →
  ∃ p iat exp,
    payload = VDict p
    ∧ as_number (dict_get p "iat") = Some iat
    ∧ as_number (dict_get p "exp") = Some exp
    ∧ (dict_get p "iat" ≠ VNone ∧ dict_get p "exp" ≠ VNone)
    ∧ iat ≤ now + 300 ∧ now - 300 < exp.
Proof.
  destruct payload as [| | | | |p]; try done.
  unfold validate_claims. simpl.
  destruct (is_none (dict_get p "exp")) eqn:Hpe; simpl; [done|].
  destruct (is_none (dict_get p "iat")) eqn:Hpi; simpl; [done|].
  apply is_none_false in Hpe, Hpi.
  rewrite py_gt_as_number, py_le_as_number.
  destruct (as_number (dict_get p "iat")) as [iat|] eqn:Hiat; simpl; [|done].
  destruct (now + 300 <? iat) eqn:Hi; simpl; [done|].
  destruct (as_number (dict_get p "exp")) as [exp|] eqn:Hexp; simpl; [|done].
  destruct (exp <=? now - 300) eqn:He; simpl; [done|].
  intros _. exists p, iat, exp. split_and!; [done..|lia|lia].
Qed.

Lemma py_in_strings (x : value) (members : list value) :
  (∀ s, x ≠ VStr s) →
  Forall (λ m, ∃ s, m = VStr s) members →
  py_in x members = false.
Proof.
  intros Hx. unfold py_in. induction 1 as [|m members [s ->] _ IH]; [done|].
  simpl. rewrite IH, orb_false_r.
  destruct (py_eq x (VStr s)) eqn:Heq; [|done].
  apply py_eq_str in Heq. by destruct (Hx s).
Qed.

Section Checking.
Context {C : Codec}.

(** X8: [verify_jwt] calls nothing but the resolver and the verifier, each
    at most once and the resolver first, with the configuration it was
    given; a run that stops before the verifier is called ends with an
    exception. *)
Theorem verify_jwt_calls (w : world) (token : string) (config : dict) :
  let run := verify_jwt w token config in
  (trace run = [] ∧ ∃ e, outcome run = Raise e)
  ∨ (∃ did e, trace run = [EvResolve did config] ∧ outcome run = Raise e)
  ∨ (∃ did d a,
       decode_jwt token = Ok d
       ∧ trace run = [EvResolve did config;
                      EvVerify (jwt_data d) (jwt_signature d) a]).
Proof.
  intros run. subst run.
  destruct (decode_jwt token) as [d|e] eqn:Hd.
  2: { left. rewrite (verify_jwt_decode_raise _ _ _ _ Hd). eauto. }
  destruct (subject_did (jwt_header d) (jwt_payload d)) as [did|e] eqn:Hs.
  2: { left. rewrite (verify_jwt_subject_raise _ _ _ _ _ Hd Hs). eauto. }
  right. rewrite (verify_jwt_from_did _ _ _ _ _ Hd Hs), verify_from_did_run.
  destruct (resolve w did config) as [r|e]; [|left; by eauto].
  destruct (list_first (verificationMethod (didDocument r))) as [a|e];
    [|left; by eauto].
  right. by exists did, d, a.
Qed.

(** X9: an exception of the resolver ends [verify_jwt] with that exception
    and without a call to the verifier; an exception of the verifier ends it
    with that exception; neither is caught or replaced. *)
Theorem capability_failure_propagates (w : world) (token : string)
    (config : dict) (d : jwt) (did : value) (e : exn) :
  decode_jwt token = Ok d →
  subject_did (jwt_header d) (jwt_payload d) = Ok did →
  (resolve w did config = Raise e →
   verify_jwt w token config = ([EvResolve did config], Raise e))
  ∧ (∀ r a, resolve w did config = Ok r →
            list_first (verificationMethod (didDocument r)) = Ok a →
            verify_ES256K w (jwt_data d) (jwt_signature d) a = Raise e →
            verify_jwt w token config
            = ([EvResolve did config;
                EvVerify (jwt_data d) (jwt_signature d) a], Raise e)).
Proof.
  intros Hd Hs.
  rewrite (verify_jwt_from_did _ _ _ _ _ Hd Hs), verify_from_did_run.
  split.
  - by intros ->.
  - intros r a -> -> ->. done.
Qed.

(** X10: a signature that the verifier refuses ends [verify_jwt] with
    "Signature verification failed" whatever the claims of the payload and
    the clock are: the signature is checked before [exp], [iat] and [aud]
    are looked at. *)
Theorem bad_signature_before_claims (w : world) (token : string)
    (config : dict) (d : jwt) (did : value) (r : did_resolution_result)
    (a : value) :
  decode_jwt token = Ok d →
  subject_did (jwt_header d) (jwt_payload d) = Ok did →
  resolve w did config = Ok r →
  list_first (verificationMethod (didDocument r)) = Ok a →
  verify_ES256K w (jwt_data d) (jwt_signature d) a = Ok false →
  verify_jwt w token config
  = ([EvResolve did config; EvVerify (jwt_data d) (jwt_signature d) a],
     Raise (AssertionError (Some "Signature verification failed")))
  ∧ rejected_with (outcome (verify_jwt w token config)) SignatureInvalid.
Proof.
  intros Hd Hs Hr Ha Hv.
  rewrite (verify_jwt_from_did _ _ _ _ _ Hd Hs), verify_from_did_run.
  rewrite Hr, Ha, Hv. split; [done|]. by eexists.
Qed.

(** X11: in a run that reaches the claim checks, a payload without [exp]
    is refused with "Missing expiration time", also when [iat] is missing
    too, and a payload with [exp] and without [iat] with "Missing issue
    time"; a key bound to [null] counts as missing. *)
Theorem missing_time_claims (w : world) (token : string) (config : dict)
    (d : jwt) (did : value) (r : did_resolution_result) (a : value)
    (p : dict) :
  reaches_claims w token config d did r a →
  jwt_payload d = VDict p →
  dict_get p "exp" = VNone ∨ dict_get p "iat" = VNone →
  outcome (verify_jwt w token config)
  = Raise (AssertionError
             (Some (if is_none (dict_get p "exp")
                    then "Missing expiration time"
                    else "Missing issue time")))
  ∧ rejected_with (outcome (verify_jwt w token config)) MissingClaim.
Proof.
  intros Hreach Hp Hmiss. rewrite (verify_jwt_claims _ _ _ _ _ _ _ Hreach).
  simpl. rewrite Hp. unfold validate_claims. simpl.
  destruct (is_none (dict_get p "exp")) eqn:Hexp; simpl.
  { split; [done|]. by eexists. }
  destruct Hmiss as [Hmiss|Hmiss]; [by rewrite Hmiss in Hexp|].
  rewrite Hmiss. simpl. split; [done|]. by eexists.
Qed.

(** X12: in a run that reaches the claim checks, an [iat] that is not a
    number (a string, a list, an object) ends [verify_jwt] with the
    [TypeError] of the comparison, and so does such an [exp] when [iat] is
    a number not in the future. This is no rejection of the taxonomy. *)
Theorem non_numeric_time_claims (w : world) (token : string) (config : dict)
    (d : jwt) (did : value) (r : did_resolution_result) (a : value)
    (p : dict) :
  reaches_claims w token config d did r a →
  jwt_payload d = VDict p →
  dict_get p "exp" ≠ VNone → dict_get p "iat" ≠ VNone →
  as_number (dict_get p "iat") = None
  ∨ (∃ iat, as_number (dict_get p "iat") = Some iat
            ∧ iat ≤ time_time w + 300
            ∧ as_number (dict_get p "exp") = None) →
  outcome (verify_jwt w token config) = Raise TypeError
  ∧ rejection_of TypeError = None.
Proof.
  intros Hreach Hp Hexp%is_none_false Hiat%is_none_false Hbad.
  rewrite (verify_jwt_claims _ _ _ _ _ _ _ Hreach).
  simpl. rewrite Hp. unfold validate_claims. simpl.
  rewrite Hexp, Hiat. simpl. rewrite py_gt_as_number, py_le_as_number.
  destruct Hbad as [->|(iat & -> & Hle & ->)]; [done|]. simpl.
  by rewrite (proj2 (Z.ltb_ge _ _)) by lia.
Qed.

(** X13: a token whose payload segment is JSON but not an object (a list,
    a string, a number, [null]) ends [verify_jwt] with the [AttributeError]
    of [payload.get] before any capability is called. *)
Theorem payload_not_a_mapping (w : world) (token : string) (config : dict)
    (d : jwt) :
  decode_jwt token = Ok d →
  (∀ p, jwt_payload d ≠ VDict p) →
  verify_jwt w token config = ([], Raise AttributeError).
Proof.
  intros Hd Hp. apply (verify_jwt_subject_raise _ _ _ _ _ Hd).
  destruct (jwt_payload d) as [| | | | |p]; try done. by destruct (Hp p).
Qed.

(** X14: what an accepted run has checked. When [verify_jwt] returns, the
    token it returns is the one it was given and the payload is the parsed
    payload segment, an object with [iss], [iat] and [exp]; the resolver was
    called once, on the returned DID, and the verifier once, on the signed
    data, the signature segment and the returned method, the first of the
    resolved document, and it answered true; an [iat] that is an integer is
    at most [now + 300] and an [exp] that is an integer is greater than
    [now - 300]. *)
Theorem accepted_means_checked (w : world) (token : string) (config : dict)
    (payload : value) (r : did_resolution_result) (did a : value)
    (tok : string) :
  outcome (verify_jwt w token config) = Ok (payload, r, did, a, tok) →
  tok = token
  ∧ ∃ d p,
      decode_jwt token = Ok d
      ∧ jwt_payload d = payload
      ∧ payload = VDict p
      ∧ dict_get p "iss" ≠ VNone
      ∧ dict_get p "iat" ≠ VNone
      ∧ dict_get p "exp" ≠ VNone
      ∧ trace (verify_jwt w token config)
        = [EvResolve did config; EvVerify (jwt_data d) (jwt_signature d) a]
      ∧ resolve w did config = Ok r
      ∧ head (verificationMethod (didDocument r)) = Some a
      ∧ verify_ES256K w (jwt_data d) (jwt_signature d) a = Ok true
      ∧ (∀ iat, as_number (dict_get p "iat") = Some iat →
                iat ≤ time_time w + 300)
      ∧ (∀ exp, as_number (dict_get p "exp") = Some exp →
                time_time w - 300 < exp).
Proof.
  destruct (decode_jwt token) as [d|e] eqn:Hd.
  2: { by rewrite (verify_jwt_decode_raise _ _ _ _ Hd). }
  destruct (subject_did (jwt_header d) (jwt_payload d)) as [did'|e] eqn:Hs.
  2: { by rewrite (verify_jwt_subject_raise _ _ _ _ _ Hd Hs). }
  rewrite (verify_jwt_from_did _ _ _ _ _ Hd Hs), verify_from_did_run.
  destruct (resolve w did' config) as [r'|e] eqn:Hr; [|done].
  destruct (verificationMethod (didDocument r')) as [|a' rest] eqn:Hvm;
    [done|].
  simpl.
  destruct (verify_ES256K w (jwt_data d) (jwt_signature d) a')
    as [[]|e] eqn:Hv; simpl; [|done..].
  destruct (validate_claims (time_time w) (jwt_payload d) config)
    as [[]|e] eqn:Hc; simpl; [|done].
  intros [= <- <- <- <- <-]. split; [done|].
  destruct (validate_claims_ok _ _ _ Hc)
    as (p & iat & exp & Hp & Hi & He & Hpresent & ? & ?).
  exists d, p. rewrite Hvm.
  split_and!; try done; try tauto.
  - rewrite Hp, subject_did_dict in Hs.
    destruct (is_none (dict_get p "iss")) eqn:Hiss; [done|].
    by apply is_none_false.
  - intros n Hn. rewrite Hi in Hn. injection Hn as <-. lia.
  - intros n Hn. rewrite He in Hn. injection Hn as <-. lia.
Qed.

(** X15: a payload whose [aud] is a non-empty list is refused with
    "Invalid audience" whenever an audience is configured that is a string
    or a list of strings, also when the list in the payload names a
    configured audience: the list is looked up as one element, not element
    by element. *)
Theorem list_valued_aud_refused (w : world) (token : string) (config : dict)
    (d : jwt) (did : value) (r : did_resolution_result) (a : value)
    (p : dict) (auds : list value) :
  reaches_claims w token config d did r a →
  jwt_payload d = VDict p →
  in_time (time_time w) p →
  dict_get p "aud" = VList auds → auds ≠ [] →
  truthy (dict_get config "audience") = true →
  (∀ members, dict_get config "audience" = VList members →
              Forall (λ m, ∃ s, m = VStr s) members) →
  outcome (verify_jwt w token config)
  = Raise (AssertionError (Some "Invalid audience"))
  ∧ rejected_with (outcome (verify_jwt w token config)) AudienceMismatch.
Proof.
  intros Hreach Hp Htime Haud Hne Hconf Hstr.
  rewrite (verify_jwt_claims _ _ _ _ _ _ _ Hreach). simpl.
  rewrite Hp, (validate_claims_in_time _ _ _ Htime), Haud, Hconf.
  assert (truthy (VList auds) = true) as -> by by destruct auds.
  assert (audience_accepts (dict_get config "audience") (VList auds) = false)
    as ->.
  { unfold audience_accepts.
    destruct (dict_get config "audience") as [| | | |members|]; try done.
    apply py_in_strings; [done|]. by apply Hstr. }
  simpl. split; [done|]. by eexists.
Qed.

End Checking.

(** ** The life of a created token *)

Section Lifetime.
Context {C : Codec} {carried : value → Prop} {L : CodecLaws C carried}.

(** The verdict on a token that [create_jwt] made, when the verifier
    accepts what the signer signed. *)
Lemma created_token_verdict (w w' : world) (payload : dict) (opts : options)
    (header : value) (config : dict) (r : did_resolution_result) (a : value)
    (iat exp : Z) :
  let full := full_payload (time_time w) payload (issuer opts) in
  (∀ input, ∃ sig, signer opts input = Ok sig ∧ str_mem dot sig = false) →
  (∀ input sig, signer opts input = Ok sig →
                verify_ES256K w' input (str_remove pad_char sig) a = Ok true) →
  carried header → carried (VDict full) →
  issuer opts ≠ VNone → issuer opts ≠ VStr SELF_ISSUED →
  resolve w' (issuer opts) config = Ok r →
  list_first (verificationMethod (didDocument r)) = Ok a →
  full !! "iat" = Some (VInt iat) → full !! "exp" = Some (VInt exp) →
  full !! "aud" = None →
  ∃ token,
    outcome (create_jwt w payload opts header) = Ok token
    ∧ outcome (verify_jwt w' token config)
      = if time_time w' + 300 <? iat then
          Raise (AssertionError (Some "Issue time is in the future"))
        else if exp <=? time_time w' - 300 then
          Raise (AssertionError (Some "Expired JWT"))
        else Ok (VDict full, r, issuer opts, a, token).
Proof.
  intros full Hsign Hv Hheader Hfull Hnone Hself Hr Ha Hiat Hexp Haud.
  rewrite create_jwt_full_payload. fold full.
  destruct (decode_create_jws _ header _ Hfull Hheader Hsign)
    as (input & sig & Hsig & Hcreate & Hdecode).
  rewrite Hcreate. eexists. split; [done|].
  assert (subject_did header (VDict full) = Ok (issuer opts)) as Hs.
  { rewrite subject_did_dict.
    assert (dict_get full "iss" = issuer opts) as ->
      by (apply dict_get_Some; unfold full, full_payload;
          by rewrite lookup_insert_eq).
    apply is_none_false in Hnone as ->.
    destruct (py_eq (issuer opts) (VStr SELF_ISSUED)) eqn:Heq; [|done].
    by apply py_eq_str in Heq. }
  rewrite (verify_jwt_claims w' _ config _ (issuer opts) r a)
    by (split_and!; [exact Hdecode|exact Hs|exact Hr|exact Ha
                    |by apply Hv]).
  simpl. rewrite (validate_claims_times _ _ _ iat exp Hiat Hexp).
  destruct (time_time w' + 300 <? iat); [done|].
  destruct (exp <=? time_time w' - 300); [done|].
  unfold dict_get at 1. by rewrite Haud.
Qed.

End Lifetime.

(** X16: let a token be made by [create_jwt] at time [t0] from a payload
    without reserved keys, the header and the merged payload being within
    the limits of the interpreter, with a signer whose signatures have no
    dot and an issuer that is neither [None] nor the self-issued one; let
    the resolver answer for that issuer with a document that has a first
    method, and let the verifier accept, with that method, what the signer
    signed. Then [verify_jwt] at time [t] refuses the token as issued in the
    future when [t < t0 - 300], accepts it with the merged payload when
    [t0 - 300 <= t < t0 + 600], and refuses it as expired when
    [t0 + 600 <= t]. *)
Theorem created_token_lifetime (py : interpreter) (w w' : world)
    (payload : dict) (opts : options) (header : value) (config : dict)
    (r : did_resolution_result) (a : value) :
  let full := full_payload (time_time w) payload (issuer opts) in
  Forall (λ k, payload !! k = None) reserved_keys →
  (∀ input, ∃ sig, signer opts input = Ok sig ∧ str_mem dot sig = false) →
  (∀ input sig, signer opts input = Ok sig →
                verify_ES256K w' input (str_remove pad_char sig) a = Ok true) →
  within_limits py header = true →
  within_limits py (VDict full) = true →
  issuer opts ≠ VNone → issuer opts ≠ VStr SELF_ISSUED →
  resolve w' (issuer opts) config = Ok r →
  list_first (verificationMethod (didDocument r)) = Ok a →
  ∃ token,
    outcome (@create_jwt (python_codec py) w payload opts header) = Ok token
    ∧ let res := outcome (@verify_jwt (python_codec py) w' token config) in
      let t0 := time_time w in
      let t := time_time w' in
      (t < t0 - 300 →
       res = Raise (AssertionError (Some "Issue time is in the future")))
      ∧ (t0 - 300 ≤ t → t < t0 + 600 →
         res = Ok (VDict full, r, issuer opts, a, token))
      ∧ (t0 + 600 ≤ t → res = Raise (AssertionError (Some "Expired JWT"))).
Proof.
  intros full Hres Hsign Hv Hheader Hfull Hnone Hself Hr Ha.
  unfold reserved_keys in Hres. rewrite !Forall_cons in Hres.
  destruct Hres as (Hiat & Hexp & Hiss & Hsub & Hjwk & Haud & _).
  destruct (created_token_verdict (L := python_codec_laws py)
              w w' payload opts header config r a
              (time_time w) (time_time w + 300)
              Hsign Hv Hheader Hfull Hnone Hself Hr Ha)
    as (token & Htoken & Hverdict).
  { unfold full_payload. rewrite full_payload_lookup, Hiat.
    by repeat case_decide. }
  { unfold full_payload. rewrite full_payload_lookup, Hexp.
    by repeat case_decide. }
  { unfold full_payload. rewrite full_payload_lookup, Haud.
    by repeat case_decide. }
  exists token. split; [exact Htoken|].
  cbv zeta. rewrite Hverdict. split_and!.
  - intros Ht. by rewrite (proj2 (Z.ltb_lt _ _)) by lia.
  - intros Ht1 Ht2. rewrite (proj2 (Z.ltb_ge _ _)) by lia.
    by rewrite (proj2 (Z.leb_gt _ _)) by lia.
  - intros Ht. rewrite (proj2 (Z.ltb_ge _ _)) by lia.
    by rewrite (proj2 (Z.leb_le _ _)) by lia.
Qed.

(** X17: under the conditions of X16 on the interpreter, the signer, the
    issuer, the resolver and the verifier, but for a payload that brings an
    integer [exp] of its own (and neither [iat] nor [aud]), that [exp]
    decides when the created token expires, not the 300 seconds of
    [create_jwt]: the token made at time [t0] is accepted at the times [t]
    with [t0 - 300 <= t < exp + 300] and refused as expired at the times
    [t >= exp + 300] that are not before [t0 - 300]. With [exp <= t0 - 600]
    the token is accepted at no time. *)
Theorem caller_expiry_governs (py : interpreter) (w w' : world)
    (payload : dict) (opts : options) (header : value) (config : dict)
    (r : did_resolution_result) (a : value) (exp : Z) :
  let full := full_payload (time_time w) payload (issuer opts) in
  payload !! "exp" = Some (VInt exp) →
  payload !! "iat" = None → payload !! "aud" = None →
  (∀ input, ∃ sig, signer opts input = Ok sig ∧ str_mem dot sig = false) →
  (∀ input sig, signer opts input = Ok sig →
                verify_ES256K w' input (str_remove pad_char sig) a = Ok true) →
  within_limits py header = true →
  within_limits py (VDict full) = true →
  issuer opts ≠ VNone → issuer opts ≠ VStr SELF_ISSUED →
  resolve w' (issuer opts) config = Ok r →
  list_first (verificationMethod (didDocument r)) = Ok a →
  ∃ token,
    outcome (@create_jwt (python_codec py) w payload opts header) = Ok token
    ∧ full !! "exp" = Some (VInt exp)
    ∧ let res := outcome (@verify_jwt (python_codec py) w' token config) in
      let t0 := time_time w in
      let t := time_time w' in
      (t0 - 300 ≤ t → t < exp + 300 →
       res = Ok (VDict full, r, issuer opts, a, token))
      ∧ (t0 - 300 ≤ t → exp + 300 ≤ t →
         res = Raise (AssertionError (Some "Expired JWT")))
      ∧ (exp ≤ t0 - 600 → ∃ e, res = Raise e).
Proof.
  intros full Hexp Hiat Haud Hsign Hv Hheader Hfull Hnone Hself Hr Ha.
  assert (full !! "exp" = Some (VInt exp)) as Hfexp.
  { unfold full, full_payload. rewrite full_payload_lookup, Hexp.
    by repeat case_decide. }
  destruct (created_token_verdict (L := python_codec_laws py)
              w w' payload opts header config r a
              (time_time w) exp Hsign Hv Hheader Hfull Hnone Hself Hr Ha)
    as (token & Htoken & Hverdict); [|exact Hfexp|..].
  { unfold full_payload. rewrite full_payload_lookup, Hiat.
    by repeat case_decide. }
  { unfold full_payload. rewrite full_payload_lookup, Haud.
    by repeat case_decide. }
  exists token. split; [exact Htoken|]. split; [exact Hfexp|].
  cbv zeta. rewrite Hverdict. split_and!.
  - intros Ht1 Ht2.
    rewrite (proj2 (Z.ltb_ge _ _)) by lia.
    by rewrite (proj2 (Z.leb_gt _ _)) by lia.
  - intros Ht1 Ht2. rewrite (proj2 (Z.ltb_ge _ _)) by lia.
    by rewrite (proj2 (Z.leb_le _ _)) by lia.
  - intros Hx.
    destruct (time_time w' + 300 <? time_time w) eqn:Hi; [by eexists|].
    apply Z.ltb_ge in Hi.
    rewrite (proj2 (Z.leb_le _ _)) by lia. by eexists.
Qed.

(** * The further theorems at concrete inputs *)

Section MoreWitnesses.
#[local] Existing Instance reference_codec.

(** A resolver that cannot reach the registry. *)
Definition world_unresolvable : world := {|
  time_time := 1700000000;
  resolve _ _ := Raise (CapabilityError "registry unreachable");
  verify_ES256K _ _ _ := Ok true;
|}.

(** A verifier that refuses every signature, long after the token of the
    examples has expired. *)
Definition world_refusing : world := example_world 1800000000 two_methods false.

(** A signer that fails. *)
Definition failing_options : options := {|
  issuer := VStr "did:ebsi:abc";
  signer _ := Raise (CapabilityError "key store locked");
|}.

(** [{"iss":"did:ebsi:abc"}], made by [create_jws]: no [iat], no [exp]. *)
Definition payload_no_times : dict := {[ "iss" := VStr "did:ebsi:abc" ]}.

Definition token_no_times : string :=
  encoded_header_with_kid +:+ "." +:+ "eyJpc3MiOiJkaWQ6ZWJzaTphYmMifQ"
  +:+ "." +:+ "c2lnbmF0dXJl".

Definition jwt_no_times : jwt := {|
  jwt_header := VDict header_with_kid;
  jwt_payload := VDict payload_no_times;
  jwt_signature := "c2lnbmF0dXJl";
  jwt_data := encoded_header_with_kid +:+ "." +:+ "eyJpc3MiOiJkaWQ6ZWJzaTphYmMifQ";
|}.

(** [{"exp":1700000300,"iat":"soon","iss":"did:ebsi:abc"}], made by
    [create_jwt] from a payload that brings its own [iat]. *)
Definition payload_iat_text : dict :=
  {[ "exp" := VInt 1700000300; "iat" := VStr "soon";
     "iss" := VStr "did:ebsi:abc" ]}.

Definition encoded_payload_iat_text : string :=
  "eyJleHAiOjE3MDAwMDAzMDAsImlhdCI6InNvb24iLCJpc3MiOiJkaWQ6ZWJzaTphYmMifQ".

Definition token_iat_text : string :=
  encoded_header_with_kid +:+ "." +:+ encoded_payload_iat_text
  +:+ "." +:+ "c2lnbmF0dXJl".

Definition jwt_iat_text : jwt := {|
  jwt_header := VDict header_with_kid;
  jwt_payload := VDict payload_iat_text;
  jwt_signature := "c2lnbmF0dXJl";
  jwt_data := encoded_header_with_kid +:+ "." +:+ encoded_payload_iat_text;
|}.

(** The payload segment [W10] is the JSON text of the empty list. *)
Definition token_list_payload : string :=
  encoded_header_with_kid +:+ "." +:+ "W10" +:+ "." +:+ "c2lnbmF0dXJl".

Definition jwt_list_payload : jwt := {|
  jwt_header := VDict header_with_kid;
  jwt_payload := VList [];
  jwt_signature := "c2lnbmF0dXJl";
  jwt_data := encoded_header_with_kid +:+ "." +:+ "W10";
|}.

Example create_token_no_times :
  outcome (create_jws (VDict payload_no_times)
                      (signer (example_options "did:ebsi:abc"))
                      (VDict header_with_kid))
  = Ok token_no_times.
Proof. vm_compute. reflexivity. Qed.

Example create_token_iat_text :
  outcome (create_jwt world_ok {[ "iat" := VStr "soon" ]}
                      (example_options "did:ebsi:abc") (VDict header_with_kid))
  = Ok token_iat_text.
Proof. vm_compute. reflexivity. Qed.

Example create_token_list_payload :
  outcome (create_jws (VList []) (signer (example_options "did:ebsi:abc"))
                      (VDict header_with_kid))
  = Ok token_list_payload.
Proof. vm_compute. reflexivity. Qed.

Lemma reaches_claims_no_times :
  reaches_claims world_ok token_no_times ∅ jwt_no_times
    (VStr "did:ebsi:abc") (resolution two_methods) (VStr "key-1").
Proof. unfold reaches_claims. split_and!; vm_compute; reflexivity. Defined.

Lemma reaches_claims_iat_text :
  reaches_claims world_ok token_iat_text ∅ jwt_iat_text
    (VStr "did:ebsi:abc") (resolution two_methods) (VStr "key-1").
Proof. unfold reaches_claims. split_and!; vm_compute; reflexivity. Defined.

Lemma decode_jwt_header_first_witness :
  str_split dot "a.b.c" = ["a"; "b"; "c"]
  ∧ loads_segment "a" = Raise BinasciiError
  ∧ decode_jwt "a.b.c" = Raise BinasciiError
  ∧ ∀ p1' p2', str_mem dot p1' = false → str_mem dot p2' = false →
               decode_jwt ("a" +:+ "." +:+ p1' +:+ "." +:+ p2')
               = Raise BinasciiError.
Proof.
  assert (loads_segment "a" = Raise BinasciiError) as Hh
    by (vm_compute; reflexivity).
  split_and!; [reflexivity|exact Hh|..];
    apply (decode_jwt_header_first "a.b.c" "a" "b" "c" BinasciiError
             eq_refl Hh).
Defined.

Lemma decode_jwt_signature_raw_witness :
  decode_jwt token_empty_aud = Ok jwt_empty_aud
  ∧ str_mem dot "" = false
  ∧ decode_jwt (jwt_data jwt_empty_aud +:+ "." +:+ "")
    = Ok {| jwt_header := jwt_header jwt_empty_aud;
            jwt_payload := jwt_payload jwt_empty_aud;
            jwt_signature := "";
            jwt_data := jwt_data jwt_empty_aud |}.
Proof.
  assert (decode_jwt token_empty_aud = Ok jwt_empty_aud) as Hd
    by (vm_compute; reflexivity).
  split_and!; [exact Hd|reflexivity|].
  exact (decode_jwt_signature_raw token_empty_aud jwt_empty_aud "" Hd eq_refl).
Defined.

Lemma decode_jwt_reassembles_witness :
  decode_jwt token_empty_aud = Ok jwt_empty_aud
  ∧ jwt_data jwt_empty_aud +:+ "." +:+ jwt_signature jwt_empty_aud
    = token_empty_aud
  ∧ ∃ j p0, decode_jws token_empty_aud = Ok j
            ∧ jws_header j = jwt_header jwt_empty_aud
            ∧ jws_signature j = jwt_signature jwt_empty_aud
            ∧ jws_data j = jwt_data jwt_empty_aud
            ∧ jws_data j = p0 +:+ "." +:+ jws_payload j
            ∧ loads_segment p0 = Ok (jws_header j)
            ∧ loads_segment (jws_payload j) = Ok (jwt_payload jwt_empty_aud).
Proof.
  assert (decode_jwt token_empty_aud = Ok jwt_empty_aud) as Hd
    by (vm_compute; reflexivity).
  split; [exact Hd|].
  exact (decode_jwt_reassembles token_empty_aud jwt_empty_aud Hd).
Defined.

Lemma create_jws_unpadded_witness :
  outcome (create_jws (VDict payload_no_times)
                      (signer (example_options "did:ebsi:abc"))
                      (VDict header_with_kid))
  = Ok token_no_times
  ∧ str_mem pad_char token_no_times = false.
Proof.
  assert (outcome (create_jws (VDict payload_no_times)
                              (signer (example_options "did:ebsi:abc"))
                              (VDict header_with_kid))
          = Ok token_no_times) as Hc by (vm_compute; reflexivity).
  split; [exact Hc|].
  exact (create_jws_unpadded _ _ _ _ Hc).
Defined.

Lemma dotted_signature_unparseable_witness :
  (∀ input, ∃ sig, dotted_signer input = Ok sig ∧ str_mem dot sig = true)
  ∧ ∃ token,
      outcome (create_jws (VDict payload_no_times) dotted_signer
                          (VDict header_with_kid)) = Ok token
      ∧ decode_jwt token = Raise (AssertionError None).
Proof.
  assert (∀ input, ∃ sig, dotted_signer input = Ok sig
                          ∧ str_mem dot sig = true) as Hsign
    by (intros input; exists "c2ln.bmF0dXJl"; split; reflexivity).
  split; [exact Hsign|].
  exact (dotted_signature_unparseable _ _ _ Hsign).
Defined.

Lemma signer_failure_propagates_witness :
  (∀ input, signer failing_options input
            = Raise (CapabilityError "key store locked"))
  ∧ ∃ input,
      create_jwt world_ok {[ "name" := VStr "alice" ]} failing_options
                 (VDict header_with_kid)
      = ([EvSign input], Raise (CapabilityError "key store locked")).
Proof.
  assert (∀ input, signer failing_options input
                   = Raise (CapabilityError "key store locked")) as Hsign
    by reflexivity.
  split; [exact Hsign|].
  exact (signer_failure_propagates world_ok _ failing_options _ _ Hsign).
Defined.

Lemma capability_failure_propagates_witness :
  decode_jwt token_empty_aud = Ok jwt_empty_aud
  ∧ subject_did (jwt_header jwt_empty_aud) (jwt_payload jwt_empty_aud)
    = Ok (VStr "did:ebsi:abc")
  ∧ resolve world_unresolvable (VStr "did:ebsi:abc") ∅
    = Raise (CapabilityError "registry unreachable")
  ∧ verify_jwt world_unresolvable token_empty_aud ∅
    = ([EvResolve (VStr "did:ebsi:abc") ∅],
       Raise (CapabilityError "registry unreachable")).
Proof.
  assert (decode_jwt token_empty_aud = Ok jwt_empty_aud) as Hd
    by (vm_compute; reflexivity).
  assert (subject_did (jwt_header jwt_empty_aud) (jwt_payload jwt_empty_aud)
          = Ok (VStr "did:ebsi:abc")) as Hs by (vm_compute; reflexivity).
  split_and!; [exact Hd|exact Hs|reflexivity|].
  exact (proj1 (capability_failure_propagates world_unresolvable
                  token_empty_aud ∅ jwt_empty_aud (VStr "did:ebsi:abc")
                  (CapabilityError "registry unreachable") Hd Hs) eq_refl).
Defined.

Lemma bad_signature_before_claims_witness :
  decode_jwt token_empty_aud = Ok jwt_empty_aud
  ∧ subject_did (jwt_header jwt_empty_aud) (jwt_payload jwt_empty_aud)
    = Ok (VStr "did:ebsi:abc")
  ∧ resolve world_refusing (VStr "did:ebsi:abc") ∅ = Ok (resolution two_methods)
  ∧ list_first (verificationMethod (didDocument (resolution two_methods)))
    = Ok (VStr "key-1")
  ∧ verify_ES256K world_refusing (jwt_data jwt_empty_aud)
                  (jwt_signature jwt_empty_aud) (VStr "key-1") = Ok false
  ∧ verify_jwt world_refusing token_empty_aud ∅
    = ([EvResolve (VStr "did:ebsi:abc") ∅;
        EvVerify (jwt_data jwt_empty_aud) (jwt_signature jwt_empty_aud)
                 (VStr "key-1")],
       Raise (AssertionError (Some "Signature verification failed")))
  ∧ rejected_with (outcome (verify_jwt world_refusing token_empty_aud ∅))
                  SignatureInvalid.
Proof.
  assert (decode_jwt token_empty_aud = Ok jwt_empty_aud) as Hd
    by (vm_compute; reflexivity).
  assert (subject_did (jwt_header jwt_empty_aud) (jwt_payload jwt_empty_aud)
          = Ok (VStr "did:ebsi:abc")) as Hs by (vm_compute; reflexivity).
  split_and!; [exact Hd|exact Hs|reflexivity|reflexivity|reflexivity|..];
    apply (bad_signature_before_claims world_refusing token_empty_aud ∅
             jwt_empty_aud (VStr "did:ebsi:abc") (resolution two_methods)
             (VStr "key-1") Hd Hs eq_refl eq_refl eq_refl).
Defined.

Lemma missing_time_claims_witness :
  reaches_claims world_ok token_no_times ∅ jwt_no_times
    (VStr "did:ebsi:abc") (resolution two_methods) (VStr "key-1")
  ∧ jwt_payload jwt_no_times = VDict payload_no_times
  ∧ dict_get payload_no_times "exp" = VNone
  ∧ outcome (verify_jwt world_ok token_no_times ∅)
    = Raise (AssertionError
               (Some (if is_none (dict_get payload_no_times "exp")
                      then "Missing expiration time"
                      else "Missing issue time")))
  ∧ rejected_with (outcome (verify_jwt world_ok token_no_times ∅))
                  MissingClaim.
Proof.
  assert (dict_get payload_no_times "exp" = VNone) as Hexp
    by (vm_compute; reflexivity).
  split_and!; [apply reaches_claims_no_times|reflexivity|exact Hexp|..];
    apply (missing_time_claims world_ok token_no_times ∅ jwt_no_times
             (VStr "did:ebsi:abc") (resolution two_methods) (VStr "key-1")
             payload_no_times reaches_claims_no_times eq_refl
             (or_introl Hexp)).
Defined.

Lemma non_numeric_time_claims_witness :
  reaches_claims world_ok token_iat_text ∅ jwt_iat_text
    (VStr "did:ebsi:abc") (resolution two_methods) (VStr "key-1")
  ∧ jwt_payload jwt_iat_text = VDict payload_iat_text
  ∧ dict_get payload_iat_text "exp" ≠ VNone
  ∧ dict_get payload_iat_text "iat" ≠ VNone
  ∧ as_number (dict_get payload_iat_text "iat") = None
  ∧ outcome (verify_jwt world_ok token_iat_text ∅) = Raise TypeError
  ∧ rejection_of TypeError = None.
Proof.
  assert (dict_get payload_iat_text "exp" ≠ VNone) as Hexp
    by (vm_compute; discriminate).
  assert (dict_get payload_iat_text "iat" ≠ VNone) as Hiat
    by (vm_compute; discriminate).
  assert (as_number (dict_get payload_iat_text "iat") = None) as Hnum
    by (vm_compute; reflexivity).
  split_and!; [apply reaches_claims_iat_text|reflexivity|exact Hexp
              |exact Hiat|exact Hnum|..];
    apply (non_numeric_time_claims world_ok token_iat_text ∅ jwt_iat_text
             (VStr "did:ebsi:abc") (resolution two_methods) (VStr "key-1")
             payload_iat_text reaches_claims_iat_text eq_refl Hexp Hiat
             (or_introl Hnum)).
Defined.

Lemma payload_not_a_mapping_witness :
  decode_jwt token_list_payload = Ok jwt_list_payload
  ∧ (∀ p, jwt_payload jwt_list_payload ≠ VDict p)
  ∧ verify_jwt world_ok token_list_payload ∅ = ([], Raise AttributeError).
Proof.
  assert (decode_jwt token_list_payload = Ok jwt_list_payload) as Hd
    by (vm_compute; reflexivity).
  assert (∀ p, jwt_payload jwt_list_payload ≠ VDict p) as Hp
    by (intros p; discriminate).
  split_and!; [exact Hd|exact Hp|].
  exact (payload_not_a_mapping world_ok token_list_payload ∅
           jwt_list_payload Hd Hp).
Defined.

Lemma accepted_means_checked_witness :
  outcome (verify_jwt world_ok token_empty_aud ∅)
  = Ok (VDict payload_empty_aud, resolution two_methods,
        VStr "did:ebsi:abc", VStr "key-1", token_empty_aud)
  ∧ token_empty_aud = token_empty_aud
  ∧ ∃ d p,
      decode_jwt token_empty_aud = Ok d
      ∧ jwt_payload d = VDict payload_empty_aud
      ∧ VDict payload_empty_aud = VDict p
      ∧ dict_get p "iss" ≠ VNone
      ∧ dict_get p "iat" ≠ VNone
      ∧ dict_get p "exp" ≠ VNone
      ∧ trace (verify_jwt world_ok token_empty_aud ∅)
        = [EvResolve (VStr "did:ebsi:abc") ∅;
           EvVerify (jwt_data d) (jwt_signature d) (VStr "key-1")]
      ∧ resolve world_ok (VStr "did:ebsi:abc") ∅ = Ok (resolution two_methods)
      ∧ head (verificationMethod (didDocument (resolution two_methods)))
        = Some (VStr "key-1")
      ∧ verify_ES256K world_ok (jwt_data d) (jwt_signature d) (VStr "key-1")
        = Ok true
      ∧ (∀ iat, as_number (dict_get p "iat") = Some iat →
                iat ≤ time_time world_ok + 300)
      ∧ (∀ exp, as_number (dict_get p "exp") = Some exp →
                time_time world_ok - 300 < exp).
Proof.
  assert (outcome (verify_jwt world_ok token_empty_aud ∅)
          = Ok (VDict payload_empty_aud, resolution two_methods,
                VStr "did:ebsi:abc", VStr "key-1", token_empty_aud)) as Hok
    by (vm_compute; reflexivity).
  split; [exact Hok|].
  exact (accepted_means_checked world_ok token_empty_aud ∅ _ _ _ _ _ Hok).
Defined.

(** [{"aud":["a"],"exp":1700000300,"iat":1700000000,"iss":"did:ebsi:abc"}] *)
Definition payload_aud_list : dict :=
  {[ "aud" := VList [VStr "a"]; "exp" := VInt 1700000300;
     "iat" := VInt 1700000000; "iss" := VStr "did:ebsi:abc" ]}.

Definition encoded_payload_aud_list : string :=
  "eyJhdWQiOlsiYSJdLCJleHAiOjE3MDAwMDAzMDAsImlhdCI6MTcwMDAwMDAwMCwiaXNzIjoiZGlkOmVic2k6YWJjIn0".

Definition token_aud_list : string :=
  encoded_header_with_kid +:+ "." +:+ encoded_payload_aud_list
  +:+ "." +:+ "c2lnbmF0dXJl".

Definition jwt_aud_list : jwt := {|
  jwt_header := VDict header_with_kid;
  jwt_payload := VDict payload_aud_list;
  jwt_signature := "c2lnbmF0dXJl";
  jwt_data := encoded_header_with_kid +:+ "." +:+ encoded_payload_aud_list;
|}.

Example create_token_aud_list :
  outcome (create_jwt world_ok {[ "aud" := VList [VStr "a"] ]}
                      (example_options "did:ebsi:abc") (VDict header_with_kid))
  = Ok token_aud_list.
Proof. vm_compute. reflexivity. Qed.

Lemma list_valued_aud_refused_witness :
  let config : dict := {[ "audience" := VList [VStr "a"; VStr "b"] ]} in
  reaches_claims world_ok token_aud_list config jwt_aud_list
    (VStr "did:ebsi:abc") (resolution two_methods) (VStr "key-1")
  ∧ jwt_payload jwt_aud_list = VDict payload_aud_list
  ∧ in_time (time_time world_ok) payload_aud_list
  ∧ dict_get payload_aud_list "aud" = VList [VStr "a"]
  ∧ [VStr "a"] ≠ []
  ∧ truthy (dict_get config "audience") = true
  ∧ (∀ members, dict_get config "audience" = VList members →
                Forall (λ m, ∃ s, m = VStr s) members)
  ∧ outcome (verify_jwt world_ok token_aud_list config)
    = Raise (AssertionError (Some "Invalid audience"))
  ∧ rejected_with (outcome (verify_jwt world_ok token_aud_list config))
                  AudienceMismatch.
Proof.
  intros config.
  assert (reaches_claims world_ok token_aud_list config jwt_aud_list
            (VStr "did:ebsi:abc") (resolution two_methods) (VStr "key-1"))
    as Hreach
    by (unfold reaches_claims; split_and!; vm_compute; reflexivity).
  assert (in_time (time_time world_ok) payload_aud_list) as Htime.
  { exists 1700000000, 1700000300.
    split_and!; [vm_compute; reflexivity..|vm_compute; discriminate
                |vm_compute; reflexivity]. }
  assert (dict_get payload_aud_list "aud" = VList [VStr "a"]) as Haud
    by (vm_compute; reflexivity).
  assert ([VStr "a"] ≠ []) as Hne by discriminate.
  assert (truthy (dict_get config "audience") = true) as Hconf
    by (vm_compute; reflexivity).
  assert (∀ members, dict_get config "audience" = VList members →
                     Forall (λ m, ∃ s, m = VStr s) members) as Hstr.
  { intros members. vm_compute. intros [= <-]. repeat constructor; eauto. }
  split_and!; [exact Hreach|reflexivity|exact Htime|exact Haud|exact Hne
              |exact Hconf|exact Hstr|..];
    apply (list_valued_aud_refused world_ok token_aud_list config jwt_aud_list
             (VStr "did:ebsi:abc") (resolution two_methods) (VStr "key-1")
             payload_aud_list [VStr "a"] Hreach eq_refl Htime Haud Hne Hconf
             Hstr).
Defined.

(** A keyed tag in place of a signature, and a verifier that checks it
    with the key of the verification method. *)
Definition tag (key data : string) : string :=
  Base64.encode (key +:+ ":" +:+ data).

Definition tagging_options (iss key : string) : options := {|
  issuer := VStr iss;
  signer input := Ok (tag key input);
|}.

Definition checking_world (now : Z) (methods : list value) : world := {|
  time_time := now;
  resolve _ _ := Ok (resolution methods);
  verify_ES256K data signature authenticator :=
    match authenticator with
    | VStr key =>
        Ok (bool_decide (signature = str_remove pad_char (tag key data)))
    | _ => Ok false
    end;
|}.

Example checking_world_refuses :
  verify_ES256K (checking_world 1700000000 two_methods)
                "data" "c2lnbmF0dXJl" (VStr "key-1") = Ok false.
Proof. vm_compute. reflexivity. Qed.

Lemma tagging_signer_no_dot (iss key input : string) :
  ∃ sig, signer (tagging_options iss key) input = Ok sig
         ∧ str_mem dot sig = false.
Proof.
  exists (tag key input). split; [reflexivity|].
  apply Base64Facts.encode_no_dot.
Defined.

Lemma checking_world_accepts (now : Z) (methods : list value)
    (iss key input sig : string) :
  signer (tagging_options iss key) input = Ok sig →
  verify_ES256K (checking_world now methods) input (str_remove pad_char sig)
                (VStr key) = Ok true.
Proof.
  intros [= <-]. simpl. f_equal. by apply bool_decide_eq_true.
Defined.

Lemma created_token_lifetime_witness :
  let w' := checking_world 1700000599 two_methods in
  let opts := tagging_options "did:ebsi:abc" "key-1" in
  let payload : dict := {[ "name" := VStr "alice" ]} in
  let full := full_payload (time_time world_ok) payload (issuer opts) in
  Forall (λ k, payload !! k = None) reserved_keys
  ∧ (∀ input, ∃ sig, signer opts input = Ok sig ∧ str_mem dot sig = false)
  ∧ (∀ input sig, signer opts input = Ok sig →
                  verify_ES256K w' input (str_remove pad_char sig)
                                (VStr "key-1") = Ok true)
  ∧ within_limits cpython (VDict header_with_kid) = true
  ∧ within_limits cpython (VDict full) = true
  ∧ issuer opts ≠ VNone
  ∧ issuer opts ≠ VStr SELF_ISSUED
  ∧ resolve w' (issuer opts) ∅ = Ok (resolution two_methods)
  ∧ list_first (verificationMethod (didDocument (resolution two_methods)))
    = Ok (VStr "key-1")
  ∧ ∃ token,
      outcome (create_jwt world_ok payload opts (VDict header_with_kid))
      = Ok token
      ∧ let res := outcome (verify_jwt w' token ∅) in
        let t0 := time_time world_ok in
        let t := time_time w' in
        (t < t0 - 300 →
         res = Raise (AssertionError (Some "Issue time is in the future")))
        ∧ (t0 - 300 ≤ t → t < t0 + 600 →
           res = Ok (VDict full, resolution two_methods, issuer opts,
                     VStr "key-1", token))
        ∧ (t0 + 600 ≤ t →
           res = Raise (AssertionError (Some "Expired JWT"))).
Proof.
  intros w' opts payload full.
  assert (Forall (λ k, payload !! k = None) reserved_keys) as Hreserved
    by (repeat constructor; vm_compute; reflexivity).
  assert (within_limits cpython (VDict header_with_kid) = true) as Hheader
    by (vm_compute; reflexivity).
  assert (within_limits cpython (VDict full) = true) as Hfull
    by (vm_compute; reflexivity).
  assert (issuer opts ≠ VNone) as Hnone by discriminate.
  assert (issuer opts ≠ VStr SELF_ISSUED) as Hself by discriminate.
  split_and!; [exact Hreserved|apply tagging_signer_no_dot
              |apply checking_world_accepts|exact Hheader|exact Hfull
              |exact Hnone|exact Hself|reflexivity|reflexivity|].
  exact (created_token_lifetime cpython world_ok w' payload opts
           (VDict header_with_kid) ∅ (resolution two_methods) (VStr "key-1")
           Hreserved (tagging_signer_no_dot _ _)
           (checking_world_accepts _ _ _ _) Hheader Hfull Hnone Hself
           eq_refl eq_refl).
Defined.

Lemma caller_expiry_governs_witness :
  let w' := checking_world 1700000000 two_methods in
  let opts := tagging_options "did:ebsi:abc" "key-1" in
  let payload : dict := {[ "exp" := VInt 1699999000 ]} in
  let full := full_payload (time_time world_ok) payload (issuer opts) in
  payload !! "exp" = Some (VInt 1699999000)
  ∧ payload !! "iat" = None
  ∧ payload !! "aud" = None
  ∧ (∀ input, ∃ sig, signer opts input = Ok sig ∧ str_mem dot sig = false)
  ∧ (∀ input sig, signer opts input = Ok sig →
                  verify_ES256K w' input (str_remove pad_char sig)
                                (VStr "key-1") = Ok true)
  ∧ within_limits cpython (VDict header_with_kid) = true
  ∧ within_limits cpython (VDict full) = true
  ∧ issuer opts ≠ VNone
  ∧ issuer opts ≠ VStr SELF_ISSUED
  ∧ resolve w' (issuer opts) ∅ = Ok (resolution two_methods)
  ∧ list_first (verificationMethod (didDocument (resolution two_methods)))
    = Ok (VStr "key-1")
  ∧ ∃ token,
      outcome (create_jwt world_ok payload opts (VDict header_with_kid))
      = Ok token
      ∧ full !! "exp" = Some (VInt 1699999000)
      ∧ let res := outcome (verify_jwt w' token ∅) in
        let t0 := time_time world_ok in
        let t := time_time w' in
        (t0 - 300 ≤ t → t < 1699999000 + 300 →
         res = Ok (VDict full, resolution two_methods, issuer opts,
                   VStr "key-1", token))
        ∧ (t0 - 300 ≤ t → 1699999000 + 300 ≤ t →
           res = Raise (AssertionError (Some "Expired JWT")))
        ∧ (1699999000 ≤ t0 - 600 → ∃ e, res = Raise e).
Proof.
  intros w' opts payload full.
  assert (payload !! "exp" = Some (VInt 1699999000)) as Hexp
    by (vm_compute; reflexivity).
  assert (payload !! "iat" = None) as Hiat by (vm_compute; reflexivity).
  assert (payload !! "aud" = None) as Haud by (vm_compute; reflexivity).
  assert (within_limits cpython (VDict header_with_kid) = true) as Hheader
    by (vm_compute; reflexivity).
  assert (within_limits cpython (VDict full) = true) as Hfull
    by (vm_compute; reflexivity).
  assert (issuer opts ≠ VNone) as Hnone by discriminate.
  assert (issuer opts ≠ VStr SELF_ISSUED) as Hself by discriminate.
  split_and!; [exact Hexp|exact Hiat|exact Haud|apply tagging_signer_no_dot
              |apply checking_world_accepts|exact Hheader|exact Hfull
              |exact Hnone|exact Hself|reflexivity|reflexivity|].
  exact (caller_expiry_governs cpython world_ok w' payload opts
           (VDict header_with_kid) ∅ (resolution two_methods) (VStr "key-1")
           1699999000 Hexp Hiat Haud (tagging_signer_no_dot _ _)
           (checking_world_accepts _ _ _ _) Hheader Hfull Hnone Hself
           eq_refl eq_refl).
Defined.

End MoreWitnesses.
